(** * mysql-operator: cluster controller, cluster mutex and group monitor

    A shallow embedding of
      - mysqloperator/controller/innodbcluster/cluster_controller.py
      - mysqloperator/controller/group_monitor.py
    Python methods become functions in a state-and-exception monad over the
    orchestrator state the controller reads and writes.  Calls into modules
    that are not part of the embedded sources (the admin client [mysqlsh],
    [shellutils], [diagnose], the orchestrator objects) go through one
    environment function, which may answer with a value or raise, and are
    recorded in the order they are issued. *)

From Stdlib Require Import ZArith String List Lia QArith Qcanon.
From stdpp Require Import base option gmap strings list.

Local Open Scope string_scope.
Local Open Scope Z_scope.

(** ** Python values, truthiness and exceptions *)

Module Py.

(** The values a method of the controller hands back to its caller. *)
Inductive value :=
| VNone
| VBool (b : bool)
| VInt (n : Z)
| VStr (s : string).

#[global] Instance value_eq_dec : EqDecision value.
Proof. solve_decision. Defined.

(** [bool(v)]. *)
Definition truthy (v : value) : bool :=
  match v with
  | VNone => false
  | VBool b => b
  | VInt n => negb (Z.eqb n 0)
  | VStr s => negb (String.eqb s "")
  end.

(** [bool(s)] for a [str] that may also be [None]. *)
Definition truthy_str (s : option string) : bool :=
  match s with
  | Some s => negb (String.eqb s "")
  | None => false
  end.

(** The exception classes the controller raises, catches or lets through.
    [TemporaryError] and [PermanentError] are kopf's retry-later and
    permanent-failure sentinels; the delay is [None] when the raise site
    passes none. [MysqlshError] is [mysqlsh.Error] with its [code]. *)
Inductive exn :=
| TemporaryError (msg : string) (delay : option Z)
| PermanentError (msg : string)
| MysqlshError (code : Z) (msg : string)
| AssertionError (msg : string)
| IndexError (msg : string)
| KeyError (key : string)
| OtherException (msg : string).

#[global] Instance exn_eq_dec : EqDecision exn.
Proof. solve_decision. Defined.

(** Outcome of running a statement or call: a value, or a raised exception. *)
Inductive res (A : Type) :=
| Ok (a : A)
| Raise (e : exn).
Arguments Ok {A} a.
Arguments Raise {A} e.

(** What a call left behind: the exception it raised, if any. *)
Definition outcome {A} (r : res A) : option exn :=
  match r with
  | Ok _ => None
  | Raise e => Some e
  end.

Definition is_raise {A} (r : res A) : bool :=
  match r with
  | Ok _ => false
  | Raise _ => true
  end.

End Py.
Export Py.

(** ** The monad: state threaded through, exceptions propagate *)

Definition St (S A : Type) : Type := S → res A * S.

Definition ret {S A} (a : A) : St S A := λ w, (Ok a, w).

Definition bind {S A B} (m : St S A) (k : A → St S B) : St S B :=
  λ w, match m w with
       | (Ok a, w') => k a w'
       | (Raise e, w') => (Raise e, w')
       end.

Definition raise {S A} (e : exn) : St S A := λ w, (Raise e, w).

Definition gets {S A} (f : S → A) : St S A := λ w, (Ok (f w), w).

Definition modify {S} (f : S → S) : St S unit := λ w, (Ok tt, f w).

(** [try: m  except <classes matched by h> as e: h e]; an exception [h]
    does not match ([None]) propagates. *)
Definition try_except {S A} (m : St S A) (h : exn → option (St S A)) : St S A :=
  λ w, match m w with
       | (Ok a, w') => (Ok a, w')
       | (Raise e, w') =>
           match h e with
           | Some k => k w'
           | None => (Raise e, w')
           end
       end.

(** The exit half of a [with] block: [f] runs however [m] ends, and the
    outcome of [m] stands unless [f] itself raises. *)
Definition finally {S A B} (m : St S A) (f : St S B) : St S A :=
  λ w, match m w with
       | (r, w') =>
           match f w' with
           | (Ok _, w'') => (r, w'')
           | (Raise e, w'') => (Raise e, w'')
           end
       end.

Declare Scope py_scope.
Delimit Scope py_scope with py.
Notation "x <- m ;; k" := (bind m (λ x, k))
  (at level 100, m at next level, k at level 200, right associativity) : py_scope.
Notation "m ;;; k" := (bind m (λ _, k))
  (at level 100, k at level 200, right associativity) : py_scope.
Local Open Scope py_scope.

(** ** Reasoning about runs

    [wp m Q w]: the run of [m] from [w] ends in an outcome and a state that
    satisfy [Q]. [steps R m]: every run of [m] takes a state to an
    [R]-related one, however it ends. *)
Definition wp {S A} (m : St S A) (Q : res A → S → Prop) (w : S) : Prop :=
  Q (m w).1 (m w).2.

Definition steps {S A} (R : S → S → Prop) (m : St S A) : Prop :=
  ∀ w, R w (m w).2.

(** ** Data model of the controller *)

Module Controller.

(** Modelled from the spec: the [DIAG_CLUSTER_*] constants of the [diagnose]
    module, which is not among the embedded sources; the variants are the
    states section 3 lists for a Cluster Diagnostic. *)
Inductive ClusterDiagStatus :=
| DIAG_CLUSTER_INITIALIZING
| DIAG_CLUSTER_ONLINE
| DIAG_CLUSTER_ONLINE_PARTIAL
| DIAG_CLUSTER_ONLINE_UNCERTAIN
| DIAG_CLUSTER_OFFLINE
| DIAG_CLUSTER_OFFLINE_UNCERTAIN
| DIAG_CLUSTER_NO_QUORUM
| DIAG_CLUSTER_NO_QUORUM_UNCERTAIN
| DIAG_CLUSTER_SPLIT_BRAIN
| DIAG_CLUSTER_SPLIT_BRAIN_UNCERTAIN
| DIAG_CLUSTER_UNKNOWN
| DIAG_CLUSTER_INVALID
| DIAG_CLUSTER_FINALIZING.

#[global] Instance ClusterDiagStatus_eq_dec : EqDecision ClusterDiagStatus.
Proof. solve_decision. Defined.

(** Modelled from the spec: how a status is rendered inside a message; the
    text is the state's name in section 3. *)
Definition status_str (s : ClusterDiagStatus) : string :=
  match s with
  | DIAG_CLUSTER_INITIALIZING => "INITIALIZING"
  | DIAG_CLUSTER_ONLINE => "ONLINE"
  | DIAG_CLUSTER_ONLINE_PARTIAL => "ONLINE_PARTIAL"
  | DIAG_CLUSTER_ONLINE_UNCERTAIN => "ONLINE_UNCERTAIN"
  | DIAG_CLUSTER_OFFLINE => "OFFLINE"
  | DIAG_CLUSTER_OFFLINE_UNCERTAIN => "OFFLINE_UNCERTAIN"
  | DIAG_CLUSTER_NO_QUORUM => "NO_QUORUM"
  | DIAG_CLUSTER_NO_QUORUM_UNCERTAIN => "NO_QUORUM_UNCERTAIN"
  | DIAG_CLUSTER_SPLIT_BRAIN => "SPLIT_BRAIN"
  | DIAG_CLUSTER_SPLIT_BRAIN_UNCERTAIN => "SPLIT_BRAIN_UNCERTAIN"
  | DIAG_CLUSTER_UNKNOWN => "UNKNOWN"
  | DIAG_CLUSTER_INVALID => "INVALID"
  | DIAG_CLUSTER_FINALIZING => "FINALIZING"
  end.

(** The diagnoses tagged UNCERTAIN: one or more pods could not be reached. *)
Definition is_uncertain (s : ClusterDiagStatus) : bool :=
  match s with
  | DIAG_CLUSTER_ONLINE_UNCERTAIN
  | DIAG_CLUSTER_OFFLINE_UNCERTAIN
  | DIAG_CLUSTER_NO_QUORUM_UNCERTAIN
  | DIAG_CLUSTER_SPLIT_BRAIN_UNCERTAIN => true
  | _ => false
  end.

(** Modelled from the spec: the [DIAG_CANDIDATE_*] constants of [diagnose]. *)
Inductive CandidateDiagStatus :=
| DIAG_CANDIDATE_JOINABLE
| DIAG_CANDIDATE_REJOINABLE
| DIAG_CANDIDATE_MEMBER
| DIAG_CANDIDATE_UNREACHABLE
| DIAG_CANDIDATE_BROKEN.

#[global] Instance CandidateDiagStatus_eq_dec : EqDecision CandidateDiagStatus.
Proof. solve_decision. Defined.

(** Modelled from the spec: what the controller reads off a [MySQLPod]
    ([cluster_api] is not among the embedded sources): name, ordinal index,
    deletion flag, endpoints and the observed membership fields. The
    connection options [endpoint_co] and [xendpoint_co] are identified with
    the endpoints. *)
Record MySQLPod := {
  pod_name : string;
  pod_index : Z;
  pod_deleting : bool;
  pod_endpoint : string;
  pod_xendpoint : string;
  pod_membership_info : option (gmap string string)
}.

#[global] Instance MySQLPod_eq_dec : EqDecision MySQLPod.
Proof. solve_decision. Defined.

(** [pod.get_membership_info(field)]. *)
Definition get_membership_info (pod : MySQLPod) (field : string) : option string :=
  info ← pod_membership_info pod; info !! field.

Record CloneSpec := { clone_uri : string }.

(** [parsed_spec.initDB]: the clone source, when the init source is a clone. *)
Record InitDBSpec := { initDB_clone : option CloneSpec }.

(** Modelled from the spec: what the controller reads off an [InnoDBCluster]
    handle: identity, deletion flag and the parts of the spec it consults. *)
Record InnoDBCluster := {
  cluster_name : string;
  cluster_namespace : string;
  cluster_deleting : bool;
  cluster_initDB : option InitDBSpec;
  cluster_routers : option Z
}.

(** Handles of the admin client. *)
Record Dba := { dba_uri : string }.
Record Session := { session_uri : string }.
Record DbaCluster := { dba_cluster_id : string }.

#[global] Instance Dba_eq_dec : EqDecision Dba.
Proof. solve_decision. Defined.
#[global] Instance Session_eq_dec : EqDecision Session.
Proof. solve_decision. Defined.
#[global] Instance DbaCluster_eq_dec : EqDecision DbaCluster.
Proof. solve_decision. Defined.

(** [dba.session] *)
Definition dba_session (d : Dba) : Session := {| session_uri := dba_uri d |}.

(** The value [diagnose.diagnose_cluster] returns. *)
Record ClusterDiagnostic := {
  diag_status : ClusterDiagStatus;
  diag_online_members : list string;
  diag_primary : option MySQLPod;
  diag_quorum_candidates : list MySQLPod
}.

(** The tuple [shellutils.query_membership_info] returns. *)
Record MembershipInfo := {
  mi_member_id : string;
  mi_role : string;
  mi_status : string;
  mi_view_id : string;
  mi_version : string
}.

#[global] Instance MembershipInfo_eq_dec : EqDecision MembershipInfo.
Proof. solve_decision. Defined.

(** A Python [dict] with string keys, as passed for admin options. *)
Abbreviation options := (gmap string value).

(** The orchestrator's body of an object ([pod_body]), a mapping. The
    embedded code only looks an entry up, so what the entry holds is not
    modelled further. *)
Abbreviation Body := (gmap string value).

(** [d.update(u)]: the entries of [u] win. *)
Definition dict_update (d u : options) : options := u ∪ d.

(** ** Calls into the collaborators

    Every call that leaves the embedded sources; [Ret] gives the type of
    what the call returns when it does not raise. *)
Inductive Call :=
| DiagnoseCluster
| DiagnoseClusterCandidate (primary : Session) (c : option DbaCluster)
    (pod : string) (pod_dba : Dba)
| IsoTime
| DatetimeNow
| GetPods
| ConnectDba (endpoint : string)
| CreateDba (endpoint : string)
| ConnectToPod (pod : string)
| CloseDba (d : Dba)
| CloseSession (s : Session)
| DbaGetCluster (d : Dba)
| ClusterStatus (c : DbaCluster)
| DbaCreateCluster (d : Dba) (name : string) (opts : options)
| RunSql (s : Session) (stmt : string) (args : list string)
| QueryMembershipInfo (s : Session)
| UpdateMembershipStatus (pod : string) (info : MembershipInfo) (joined : option bool)
| UpdateMemberReadinessGate (pod : string) (gate : string) (v : bool)
| GetRouterAccount
| GetBackupAccount
| SetupRouterAccount (c : DbaCluster) (user : string) (opts : options)
| SetupBackupAccount (s : Session) (user password : string)
| RouterUpdateSize (n : Z)
| RebootClusterFromCompleteOutage (d : Dba)
| ForceQuorumUsingPartitionOf (c : DbaCluster) (endpoint : string)
| AddInstance (c : DbaCluster) (endpoint : string) (opts : options)
| RejoinInstance (c : DbaCluster) (endpoint : string) (opts : options)
| RemoveInstance (c : DbaCluster) (endpoint : string) (opts : options).

#[global] Instance Call_eq_dec : EqDecision Call.
Proof. solve_decision. Defined.

Definition Ret (c : Call) : Type :=
  match c with
  | DiagnoseCluster => ClusterDiagnostic
  | DiagnoseClusterCandidate _ _ _ _ => CandidateDiagStatus
  | IsoTime | DatetimeNow => string
  | GetPods => list MySQLPod
  | ConnectDba _ | CreateDba _ => Dba
  | ConnectToPod _ => Session
  | DbaGetCluster _ | DbaCreateCluster _ _ _
  | RebootClusterFromCompleteOutage _ => DbaCluster
  | ClusterStatus _ => string
  | QueryMembershipInfo _ => MembershipInfo
  | GetRouterAccount | GetBackupAccount => (string * string)%type
  | _ => unit
  end.

(** ** Orchestrator state

    Modelled from the spec: the persisted state lives in orchestrator
    objects (cluster status block, cluster info, create time, finalizers)
    whose accessors are in [cluster_api] and [utils], not among the embedded
    sources. Reads and writes of these objects are total. [calls] records
    the calls to collaborators, newest first, each with the exception it
    raised, if any. The two handles the
    controller keeps ([self.dba], [self.dba_cluster]) are carried along. *)
Record ClusterStatusBlock := {
  cs_status : ClusterDiagStatus;
  cs_onlineInstances : nat;
  cs_lastProbeTime : string
}.

Record ClusterInfo := {
  ci_initialDataSource : string;
  ci_incrementalRecoveryAllowed : bool
}.

Record World := {
  calls : list (Call * option exn);
  member_finalizers : gset string;
  cluster_status : option ClusterStatusBlock;
  cluster_info : option ClusterInfo;
  create_time : option string;
  mutex_slots : gmap (string * string) string;
  self_dba : option Dba;
  self_dba_cluster : option DbaCluster
}.

(** Field updates of [World]. *)
Definition record_call (c : Call) (o : option exn) (w : World) : World :=
  {| calls := (c, o) :: calls w; member_finalizers := member_finalizers w;
     cluster_status := cluster_status w; cluster_info := cluster_info w;
     create_time := create_time w; mutex_slots := mutex_slots w;
     self_dba := self_dba w; self_dba_cluster := self_dba_cluster w |}.

Definition with_member_finalizers (f : gset string) (w : World) : World :=
  {| calls := calls w; member_finalizers := f;
     cluster_status := cluster_status w; cluster_info := cluster_info w;
     create_time := create_time w; mutex_slots := mutex_slots w;
     self_dba := self_dba w; self_dba_cluster := self_dba_cluster w |}.

Definition with_cluster_status (s : option ClusterStatusBlock) (w : World) : World :=
  {| calls := calls w; member_finalizers := member_finalizers w;
     cluster_status := s; cluster_info := cluster_info w;
     create_time := create_time w; mutex_slots := mutex_slots w;
     self_dba := self_dba w; self_dba_cluster := self_dba_cluster w |}.

Definition with_cluster_info (i : option ClusterInfo) (w : World) : World :=
  {| calls := calls w; member_finalizers := member_finalizers w;
     cluster_status := cluster_status w; cluster_info := i;
     create_time := create_time w; mutex_slots := mutex_slots w;
     self_dba := self_dba w; self_dba_cluster := self_dba_cluster w |}.

Definition with_create_time (t : option string) (w : World) : World :=
  {| calls := calls w; member_finalizers := member_finalizers w;
     cluster_status := cluster_status w; cluster_info := cluster_info w;
     create_time := t; mutex_slots := mutex_slots w;
     self_dba := self_dba w; self_dba_cluster := self_dba_cluster w |}.

Definition with_mutex_slots (m : gmap (string * string) string) (w : World) : World :=
  {| calls := calls w; member_finalizers := member_finalizers w;
     cluster_status := cluster_status w; cluster_info := cluster_info w;
     create_time := create_time w; mutex_slots := m;
     self_dba := self_dba w; self_dba_cluster := self_dba_cluster w |}.

Definition with_self_dba (d : option Dba) (w : World) : World :=
  {| calls := calls w; member_finalizers := member_finalizers w;
     cluster_status := cluster_status w; cluster_info := cluster_info w;
     create_time := create_time w; mutex_slots := mutex_slots w;
     self_dba := d; self_dba_cluster := self_dba_cluster w |}.

Definition with_self_dba_cluster (c : option DbaCluster) (w : World) : World :=
  {| calls := calls w; member_finalizers := member_finalizers w;
     cluster_status := cluster_status w; cluster_info := cluster_info w;
     create_time := create_time w; mutex_slots := mutex_slots w;
     self_dba := self_dba w; self_dba_cluster := c |}.

Abbreviation M := (St World).

(** ** Orchestrator objects *)

(** [pod.add_member_finalizer()] and [pod.remove_member_finalizer()]. *)
Definition add_member_finalizer (pod : MySQLPod) : M unit :=
  modify (λ w, with_member_finalizers ({[pod_name pod]} ∪ member_finalizers w) w).

Definition remove_member_finalizer (pod : MySQLPod) : M unit :=
  modify (λ w, with_member_finalizers (member_finalizers w ∖ {[pod_name pod]}) w).

Definition has_member_finalizer (pod : MySQLPod) (w : World) : bool :=
  bool_decide (pod_name pod ∈ member_finalizers w).

(** [cluster.set_cluster_status(d)], [cluster.get_cluster_status(field)]. *)
Definition set_cluster_status (s : ClusterStatusBlock) : M unit :=
  modify (with_cluster_status (Some s)).

Definition get_cluster_status {A} (field : ClusterStatusBlock → A) : M (option A) :=
  gets (λ w, field <$> cluster_status w).

(** [cluster.update_cluster_info(d)], [cluster.incremental_recovery_allowed()]. *)
Definition update_cluster_info (i : ClusterInfo) : M unit :=
  modify (with_cluster_info (Some i)).

Definition incremental_recovery_allowed : M bool :=
  gets (λ w, match cluster_info w with
             | Some i => ci_incrementalRecoveryAllowed i
             | None => false
             end).

(** [cluster.get_create_time()], [cluster.set_create_time(t)]. *)
Definition get_create_time : M (option string) := gets create_time.

Definition set_create_time (t : string) : M unit :=
  modify (with_create_time (Some t)).

(** [common_gr_options] *)
Definition common_gr_options : options :=
  {[ "exitStateAction" := VStr "ABORT_SERVER" ]}.

(** ** ClusterMutex

    Modelled from the spec: [utils.g_ephemeral_pod_state] is not among the
    embedded sources. Per section 4.3, [testset] tests-and-sets the cluster's
    slot: it hands back the current holder and leaves it in place when the
    slot is held, and stores the new token and hands back [None] when it is
    free; [set] with [None] clears the slot. The slot is keyed by the
    cluster's identity. *)
Definition mutex_key (cluster : InnoDBCluster) : string * string :=
  (cluster_namespace cluster, cluster_name cluster).

Definition testset (cluster : InnoDBCluster) (value : string) : M (option string) :=
  λ w, match mutex_slots w !! mutex_key cluster with
       | Some owner => (Ok (Some owner), w)
       | None => (Ok None, with_mutex_slots (<[mutex_key cluster := value]> (mutex_slots w)) w)
       end.

Definition set_none (cluster : InnoDBCluster) : M unit :=
  modify (λ w, with_mutex_slots (delete (mutex_key cluster) (mutex_slots w)) w).

(** [ClusterMutex.__enter__] *)
Definition ClusterMutex_enter (cluster : InnoDBCluster) (pod : option MySQLPod) : M unit :=
  owner <- testset cluster (match pod with
                            | Some p => pod_name p
                            | None => cluster_name cluster
                            end) ;;
  if truthy_str owner then
    raise (TemporaryError
             (cluster_name cluster ++ " busy.  lock_owner=" ++ default "" owner)
             (Some 10))
  else ret tt.

(** [ClusterMutex.__exit__] *)
Definition ClusterMutex_exit (cluster : InnoDBCluster) (pod : option MySQLPod) : M unit :=
  set_none cluster.

(** [with ClusterMutex(cluster, pod): body]. [__exit__] runs only when
    [__enter__] returned, and returns [None], so an exception of the body
    propagates after the release. *)
Definition with_ClusterMutex {A} (cluster : InnoDBCluster) (pod : option MySQLPod)
    (body : M A) : M A :=
  ClusterMutex_enter cluster pod ;;;
  finally body (ClusterMutex_exit cluster pod).

(** ** ClusterController *)

(** What the controller is run against.
    - [K_env]: the collaborators, i.e. what each call answers in a given
      state (the state holds the calls made so far, so an answer may depend
      on the history);
    - [K_RetryLoop_call]: [shellutils.RetryLoop(logger).call(f, *args)],
      which is not among the embedded sources;
    - the error codes of the admin client, opaque integer constants. *)
Record Collaborators := {
  K_env : World → ∀ c : Call, res (Ret c);
  K_RetryLoop_call : ∀ A : Type, M A → M A;
  K_SHERR_DBA_BADARG_INSTANCE_NOT_ONLINE : Z;
  K_SHERR_DBA_BADARG_INSTANCE_ALREADY_IN_GR : Z;
  K_SHERR_DBA_MEMBER_METADATA_MISSING : Z;
  K_ER_NONEXISTING_GRANT : Z;
  K_ER_OPTION_PREVENTS_STATEMENT : Z
}.

Section ClusterController.

Variable K : Collaborators.

(** [self.cluster] *)
Variable cluster : InnoDBCluster.

Local Abbreviation env := (K_env K).
Local Abbreviation RetryLoop_call := (K_RetryLoop_call K).
Local Abbreviation SHERR_DBA_BADARG_INSTANCE_NOT_ONLINE :=
  (K_SHERR_DBA_BADARG_INSTANCE_NOT_ONLINE K).
Local Abbreviation SHERR_DBA_BADARG_INSTANCE_ALREADY_IN_GR :=
  (K_SHERR_DBA_BADARG_INSTANCE_ALREADY_IN_GR K).
Local Abbreviation SHERR_DBA_MEMBER_METADATA_MISSING :=
  (K_SHERR_DBA_MEMBER_METADATA_MISSING K).
Local Abbreviation ER_NONEXISTING_GRANT := (K_ER_NONEXISTING_GRANT K).
Local Abbreviation ER_OPTION_PREVENTS_STATEMENT := (K_ER_OPTION_PREVENTS_STATEMENT K).

Definition call (c : Call) : M (Ret c) :=
  λ w, (env w c, record_call c (outcome (env w c)) w).

(** [with shellutils.connect_dba(endpoint, ...) as dba: body]; the keyword
    arguments of [connect_dba] only tune its own retries and are left to
    the environment. *)
Definition with_connect_dba {A} (endpoint : string) (body : Dba → M A) : M A :=
  dba <- call (ConnectDba endpoint) ;;
  finally (body dba) (call (CloseDba dba)).

(** [with shellutils.connect_to_pod(pod, ...) as session: body] *)
Definition with_connect_to_pod {A} (pod : MySQLPod) (body : Session → M A) : M A :=
  session <- call (ConnectToPod (pod_name pod)) ;;
  finally (body session) (call (CloseSession session)).

(** An attribute access on [self.dba] or [self.dba_cluster], which may be
    [None]. *)
Definition the_dba : M Dba :=
  d <- gets self_dba ;;
  match d with
  | Some d => ret d
  | None => raise (OtherException "'NoneType' object has no attribute")
  end.

Definition the_dba_cluster : M DbaCluster :=
  c <- gets self_dba_cluster ;;
  match c with
  | Some c => ret c
  | None => raise (OtherException "'NoneType' object has no attribute")
  end.

Definition publish_status (diag : ClusterDiagnostic) : M unit :=
  now <- call IsoTime ;;
  set_cluster_status {| cs_status := diag_status diag;
                        cs_onlineInstances := length (diag_online_members diag);
                        cs_lastProbeTime := now |}.

Definition probe_status : M ClusterDiagnostic :=
  diag <- call DiagnoseCluster ;;
  publish_status diag ;;;
  ret diag.

Definition unreachable_states : list ClusterDiagStatus :=
  [DIAG_CLUSTER_UNKNOWN; DIAG_CLUSTER_ONLINE_UNCERTAIN;
   DIAG_CLUSTER_OFFLINE_UNCERTAIN; DIAG_CLUSTER_NO_QUORUM_UNCERTAIN;
   DIAG_CLUSTER_SPLIT_BRAIN_UNCERTAIN].

(** [x in t] where [x] may be [None]. *)
Definition status_in (s : option ClusterDiagStatus) (t : list ClusterDiagStatus) : bool :=
  match s with
  | Some s => bool_decide (s ∈ t)
  | None => false
  end.

(** [a < b] on two [str] that may be [None]; only evaluated when both are
    truthy. *)
Definition str_lt (a b : option string) : bool :=
  match a, b with
  | Some a, Some b => String.ltb a b
  | _, _ => false
  end.

Definition probe_status_if_needed (changed_pod : MySQLPod) : M (option ClusterDiagStatus) :=
  cluster_probe_time <- get_cluster_status cs_lastProbeTime ;;
  let member_transition_time := get_membership_info changed_pod "lastTransitionTime" in
  last_status <- get_cluster_status cs_status ;;
  if (truthy_str cluster_probe_time && truthy_str member_transition_time
      && str_lt cluster_probe_time member_transition_time)
     || status_in last_status unreachable_states
  then
    diag <- probe_status ;;
    ret (Some (diag_status diag))
  else
    ret last_status.

Definition probe_member_status (pod : MySQLPod) (session : Session) (joined : bool) : M unit :=
  info <- call (QueryMembershipInfo session) ;;
  call (UpdateMembershipStatus (pod_name pod) info (Some joined)) ;;;
  if String.eqb (mi_status info) "ONLINE" then
    call (UpdateMemberReadinessGate (pod_name pod) "ready" true)
  else
    call (UpdateMemberReadinessGate (pod_name pod) "ready" false).

(** The [for pod in all_pods] loop of [try_connect]. The result is [inl pod]
    when the loop leaves through [return pod], and otherwise the final
    [last_exc] and [offline_pods]. *)
Fixpoint try_connect_loop (pods : list MySQLPod) (last_exc : option exn)
    (offline_pods : list string) : M (MySQLPod + option exn * list string) :=
  match pods with
  | [] => ret (inr (last_exc, offline_pods))
  | pod :: rest =>
      if bool_decide (pod_name pod ∈ offline_pods) || pod_deleting pod then
        try_connect_loop rest last_exc offline_pods
      else
        r <- try_except (d <- call (CreateDba (pod_endpoint pod)) ;;
                         modify (with_self_dba (Some d)) ;;;
                         ret (inl d))
                        (λ e, Some (ret (inr e))) ;;
        match r with
        | inr e => try_connect_loop rest (Some e) offline_pods
        | inl d =>
            r <- try_except
                   (c <- call (DbaGetCluster d) ;;
                    modify (with_self_dba_cluster (Some c)) ;;;
                    call (ClusterStatus c) ;;;
                    ret (inl pod))
                   (λ e, match e with
                         | MysqlshError code _ =>
                             if code =? SHERR_DBA_BADARG_INSTANCE_NOT_ONLINE
                             then Some (ret (inr (offline_pods ++ [pod_name pod])%list))
                             else Some (ret (inr offline_pods))
                         | _ => Some (ret (inr offline_pods))
                         end) ;;
            match r with
            | inl pod => ret (inl pod)
            | inr offline_pods => try_connect_loop rest last_exc offline_pods
            end
        end
  end.

Definition connect_to_cluster : M MySQLPod :=
  all_pods <- call GetPods ;;
  r <- try_connect_loop all_pods None [] ;;
  match r with
  | inl pod => ret pod
  | inr (last_exc, offline_pods) =>
      if (length offline_pods =? length all_pods)%nat then
        raise (TemporaryError "Could not connect to any cluster member" (Some 15))
      else
        match last_exc with
        | Some e => raise e
        | None => raise (TemporaryError "Could not connect to any cluster member" (Some 15))
        end
  end.

Definition connect_to_primary (primary_pod : option MySQLPod) : M (option DbaCluster) :=
  match primary_pod with
  | Some primary_pod =>
      d <- call (ConnectDba (pod_endpoint primary_pod)) ;;
      modify (with_self_dba (Some d)) ;;;
      c <- call (DbaGetCluster d) ;;
      modify (with_self_dba_cluster (Some c))
  | None =>
      connect_to_cluster ;;; ret tt
  end ;;;
  gets self_dba_cluster.

Definition log_mysql_info (pod : MySQLPod) (session : Session) : M unit :=
  call (RunSql session "select @@server_id, @@server_uuid, @@report_host" []) ;;;
  try_except
    (call (RunSql session "select @@globals.gtid_executed, @@globals.gtid_purged" []))
    (λ _, Some (ret tt)).

Definition post_create_actions (dba : Dba) (dba_cluster : option DbaCluster)
    (seed_pod : MySQLPod) : M unit :=
  account <- call GetRouterAccount ;;
  let '(user, password) := account in
  update <- try_except
              (call (RunSql (dba_session dba) "show grants for ?@'%'" [user]) ;;;
               ret true)
              (λ e, match e with
                    | MysqlshError code _ =>
                        if code =? ER_NONEXISTING_GRANT then Some (ret false) else None
                    | _ => None
                    end) ;;
  match dba_cluster with
  | Some c =>
      call (SetupRouterAccount c user
              (<["password" := VStr password]> (<["update" := VBool update]> ∅)))
  | None => raise (OtherException "'NoneType' object has no attribute")
  end ;;;
  account <- call GetBackupAccount ;;
  let '(user, password) := account in
  call (SetupBackupAccount (dba_session dba) user password) ;;;
  match cluster_routers cluster with
  | Some n => if negb (n =? 0) then call (RouterUpdateSize n) else ret tt
  | None => ret tt
  end.

(** The options [create_cluster] builds before it connects. *)
Definition create_options (assume_gtid_set_complete : bool) : options :=
  dict_update
    (<["gtidSetIsComplete" := VBool assume_gtid_set_complete]>
       (<["startOnBoot" := VBool false]>
          (<["memberSslMode" := VStr "REQUIRED"]> ∅)))
    common_gr_options.

(** The [try ... except mysqlsh.Error as e] block of [create_cluster] around
    the admin client's [create_cluster] primitive. *)
Definition try_dba_create_cluster (seed_pod : MySQLPod) (dba : Dba)
    (create_options : options) : M unit :=
  try_except
    (c <- call (DbaCreateCluster dba (cluster_name cluster) create_options) ;;
     modify (with_self_dba_cluster (Some c)))
    (λ e, match e with
          | MysqlshError code _ =>
              Some (remove_member_finalizer seed_pod ;;;
                    (if code =? SHERR_DBA_BADARG_INSTANCE_ALREADY_IN_GR then
                       try_except
                         (call (RunSql (dba_session dba) "STOP GROUP_REPLICATION" []))
                         (λ e', match e' with
                                | MysqlshError _ _ =>
                                    Some (raise (TemporaryError
                                      "GR already running while creating cluster but could not stop it"
                                      (Some 3)))
                                | _ => None
                                end)
                     else ret tt) ;;;
                    raise e)
          | _ => None
          end).

Definition create_cluster (seed_pod : MySQLPod) : M unit :=
  assume_gtid_set_complete <-
    match cluster_initDB cluster with
    | Some initDB =>
        match initDB_clone initDB with
        | Some clone =>
            update_cluster_info
              {| ci_initialDataSource := "clone=" ++ clone_uri clone;
                 ci_incrementalRecoveryAllowed := false |} ;;;
            ret false
        | None => raise (AssertionError "internal error")
        end
    | None =>
        update_cluster_info
          {| ci_initialDataSource := "blank";
             ci_incrementalRecoveryAllowed := true |} ;;;
        ret true
    end ;;
  let create_options := create_options assume_gtid_set_complete in
  with_connect_dba (pod_endpoint seed_pod) (λ dba,
    try_except
      (c <- call (DbaGetCluster dba) ;;
       modify (with_self_dba_cluster (Some c)))
      (λ _, Some (modify (with_self_dba_cluster None))) ;;;
    add_member_finalizer seed_pod ;;;
    existing <- gets self_dba_cluster ;;
    match existing with
    | Some _ => ret tt
    | None =>
        log_mysql_info seed_pod (dba_session dba) ;;;
        try_dba_create_cluster seed_pod dba create_options
    end ;;;
    probe_member_status seed_pod (dba_session dba) true ;;;
    c <- the_dba_cluster ;;
    call (ClusterStatus c) ;;;
    dba_cluster <- gets self_dba_cluster ;;
    post_create_actions dba dba_cluster seed_pod).

Definition reboot_cluster : M unit :=
  pods <- call GetPods ;;
  match pods with
  | [] => raise (IndexError "list index out of range")
  | seed_pod :: _ =>
      with_connect_dba (pod_endpoint seed_pod) (λ dba,
        log_mysql_info seed_pod (dba_session dba) ;;;
        add_member_finalizer seed_pod ;;;
        c <- call (RebootClusterFromCompleteOutage dba) ;;
        call (ClusterStatus c) ;;;
        ret tt)
  end.

Definition force_quorum (seed_pod : MySQLPod) : M unit :=
  connect_to_primary (Some seed_pod) ;;;
  c <- the_dba_cluster ;;
  call (ForceQuorumUsingPartitionOf c (pod_endpoint seed_pod)) ;;;
  c <- the_dba_cluster ;;
  call (ClusterStatus c) ;;;
  ret tt.

Definition destroy_cluster (last_pod : MySQLPod) : M unit :=
  stopped <- try_except
               (with_connect_to_pod last_pod (λ session,
                  call (RunSql session "STOP group_replication" [])) ;;;
                ret true)
               (λ _, Some (remove_member_finalizer last_pod ;;; ret false)) ;;
  if stopped : bool then remove_member_finalizer last_pod else ret tt.

Definition join_instance (pod : MySQLPod) (pod_dba_session : Dba) : M unit :=
  peer_pod <- connect_to_cluster ;;
  log_mysql_info pod (dba_session pod_dba_session) ;;;
  allowed <- incremental_recovery_allowed ;;
  let recovery_method := if allowed : bool then "incremental" else "clone" in
  let add_options :=
    dict_update (<["recoveryMethod" := VStr recovery_method]> ∅) common_gr_options in
  try_except
    (add_member_finalizer pod ;;;
     c <- the_dba_cluster ;;
     call (AddInstance c (pod_endpoint pod) add_options))
    (λ e, match e with
          | MysqlshError _ _ => Some (raise e)
          | _ => None
          end) ;;;
  probe_member_status pod (dba_session pod_dba_session) true.

Definition rejoin_instance (pod : MySQLPod) (pod_dba_session : Dba) : M unit :=
  peer_pod <- connect_to_cluster ;;
  log_mysql_info pod (dba_session pod_dba_session) ;;;
  let rejoin_options : options := ∅ in
  try_except
    (c <- the_dba_cluster ;;
     call (RejoinInstance c (pod_endpoint pod) rejoin_options))
    (λ e, match e with
          | MysqlshError _ _ => Some (raise e)
          | _ => None
          end) ;;;
  probe_member_status pod (dba_session pod_dba_session) false.

Definition reconcile_pod (primary_pod : option MySQLPod) (pod : MySQLPod) : M unit :=
  with_connect_dba (pod_endpoint pod) (λ pod_dba_session,
    c <- connect_to_primary primary_pod ;;
    d <- the_dba ;;
    status <- call (DiagnoseClusterCandidate (dba_session d) c (pod_name pod)
                      pod_dba_session) ;;
    if pod_deleting pod || cluster_deleting cluster then ret tt
    else
      match status with
      | DIAG_CANDIDATE_JOINABLE => join_instance pod pod_dba_session
      | DIAG_CANDIDATE_REJOINABLE => rejoin_instance pod pod_dba_session
      | DIAG_CANDIDATE_MEMBER => ret tt
      | DIAG_CANDIDATE_UNREACHABLE => ret tt
      | _ => ret tt
      end).

(** [pod_body] is the orchestrator's body of [pod], a mapping: it is handed
    on to [pod.remove_member_finalizer] and, in the last statement, its
    [metadata] entry is looked up for the log line, which raises [KeyError]
    when the entry is missing. *)
Definition remove_instance (pod : MySQLPod) (pod_body : Body) (force : bool) : M unit :=
  pods <- call GetPods ;;
  (if (1 <? length pods)%nat then
     peer_pod <- try_except
                   (p <- connect_to_cluster ;; ret (Some p))
                   (λ e, match e with
                         | MysqlshError _ _ =>
                             if cluster_deleting cluster then Some (ret None)
                             else Some (raise e)
                         | _ => None
                         end) ;;
     match peer_pod with
     | Some peer_pod =>
         removed <-
           (if negb force then
              try_except
                (c <- the_dba_cluster ;;
                 call (RemoveInstance c (pod_endpoint pod) ∅) ;;;
                 ret true)
                (λ e, match e with
                      | MysqlshError code _ =>
                          if code =? ER_OPTION_PREVENTS_STATEMENT then
                            Some (raise (TemporaryError
                              (pod_name peer_pod ++ " is a PRIMARY but super_read_only is ON")
                              (Some 5)))
                          else if code =? SHERR_DBA_MEMBER_METADATA_MISSING then
                            Some (ret true)
                          else Some (ret false)
                      | _ => None
                      end)
            else ret false) ;;
         if negb removed then
           try_except
             (c <- the_dba_cluster ;;
              call (RemoveInstance c (pod_endpoint pod) (<["force" := VBool true]> ∅)))
             (λ e, match e with
                   | MysqlshError code _ =>
                       if code =? SHERR_DBA_MEMBER_METADATA_MISSING then Some (ret tt)
                       else if cluster_deleting cluster then Some (ret tt)
                       else Some (raise e)
                   | _ => None
                   end)
         else ret tt
     | None => ret tt
     end
   else ret tt) ;;;
  remove_member_finalizer pod ;;;
  match pod_body !! "metadata" with
  | Some _ => ret tt
  | None => raise (KeyError "metadata")
  end.

(** [repair_cluster] has no [return] with a value: whenever it returns, the
    caller receives [None]. *)
Definition repair_cluster (pod : MySQLPod) (diagnostic : ClusterDiagnostic) : M value :=
  let state := status_str (diag_status diagnostic) in
  match diag_status diagnostic with
  | DIAG_CLUSTER_ONLINE => ret VNone
  | DIAG_CLUSTER_ONLINE_PARTIAL => ret VNone
  | DIAG_CLUSTER_ONLINE_UNCERTAIN => ret VNone
  | DIAG_CLUSTER_OFFLINE =>
      (if pod_index pod =? 0 then RetryLoop_call unit reboot_cluster
       else ret tt) ;;;
      ret VNone
  | DIAG_CLUSTER_OFFLINE_UNCERTAIN =>
      raise (TemporaryError
               ("Unreachable members found while in state " ++ state ++ ", waiting...")
               None)
  | DIAG_CLUSTER_NO_QUORUM =>
      match diag_quorum_candidates diagnostic with
      | [] => raise (IndexError "list index out of range")
      | candidate :: _ =>
          RetryLoop_call unit (force_quorum candidate) ;;;
          ret VNone
      end
  | DIAG_CLUSTER_NO_QUORUM_UNCERTAIN =>
      raise (TemporaryError
               ("Unreachable members found while in state " ++ state ++ ", waiting...")
               None)
  | DIAG_CLUSTER_SPLIT_BRAIN =>
      raise (PermanentError
               ("Unable to recover from current cluster state. User action required. state="
                ++ state))
  | DIAG_CLUSTER_SPLIT_BRAIN_UNCERTAIN =>
      raise (A := unit) (PermanentError
               ("Unable to recover from current cluster state. User action required. state="
                ++ state)) ;;;
      raise (TemporaryError
               ("Unreachable members found while in state " ++ state ++ ", waiting...")
               None)
  | DIAG_CLUSTER_UNKNOWN =>
      raise (TemporaryError
               ("No members of the cluster could be reached. state=" ++ state)
               None)
  | DIAG_CLUSTER_INVALID =>
      raise (PermanentError
               ("Unable to recover from current cluster state. User action required. state="
                ++ state))
  | DIAG_CLUSTER_FINALIZING => ret VNone
  | DIAG_CLUSTER_INITIALIZING =>
      raise (PermanentError ("Invalid cluster state " ++ state))
  end.

Definition on_pod_created (pod : MySQLPod) : M unit :=
  diag <- probe_status ;;
  match diag_status diag with
  | DIAG_CLUSTER_INITIALIZING =>
      if pod_index pod =? 0 then
        t <- get_create_time ;;
        (if bool_decide (is_Some t) then
           raise (PermanentError
             "Internal inconsistency: cluster marked as initialized, but create requested again")
         else ret tt) ;;;
        RetryLoop_call unit (create_cluster pod) ;;;
        now <- call DatetimeNow ;;
        set_create_time now
      else
        raise (TemporaryError "Cluster is not yet ready" (Some 15))
  | DIAG_CLUSTER_ONLINE | DIAG_CLUSTER_ONLINE_PARTIAL | DIAG_CLUSTER_ONLINE_UNCERTAIN =>
      RetryLoop_call unit (reconcile_pod (diag_primary diag) pod)
  | _ =>
      repair_cluster pod diag ;;;
      raise (TemporaryError
               ("Cluster repair from state " ++ status_str (diag_status diag) ++ " attempted")
               (Some 3))
  end.

Definition on_pod_restarted (pod : MySQLPod) : M unit :=
  diag <- probe_status ;;
  match diag_status diag with
  | DIAG_CLUSTER_ONLINE | DIAG_CLUSTER_ONLINE_PARTIAL => ret VNone
  | _ => repair_cluster pod diag
  end ;;;
  RetryLoop_call unit (reconcile_pod (diag_primary diag) pod).

(** The test [pod.deleting or diag.status in (...)] of [on_pod_deleted]. *)
Definition removable (pod : MySQLPod) (diag : ClusterDiagnostic) : bool :=
  pod_deleting pod
  || bool_decide (diag_status diag ∈
       [DIAG_CLUSTER_ONLINE; DIAG_CLUSTER_ONLINE_PARTIAL;
        DIAG_CLUSTER_ONLINE_UNCERTAIN; DIAG_CLUSTER_FINALIZING]).

Definition on_pod_deleted (pod : MySQLPod) (pod_body : Body) : M unit :=
  diag <- probe_status ;;
  if cluster_deleting cluster && (pod_index pod =? 0) then
    destroy_cluster pod ;;;
    remove_member_finalizer pod
  else
    (if removable pod diag then
       RetryLoop_call unit (remove_instance pod pod_body false)
     else
       repaired <- repair_cluster pod diag ;;
       if truthy repaired then
         raise (TemporaryError
                  ("Cluster repair from state " ++ status_str (diag_status diag) ++ " attempted")
                  (Some 3))
       else ret tt) ;;;
    probe_status ;;;
    ret tt.

(** [on_pod_deleted] as section 9 of the specification reads it: the value of
    [repair_cluster] is taken as always falsy, so the branch it guards is
    dropped. *)
Definition on_pod_deleted_repair_falsy (pod : MySQLPod) (pod_body : Body) : M unit :=
  diag <- probe_status ;;
  if cluster_deleting cluster && (pod_index pod =? 0) then
    destroy_cluster pod ;;;
    remove_member_finalizer pod
  else
    (if removable pod diag then
       RetryLoop_call unit (remove_instance pod pod_body false)
     else
       repair_cluster pod diag ;;;
       ret tt) ;;;
    probe_status ;;;
    ret tt.

End ClusterController.

(** ** Relations between the state before and after a run *)

(** The member finalizers are as they were. *)
Definition keeps_finalizers (w w' : World) : Prop :=
  member_finalizers w' = member_finalizers w.

(** The calls recorded during the run all satisfy [P]. *)
Definition emits (P : Call * option exn → Prop) (w w' : World) : Prop :=
  ∃ new, calls w' = (new ++ calls w)%list ∧ Forall P new.

(** A recorded call of the admin client's [create_cluster] primitive carries
    the cluster's name and the options [opts]. *)
Definition create_call_with (name : string) (opts : options)
    (ev : Call * option exn) : Prop :=
  ∀ d n o, ev.1 = DbaCreateCluster d n o → n = name ∧ o = opts.

(** A recorded call is not a [create_cluster] primitive that raised an admin
    error. *)
Definition not_failed_create (ev : Call * option exn) : Prop :=
  ∀ d n o code msg, ev ≠ (DbaCreateCluster d n o, Some (MysqlshError code msg)).

(** How a run from [w] may end with respect to a failing create primitive:
    either no such failure was recorded, or the run raised and left
    [seed_pod] without member finalizer. *)
Definition create_failure_handled (seed_pod : MySQLPod) (w : World) {A}
    (r : res A) (w' : World) : Prop :=
  emits not_failed_create w w'
  ∨ (has_member_finalizer seed_pod w' = false ∧ is_raise r = true).

(** The same for a part of the run that is followed by more: a normal
    return has recorded no failed create. *)
Definition create_failure_contained (seed_pod : MySQLPod) (w : World) {A}
    (r : res A) (w' : World) : Prop :=
  match r with
  | Ok _ => emits not_failed_create w w'
  | Raise _ => emits not_failed_create w w' ∨ has_member_finalizer seed_pod w' = false
  end.

(** ** Sample collaborators and objects *)

(** Collaborators that answer the same way in every state. *)
Definition scripted (pods : list MySQLPod) (diag : res ClusterDiagnostic)
    (get_cluster create : res DbaCluster) (remove : res unit)
    : World → ∀ c : Call, res (Ret c) :=
  λ _ c,
    match c return res (Ret c) with
    | DiagnoseCluster => diag
    | DiagnoseClusterCandidate _ _ _ _ => Ok DIAG_CANDIDATE_MEMBER
    | IsoTime => Ok "2020-06-01T12:00:00Z"
    | DatetimeNow => Ok "2020-06-01T12:00:00Z"
    | GetPods => Ok pods
    | ConnectDba e => Ok {| dba_uri := e |}
    | CreateDba e => Ok {| dba_uri := e |}
    | ConnectToPod p => Ok {| session_uri := p |}
    | DbaGetCluster _ => get_cluster
    | DbaCreateCluster _ _ _ => create
    | RebootClusterFromCompleteOutage _ => Ok {| dba_cluster_id := "mycluster" |}
    | ClusterStatus _ => Ok "OK"
    | QueryMembershipInfo _ =>
        Ok {| mi_member_id := "uuid-0"; mi_role := "PRIMARY"; mi_status := "ONLINE";
              mi_view_id := "1"; mi_version := "8.0.21" |}
    | GetRouterAccount => Ok ("mysqlrouter", "secret")
    | GetBackupAccount => Ok ("mysqlbackup", "secret")
    | RemoveInstance _ _ _ => remove
    | _ => Ok tt
    end.

(** The scripted collaborators with a retry loop that calls once, the
    server's numbers for the two MySQL error codes and three distinct numbers
    for the shell's. *)
Definition sample_K (pods : list MySQLPod) (diag : res ClusterDiagnostic)
    (get_cluster create : res DbaCluster) (remove : res unit) : Collaborators :=
  {| K_env := scripted pods diag get_cluster create remove;
     K_RetryLoop_call := λ _ m, m;
     K_SHERR_DBA_BADARG_INSTANCE_NOT_ONLINE := 51314;
     K_SHERR_DBA_BADARG_INSTANCE_ALREADY_IN_GR := 51315;
     K_SHERR_DBA_MEMBER_METADATA_MISSING := 51104;
     K_ER_NONEXISTING_GRANT := 1141;
     K_ER_OPTION_PREVENTS_STATEMENT := 1290 |}.

(** Collaborators for which every call succeeds and the probe reports
    [status]. *)
Definition K_reporting (status : ClusterDiagStatus) : Collaborators :=
  sample_K [] (Ok {| diag_status := status; diag_online_members := [];
                     diag_primary := None; diag_quorum_candidates := [] |})
    (Ok {| dba_cluster_id := "mycluster" |}) (Ok {| dba_cluster_id := "mycluster" |})
    (Ok tt).

(** Collaborators for a seed that is not yet in a cluster ([get_cluster]
    raises) and whose create primitive answers [create]. *)
Definition K_fresh (create : res DbaCluster) : Collaborators :=
  sample_K [] (Ok {| diag_status := DIAG_CLUSTER_INITIALIZING; diag_online_members := [];
                     diag_primary := None; diag_quorum_candidates := [] |})
    (Raise (MysqlshError 51102 "This function is not available through a session to a standalone instance"))
    create (Ok tt).

Definition sample_pod (i : Z) (name : string) : MySQLPod :=
  {| pod_name := name; pod_index := i; pod_deleting := false;
     pod_endpoint := name ++ ".mycluster-instances:3306";
     pod_xendpoint := name ++ ".mycluster-instances:33060";
     pod_membership_info := None |}.

(** The body of the pod called [name], as the orchestrator hands it over:
    it has its [metadata] entry. *)
Definition sample_body (name : string) : Body := {[ "metadata" := VStr name ]}.

Definition pod0 : MySQLPod := sample_pod 0 "mycluster-0".
Definition pod1 : MySQLPod := sample_pod 1 "mycluster-1".

Definition sample_cluster (deleting : bool) (initDB : option InitDBSpec) : InnoDBCluster :=
  {| cluster_name := "mycluster"; cluster_namespace := "default";
     cluster_deleting := deleting; cluster_initDB := initDB;
     cluster_routers := None |}.

Definition sample_diag (s : ClusterDiagStatus) : ClusterDiagnostic :=
  {| diag_status := s; diag_online_members := []; diag_primary := None;
     diag_quorum_candidates := [] |}.

Definition empty_world : World :=
  {| calls := []; member_finalizers := ∅; cluster_status := None;
     cluster_info := None; create_time := None; mutex_slots := ∅;
     self_dba := None; self_dba_cluster := None |}.

Definition the_cluster_handle : DbaCluster := {| dba_cluster_id := "mycluster" |}.

(** A pod whose membership last changed at [t]. *)
Definition pod_changed_at (t : string) : MySQLPod :=
  {| pod_name := "mycluster-1"; pod_index := 1; pod_deleting := false;
     pod_endpoint := "mycluster-1.mycluster-instances:3306";
     pod_xendpoint := "mycluster-1.mycluster-instances:33060";
     pod_membership_info := Some {[ "lastTransitionTime" := t ]} |}.

(** A world whose last probe, at [t], recorded [status]. *)
Definition world_probed (status : ClusterDiagStatus) (t : string) : World :=
  with_cluster_status
    (Some {| cs_status := status; cs_onlineInstances := 0; cs_lastProbeTime := t |})
    empty_world.

(** A world in which [owner] holds the mutex slot of the sample cluster. *)
Definition world_locked (owner : string) : World :=
  with_mutex_slots {[ ("default", "mycluster") := owner ]} empty_world.

(** ** Further relations and call classes *)

(** The cluster info block is as it was. *)
Definition keeps_cluster_info (w w' : World) : Prop :=
  cluster_info w' = cluster_info w.

(** Nothing of the orchestrator state has changed (only calls were recorded
    and the controller's handles may have moved). *)
Definition keeps_orchestrator (w w' : World) : Prop :=
  member_finalizers w' = member_finalizers w
  ∧ cluster_status w' = cluster_status w
  ∧ cluster_info w' = cluster_info w
  ∧ create_time w' = create_time w
  ∧ mutex_slots w' = mutex_slots w.

(** A member finalizer that is present stays. *)
Definition finalizers_grow (w w' : World) : Prop :=
  member_finalizers w ⊆ member_finalizers w'.

(** Calls that change group membership or the cluster itself. *)
Definition is_membership_call (c : Call) : bool :=
  match c with
  | AddInstance _ _ _ | RejoinInstance _ _ _ | RemoveInstance _ _ _
  | DbaCreateCluster _ _ _ | RebootClusterFromCompleteOutage _
  | ForceQuorumUsingPartitionOf _ _ => true
  | _ => false
  end.

Definition no_membership_call (ev : Call * option exn) : Prop :=
  is_membership_call ev.1 = false.

(** Listing the pods, and the calls that only record what was observed
    about a pod. *)
Definition is_informational_call (c : Call) : bool :=
  match c with
  | GetPods | UpdateMembershipStatus _ _ _ | UpdateMemberReadinessGate _ _ _ => true
  | _ => false
  end.

Definition informational (ev : Call * option exn) : Prop :=
  is_informational_call ev.1 = true.

(** A recorded [add_instance] is for [endpoint] with the options [opts]. *)
Definition add_call_with (endpoint : string) (opts : options)
    (ev : Call * option exn) : Prop :=
  ∀ c e o, ev.1 = AddInstance c e o → e = endpoint ∧ o = opts.

(** A recorded call connects to [endpoint] if it connects at all, and of
    the calls that change group membership it can only be
    [force_quorum_using_partition_of] with [endpoint]. *)
Definition quorum_call_for (endpoint : string) (ev : Call * option exn) : Prop :=
  match ev.1 with
  | ConnectDba e | ForceQuorumUsingPartitionOf _ e => e = endpoint
  | CreateDba _ | ConnectToPod _ | AddInstance _ _ _ | RejoinInstance _ _ _
  | RemoveInstance _ _ _ | DbaCreateCluster _ _ _
  | RebootClusterFromCompleteOutage _ => False
  | _ => True
  end.

(** The same for [reboot_cluster_from_complete_outage]. *)
Definition reboot_call_for (endpoint : string) (ev : Call * option exn) : Prop :=
  match ev.1 with
  | ConnectDba e => e = endpoint
  | CreateDba _ | ConnectToPod _ | AddInstance _ _ _ | RejoinInstance _ _ _
  | RemoveInstance _ _ _ | DbaCreateCluster _ _ _
  | ForceQuorumUsingPartitionOf _ _ => False
  | _ => True
  end.

(** A recorded [remove_instance] is for [endpoint], forced or, when [force]
    was not asked for, without options; no other call changes group
    membership. *)
Definition remove_call_for (endpoint : string) (force : bool)
    (ev : Call * option exn) : Prop :=
  match ev.1 with
  | RemoveInstance _ e o =>
      e = endpoint ∧ (o = <["force" := VBool true]> ∅ ∨ (force = false ∧ o = ∅))
  | AddInstance _ _ _ | RejoinInstance _ _ _ | DbaCreateCluster _ _ _
  | RebootClusterFromCompleteOutage _ | ForceQuorumUsingPartitionOf _ _ => False
  | _ => True
  end.

(** The options [join_instance] passes to [add_instance]. *)
Definition add_options (allowed : bool) : options :=
  dict_update
    (<["recoveryMethod" := VStr (if allowed then "incremental" else "clone")]> ∅)
    common_gr_options.

(** What [incremental_recovery_allowed] reads off a state. *)
Definition recovery_allowed (w : World) : bool :=
  match cluster_info w with
  | Some i => ci_incrementalRecoveryAllowed i
  | None => false
  end.

(** A run that made no call changing group membership and left the
    orchestrator state as it was. *)
Definition quiet (w w' : World) : Prop :=
  emits no_membership_call w w' ∧ keeps_orchestrator w w'.

(** A recorded [rejoin_instance] is for [endpoint], without options. *)
Definition rejoin_call_for (endpoint : string) (ev : Call * option exn) : Prop :=
  match ev.1 with
  | RejoinInstance _ e o => e = endpoint ∧ o = ∅
  | AddInstance _ _ _ | RemoveInstance _ _ _ | DbaCreateCluster _ _ _
  | RebootClusterFromCompleteOutage _ | ForceQuorumUsingPartitionOf _ _ => False
  | _ => True
  end.

(** Collaborators for which every call succeeds; the pods are [pods]. *)
Definition K_healthy (pods : list MySQLPod) : Collaborators :=
  sample_K pods (Ok {| diag_status := DIAG_CLUSTER_ONLINE; diag_online_members := [];
                       diag_primary := None; diag_quorum_candidates := [] |})
    (Ok {| dba_cluster_id := "mycluster" |}) (Ok {| dba_cluster_id := "mycluster" |})
    (Ok tt).

(** The states [repair_cluster] answers by returning, by the retry-later
    sentinel and by the permanent-failure sentinel, when it does not act. *)
Definition settled_states : list ClusterDiagStatus :=
  [DIAG_CLUSTER_ONLINE; DIAG_CLUSTER_ONLINE_PARTIAL; DIAG_CLUSTER_ONLINE_UNCERTAIN;
   DIAG_CLUSTER_OFFLINE; DIAG_CLUSTER_FINALIZING].

Definition waiting_states : list ClusterDiagStatus :=
  [DIAG_CLUSTER_OFFLINE_UNCERTAIN; DIAG_CLUSTER_NO_QUORUM_UNCERTAIN; DIAG_CLUSTER_UNKNOWN].

Definition hopeless_states : list ClusterDiagStatus :=
  [DIAG_CLUSTER_SPLIT_BRAIN; DIAG_CLUSTER_SPLIT_BRAIN_UNCERTAIN; DIAG_CLUSTER_INVALID;
   DIAG_CLUSTER_INITIALIZING].

(** The states [on_pod_created] handles itself. *)
Definition created_states : list ClusterDiagStatus :=
  [DIAG_CLUSTER_INITIALIZING; DIAG_CLUSTER_ONLINE; DIAG_CLUSTER_ONLINE_PARTIAL;
   DIAG_CLUSTER_ONLINE_UNCERTAIN].

(** What [post_create_actions] may call: the router account is set up on
    the handle it was given, with a password and an update flag; the router
    deployment is resized only to the spec's non-zero count; nothing changes
    group membership. *)
Definition post_create_call (cluster : InnoDBCluster) (dba_cluster : option DbaCluster)
    (ev : Call * option exn) : Prop :=
  match ev.1 with
  | SetupRouterAccount c _ opts =>
      dba_cluster = Some c ∧ dom opts = {[ "password"; "update" ]}
  | RouterUpdateSize n => cluster_routers cluster = Some n ∧ n ≠ 0
  | c => is_membership_call c = false
  end.

(** ** Calls that a run does make *)

(** Among the calls recorded during the run there is one that satisfies
    [P]. *)
Definition issues (P : Call * option exn → Prop) (w w' : World) : Prop :=
  ∃ new, calls w' = (new ++ calls w)%list ∧ Exists P new.

(** The recorded call is [c]. *)
Definition is_call (c : Call) (ev : Call * option exn) : Prop := ev.1 = c.

(** The recorded call is the admin client's [create_cluster] primitive for
    the cluster called [name]. *)
Definition create_call (name : string) (ev : Call * option exn) : Prop :=
  ∃ d opts, ev.1 = DbaCreateCluster d name opts.

(** The recorded call is [force_quorum_using_partition_of] with
    [endpoint]. *)
Definition quorum_forced (endpoint : string) (ev : Call * option exn) : Prop :=
  ∃ c, ev.1 = ForceQuorumUsingPartitionOf c endpoint.

(** The recorded call sets up a backup account through [session]. *)
Definition backup_account_call (session : Session) (ev : Call * option exn) : Prop :=
  ∃ user password, ev.1 = SetupBackupAccount session user password.

(** The options [post_create_actions] passes to [setup_router_account]. *)
Definition router_options (password : string) (update : bool) : options :=
  <["password" := VStr password]> (<["update" := VBool update]> ∅).

(** Collaborators like [K_healthy] for a cluster whose router account does
    not exist yet: [show grants] fails with ER_NONEXISTING_GRANT. *)
Definition K_no_router_account : Collaborators :=
  {| K_env := λ w c,
       match c return res (Ret c) with
       | RunSql _ "show grants for ?@'%'" _ =>
           Raise (MysqlshError 1141 "There is no such grant defined")
       | c => K_env (K_healthy [pod0]) w c
       end;
     K_RetryLoop_call := λ _ m, m;
     K_SHERR_DBA_BADARG_INSTANCE_NOT_ONLINE := 51314;
     K_SHERR_DBA_BADARG_INSTANCE_ALREADY_IN_GR := 51315;
     K_SHERR_DBA_MEMBER_METADATA_MISSING := 51104;
     K_ER_NONEXISTING_GRANT := 1141;
     K_ER_OPTION_PREVENTS_STATEMENT := 1290 |}.

(** The sample cluster with [n] routers in its spec. *)
Definition sample_cluster_routers (n : Z) : InnoDBCluster :=
  {| cluster_name := "mycluster"; cluster_namespace := "default";
     cluster_deleting := false; cluster_initDB := None;
     cluster_routers := Some n |}.

End Controller.

(** ** Group monitor (group_monitor.py) *)

Module Monitor.

Import Controller.

(** An X-protocol session: the object's identity and its [uri]. *)
Record XSession := { xsession_id : nat; xsession_uri : string }.

#[global] Instance XSession_eq_dec : EqDecision XSession.
Proof. solve_decision. Defined.

(** A row of [shellutils.query_members]. *)
Record Member := {
  member_id : string;
  member_role : string;
  member_status : string;
  member_view_id : string;
  member_endpoint : string;
  member_version : string
}.

#[global] Instance Member_eq_dec : EqDecision Member.
Proof. solve_decision. Defined.

(** The callable registered with the monitor, by name. *)
Record Handler := { handler_name : string }.

#[global] Instance Handler_eq_dec : EqDecision Handler.
Proof. solve_decision. Defined.

(** [k_connect_retry_interval = 10] *)
Definition k_connect_retry_interval : Qc := Qc_of_Z 10.

(** [MonitoredCluster]; [time.time()] readings are rationals, and
    [last_connect_attempt] starts at [0]. *)
Record MonitoredCluster := {
  mc_cluster : InnoDBCluster;
  mc_session : option XSession;
  mc_target : option string;
  mc_target_not_primary : option bool;
  mc_last_connect_attempt : Qc;
  mc_last_primary_id : option string;
  mc_last_view_id : option string;
  mc_handler : Handler
}.

(** [MonitoredCluster.__init__] *)
Definition MonitoredCluster_init (cluster : InnoDBCluster) (handler : Handler)
    : MonitoredCluster :=
  {| mc_cluster := cluster; mc_session := None; mc_target := None;
     mc_target_not_primary := None; mc_last_connect_attempt := 0%Qc;
     mc_last_primary_id := None; mc_last_view_id := None;
     mc_handler := handler |}.

Definition mc_name (c : MonitoredCluster) : string := cluster_name (mc_cluster c).
Definition mc_namespace (c : MonitoredCluster) : string :=
  cluster_namespace (mc_cluster c).

Inductive Call :=
| TimeTime
| GetAdminAccount
| GetPods
| GetSession (xendpoint : string)
| JumpToPrimary (s : XSession) (account : string * string)
| SessionClose (s : XSession)
| RunSql (s : XSession) (stmt : string)
| EnableNotices (s : XSession) (names : list string)
| ParseUri (uri : string)
| QueryMembers (s : option XSession)
| HandlerCall (h : Handler) (namespace name : string) (members : list Member)
    (view_id_changed : bool).

#[global] Instance Call_eq_dec : EqDecision Call.
Proof. solve_decision. Defined.

Definition Ret (c : Call) : Type :=
  match c with
  | TimeTime => Qc
  | GetAdminAccount => (string * string)%type
  | GetPods => list MySQLPod
  | GetSession _ => XSession
  | JumpToPrimary _ _ => option XSession
  | ParseUri _ => (string * string)%type
  | QueryMembers _ => list Member
  | _ => unit
  end.

(** The state a method of [MonitoredCluster] runs in: the object itself and
    the calls made so far, newest first, each with the exception it raised,
    if any. *)
Record MState := { self : MonitoredCluster; mcalls : list (Call * option exn) }.

Definition record_call (c : Call) (o : option exn) (st : MState) : MState :=
  {| self := self st; mcalls := (c, o) :: mcalls st |}.

Definition set_session (s : option XSession) (st : MState) : MState :=
  {| self := {| mc_cluster := mc_cluster (self st); mc_session := s;
                mc_target := mc_target (self st);
                mc_target_not_primary := mc_target_not_primary (self st);
                mc_last_connect_attempt := mc_last_connect_attempt (self st);
                mc_last_primary_id := mc_last_primary_id (self st);
                mc_last_view_id := mc_last_view_id (self st);
                mc_handler := mc_handler (self st) |};
     mcalls := mcalls st |}.

Definition set_target (t : option string) (st : MState) : MState :=
  {| self := {| mc_cluster := mc_cluster (self st); mc_session := mc_session (self st);
                mc_target := t;
                mc_target_not_primary := mc_target_not_primary (self st);
                mc_last_connect_attempt := mc_last_connect_attempt (self st);
                mc_last_primary_id := mc_last_primary_id (self st);
                mc_last_view_id := mc_last_view_id (self st);
                mc_handler := mc_handler (self st) |};
     mcalls := mcalls st |}.

Definition set_target_not_primary (b : option bool) (st : MState) : MState :=
  {| self := {| mc_cluster := mc_cluster (self st); mc_session := mc_session (self st);
                mc_target := mc_target (self st);
                mc_target_not_primary := b;
                mc_last_connect_attempt := mc_last_connect_attempt (self st);
                mc_last_primary_id := mc_last_primary_id (self st);
                mc_last_view_id := mc_last_view_id (self st);
                mc_handler := mc_handler (self st) |};
     mcalls := mcalls st |}.

Definition set_last_connect_attempt (t : Qc) (st : MState) : MState :=
  {| self := {| mc_cluster := mc_cluster (self st); mc_session := mc_session (self st);
                mc_target := mc_target (self st);
                mc_target_not_primary := mc_target_not_primary (self st);
                mc_last_connect_attempt := t;
                mc_last_primary_id := mc_last_primary_id (self st);
                mc_last_view_id := mc_last_view_id (self st);
                mc_handler := mc_handler (self st) |};
     mcalls := mcalls st |}.

Definition set_last_primary_id (p : option string) (st : MState) : MState :=
  {| self := {| mc_cluster := mc_cluster (self st); mc_session := mc_session (self st);
                mc_target := mc_target (self st);
                mc_target_not_primary := mc_target_not_primary (self st);
                mc_last_connect_attempt := mc_last_connect_attempt (self st);
                mc_last_primary_id := p;
                mc_last_view_id := mc_last_view_id (self st);
                mc_handler := mc_handler (self st) |};
     mcalls := mcalls st |}.

Definition set_last_view_id (v : option string) (st : MState) : MState :=
  {| self := {| mc_cluster := mc_cluster (self st); mc_session := mc_session (self st);
                mc_target := mc_target (self st);
                mc_target_not_primary := mc_target_not_primary (self st);
                mc_last_connect_attempt := mc_last_connect_attempt (self st);
                mc_last_primary_id := mc_last_primary_id (self st);
                mc_last_view_id := v;
                mc_handler := mc_handler (self st) |};
     mcalls := mcalls st |}.

Abbreviation MM := (St MState).

(** What a monitored cluster is run against: the collaborators' answers and
    the client error range [mysql.ErrorCode.CR_MIN_ERROR],
    [mysql.ErrorCode.CR_MAX_ERROR]. *)
Record Collaborators := {
  K_env : MState → ∀ c : Call, res (Ret c);
  K_CR_MIN_ERROR : Z;
  K_CR_MAX_ERROR : Z
}.

Section MonitoredCluster.

Variable K : Collaborators.

Local Abbreviation env := (K_env K).
Local Abbreviation CR_MIN_ERROR := (K_CR_MIN_ERROR K).
Local Abbreviation CR_MAX_ERROR := (K_CR_MAX_ERROR K).

Definition call (c : Call) : MM (Ret c) :=
  λ st, (env st c, record_call c (outcome (env st c)) st).

Definition try_connect (pod : MySQLPod) : MM (option XSession) :=
  try_except
    (session <- call (GetSession (pod_xendpoint pod)) ;; ret (Some session))
    (λ e, match e with
          | MysqlshError _ _ => Some (ret None)
          | _ => None
          end).

(** One [for pod in pods] loop of [find_primary]; the first loop only looks
    at pods whose recorded role is PRIMARY ([only_primary]). The result is
    [inl s] when the loop leaves through [return s, True], and otherwise the
    final [not_primary]. *)
Fixpoint find_primary_loop (only_primary : bool) (account : string * string)
    (pods : list MySQLPod) (not_primary : option XSession)
    : MM (XSession + option XSession) :=
  match pods with
  | [] => ret (inr not_primary)
  | pod :: rest =>
      if negb only_primary
         || bool_decide (get_membership_info pod "role" = Some "PRIMARY") then
        session <- try_connect pod ;;
        match session with
        | Some session =>
            s <- call (JumpToPrimary session account) ;;
            match s with
            | Some s =>
                (if bool_decide (s ≠ session) then call (SessionClose session)
                 else ret tt) ;;;
                ret (inl s)
            | None => find_primary_loop only_primary account rest (Some session)
            end
        | None => find_primary_loop only_primary account rest not_primary
        end
      else find_primary_loop only_primary account rest not_primary
  end.

Definition find_primary : MM (option XSession * bool) :=
  account <- call GetAdminAccount ;;
  pods <- call GetPods ;;
  r <- find_primary_loop true account pods None ;;
  match r with
  | inl s => ret (Some s, true)
  | inr not_primary =>
      r <- find_primary_loop false account pods not_primary ;;
      match r with
      | inl s => ret (Some s, true)
      | inr not_primary => ret (not_primary, false)
      end
  end.

(** [connect_to_primary]: the [while True] loop runs at most [fuel] rounds;
    [None] stands for a loop that is still retrying when they are used up. *)
Fixpoint connect_to_primary (fuel : nat) : MM (option unit) :=
  match fuel with
  | O => ret None
  | S fuel =>
      r <- find_primary ;;
      let '(session, is_primary) := r in
      match session with
      | Some session =>
          again <- try_except
                     (call (RunSql session "set session mysqlx_wait_timeout = 86400") ;;;
                      call (EnableNotices session ["GRViewChanged"]) ;;;
                      co <- call (ParseUri (xsession_uri session)) ;;
                      modify (set_target (Some (fst co ++ ":" ++ snd co))) ;;;
                      modify (set_target_not_primary (Some (negb is_primary))) ;;;
                      modify (set_session (Some session)) ;;;
                      ret false)
                     (λ e, match e with
                           | MysqlshError code _ =>
                               if (code <=? CR_MAX_ERROR) && (CR_MIN_ERROR <=? code)
                               then Some (ret true)
                               else None
                           | _ => None
                           end) ;;
          if again : bool then connect_to_primary fuel else ret (Some tt)
      | None =>
          modify (set_session None) ;;;
          ret (Some tt)
      end
  end.

(** The [for ... in members] loop of [on_view_change]: the final
    [(primary, force_reconnect)]. *)
Fixpoint scan_members (last_primary_id : option string) (members : list Member)
    (primary : option string) : option string * bool :=
  match members with
  | [] => (primary, false)
  | m :: rest =>
      if bool_decide (last_primary_id = Some (member_id m))
         && negb (String.eqb (member_role m) "PRIMARY") then
        (primary, true)
      else if String.eqb (member_role m) "PRIMARY" && negb (truthy_str primary) then
        scan_members last_primary_id rest (Some (member_id m))
      else
        scan_members last_primary_id rest primary
  end.

Definition on_view_change (view_id : option string) : MM unit :=
  session <- gets (λ st, mc_session (self st)) ;;
  members <- call (QueryMembers session) ;;
  me <- gets self ;;
  call (HandlerCall (mc_handler me) (mc_namespace me) (mc_name me) members
          (bool_decide (view_id ≠ mc_last_view_id me))) ;;;
  modify (set_last_view_id view_id) ;;;
  last_primary_id <- gets (λ st, mc_last_primary_id (self st)) ;;
  let '(primary, force_reconnect) := scan_members last_primary_id members None in
  modify (set_last_primary_id primary) ;;;
  target_not_primary <- gets (λ st, mc_target_not_primary (self st)) ;;
  if default false target_not_primary || force_reconnect then
    session <- gets (λ st, mc_session (self st)) ;;
    match session with
    | Some s =>
        call (SessionClose s) ;;;
        modify (set_session None)
    | None => ret tt
    end
  else ret tt.

(** The body of the [if] in [ensure_connected]: one connection attempt. The
    outer [option] is [None] when the retry loop of [connect_to_primary] uses
    up [fuel]. *)
Definition connect_attempt (fuel : nat) : MM (option (option XSession)) :=
  now <- call TimeTime ;;
  modify (set_last_connect_attempt now) ;;;
  modify (set_session None) ;;;
  r <- connect_to_primary fuel ;;
  match r with
  | None => ret None
  | Some _ =>
      session <- gets (λ st, mc_session (self st)) ;;
      (if bool_decide (is_Some session) then on_view_change None else ret tt) ;;;
      session <- gets (λ st, mc_session (self st)) ;;
      ret (Some session)
  end.

Definition ensure_connected (fuel : nat) : MM (option (option XSession)) :=
  session <- gets (λ st, mc_session (self st)) ;;
  last_connect_attempt <- gets (λ st, mc_last_connect_attempt (self st)) ;;
  due <- (if negb (bool_decide (is_Some session)) then
            if bool_decide (last_connect_attempt = 0%Qc) then ret true
            else
              now <- call TimeTime ;;
              ret (bool_decide (k_connect_retry_interval < now - last_connect_attempt)%Qc)
          else ret false) ;;
  if due : bool then connect_attempt fuel
  else
    session <- gets (λ st, mc_session (self st)) ;;
    ret (Some session).

End MonitoredCluster.

(** [handle_notice]. [session._fetch_notice()] is left to [fetch_notice],
    which answers from the state and the session: [None] stands for a falsy
    notice, [Some v] for a notice whose [view_id] entry is [v]. The
    [while 1] loop runs at most [fuel] rounds. *)
Section HandleNotice.

Variable K : Collaborators.
Variable fetch_notice : MState → XSession → res (option (option string)).

(** [self.session], an attribute access on which fails when it is [None]. *)
Definition the_session : MM XSession :=
  s <- gets (λ st, mc_session (self st)) ;;
  match s with
  | Some s => ret s
  | None => raise (OtherException "'NoneType' object has no attribute")
  end.

Definition call_fetch_notice (s : XSession) : MM (option (option string)) :=
  λ st, (fetch_notice st s, st).

(** One round of the loop: [true] when the loop goes on to the next. *)
Definition handle_notice_round : MM bool :=
  try_except
    (s <- the_session ;;
     call K (RunSql s "select 1") ;;;
     s <- the_session ;;
     notice <- call_fetch_notice s ;;
     match notice with
     | None => ret false
     | Some view_id =>
         on_view_change K view_id ;;;
         s <- gets (λ st, mc_session (self st)) ;;
         ret (bool_decide (is_Some s))
     end)
    (λ e, match e with
          | MysqlshError _ _ =>
              Some (s <- the_session ;;
                    call K (SessionClose s) ;;;
                    modify (set_session None) ;;;
                    ret false)
          | _ => None
          end).

Fixpoint handle_notice (fuel : nat) : MM (option unit) :=
  match fuel with
  | O => ret None
  | S fuel =>
      go <- handle_notice_round ;;
      if go : bool then handle_notice fuel else ret (Some tt)
  end.

End HandleNotice.

(** [GroupMonitor]: the list of monitored clusters and the stop flag. *)
Record GroupMonitor := {
  clusters : list MonitoredCluster;
  stopped : bool
}.

Definition same_identity (cluster : InnoDBCluster) (c : MonitoredCluster) : bool :=
  String.eqb (mc_name c) (cluster_name cluster)
  && String.eqb (mc_namespace c) (cluster_namespace cluster).

(** The [for c in self.clusters] loop of [monitor_cluster]: [true] when it
    leaves through [return]. *)
Fixpoint registered (cluster : InnoDBCluster) (cs : list MonitoredCluster) : bool :=
  match cs with
  | [] => false
  | c :: rest => if same_identity cluster c then true else registered cluster rest
  end.

Definition monitor_cluster (cluster : InnoDBCluster) (handler : Handler)
    (gm : GroupMonitor) : GroupMonitor :=
  if registered cluster (clusters gm) then gm
  else
    let target := MonitoredCluster_init cluster handler in
    {| clusters := clusters gm ++ [target]; stopped := stopped gm |}.

(** [remove_cluster]: drops the first record with the cluster's identity. *)
Fixpoint remove_first (cluster : InnoDBCluster) (cs : list MonitoredCluster)
    : list MonitoredCluster :=
  match cs with
  | [] => []
  | c :: rest => if same_identity cluster c then rest else c :: remove_first cluster rest
  end.

Definition remove_cluster (cluster : InnoDBCluster) (gm : GroupMonitor) : GroupMonitor :=
  {| clusters := remove_first cluster (clusters gm); stopped := stopped gm |}.

(** The recorded time of the last connect attempt is as it was. *)
Definition keeps_last_connect_attempt (st st' : MState) : Prop :=
  mc_last_connect_attempt (self st') = mc_last_connect_attempt (self st).

(** ** Sample collaborators and objects *)

(** Collaborators whose clock reads [now] and with whom no pod can be
    reached; the client error range is the server's 2000..2999. *)
Definition K_unreachable (now : Qc) (pods : list MySQLPod) : Collaborators :=
  {| K_env := λ _ c,
       match c return res (Ret c) with
       | TimeTime => Ok now
       | GetAdminAccount => Ok ("mysqladmin", "secret")
       | GetPods => Ok pods
       | GetSession _ => Raise (MysqlshError 2003 "Can't connect to MySQL server")
       | JumpToPrimary _ _ => Ok None
       | ParseUri _ => Ok ("mycluster-0.mycluster-instances", "33060")
       | QueryMembers _ => Ok []
       | _ => Ok tt
       end;
     K_CR_MIN_ERROR := 2000;
     K_CR_MAX_ERROR := 2999 |}.

(** A monitored cluster without session whose last connect attempt was
    recorded at [last]. *)
Definition sample_monitored (last : Qc) : MonitoredCluster :=
  {| mc_cluster := sample_cluster false None; mc_session := None; mc_target := None;
     mc_target_not_primary := None; mc_last_connect_attempt := last;
     mc_last_primary_id := None; mc_last_view_id := None;
     mc_handler := {| handler_name := "on_group_view_change" |} |}.

Definition sample_state (last : Qc) : MState :=
  {| self := sample_monitored last; mcalls := [] |}.

(** ** Further notions for the monitor *)

(** [GroupMonitor.__init__] and [stop]. *)
Definition GroupMonitor_init : GroupMonitor := {| clusters := []; stopped := false |}.

Definition stop (gm : GroupMonitor) : GroupMonitor :=
  {| clusters := clusters gm; stopped := true |}.

(** The calls made on a monitor from outside its thread, and a run of them. *)
Inductive MonitorOp :=
| OpMonitor (cluster : InnoDBCluster) (handler : Handler)
| OpRemove (cluster : InnoDBCluster)
| OpStop.

Definition apply_op (gm : GroupMonitor) (op : MonitorOp) : GroupMonitor :=
  match op with
  | OpMonitor cluster handler => monitor_cluster cluster handler gm
  | OpRemove cluster => remove_cluster cluster gm
  | OpStop => stop gm
  end.

Definition run_ops (ops : list MonitorOp) (gm : GroupMonitor) : GroupMonitor :=
  fold_left apply_op ops gm.

(** What the monitor finds a record by. *)
Definition identity (c : MonitoredCluster) : string * string :=
  (mc_name c, mc_namespace c).

Definition distinct_identities (gm : GroupMonitor) : Prop :=
  NoDup (identity <$> clusters gm).

(** A recorded session comes with its target and whether that is the
    primary. *)
Definition connected_has_target (c : MonitoredCluster) : Prop :=
  is_Some (mc_session c) →
  is_Some (mc_target c) ∧ is_Some (mc_target_not_primary c).

(** Collaborators with whom every pod can be reached and is the primary. *)
Definition K_reachable (pods : list MySQLPod) : Collaborators :=
  {| K_env := λ _ c,
       match c return res (Ret c) with
       | TimeTime => Ok 0%Qc
       | GetAdminAccount => Ok ("mysqladmin", "secret")
       | GetPods => Ok pods
       | GetSession ep => Ok {| xsession_id := 1; xsession_uri := ep |}
       | JumpToPrimary s _ => Ok (Some s)
       | ParseUri _ => Ok ("mycluster-0.mycluster-instances", "33060")
       | QueryMembers _ => Ok []
       | _ => Ok tt
       end;
     K_CR_MIN_ERROR := 2000;
     K_CR_MAX_ERROR := 2999 |}.

(** Collaborators like [K_reachable] whose group view lists [members]. *)
Definition K_members (members : list Member) : Collaborators :=
  {| K_env := λ st c,
       match c return res (Ret c) with
       | QueryMembers _ => Ok members
       | c => K_env (K_reachable [pod0; pod1]) st c
       end;
     K_CR_MIN_ERROR := 2000;
     K_CR_MAX_ERROR := 2999 |}.

Definition sample_member (id role : string) : Member :=
  {| member_id := id; member_role := role; member_status := "ONLINE";
     member_view_id := "view-2"; member_endpoint := id ++ ".mycluster-instances:3306";
     member_version := "8.0.21" |}.

Definition sample_session : XSession :=
  {| xsession_id := 1; xsession_uri := "mycluster-0.mycluster-instances:33060" |}.

(** A monitored cluster connected to its primary, the member [primary_id],
    at view ["view-1"]. *)
Definition sample_connected (primary_id : string) : MState :=
  {| self := {| mc_cluster := sample_cluster false None;
                mc_session := Some sample_session;
                mc_target := Some "mycluster-0.mycluster-instances:33060";
                mc_target_not_primary := Some false;
                mc_last_connect_attempt := 0%Qc;
                mc_last_primary_id := Some primary_id;
                mc_last_view_id := Some "view-1";
                mc_handler := {| handler_name := "on_group_view_change" |} |};
     mcalls := [] |}.

End Monitor.

(** ** The controller's sink for group view changes *)

Module Views.

Import Controller.

Section OnGroupViewChange.

Variable K : Collaborators.
Variable cluster : InnoDBCluster.

(** The test of the inner loop of [on_group_view_change]: the member is the
    pod's by member id, or else by endpoint. *)
Definition member_matches (pod : MySQLPod) (m : Monitor.Member) : bool :=
  let pod_member_id := get_membership_info pod "memberId" in
  (truthy_str pod_member_id
   && bool_decide (Some (Monitor.member_id m) = pod_member_id))
  || String.eqb (Monitor.member_endpoint m) (pod_endpoint pod).

(** The [for ... in members] loop for one pod: the first matching member
    updates the pod, then the loop breaks. *)
Fixpoint update_pod_from_members (pod : MySQLPod) (members : list Monitor.Member)
    : M unit :=
  match members with
  | [] => ret tt
  | m :: rest =>
      if member_matches pod m then
        call K (UpdateMembershipStatus (pod_name pod)
                  {| mi_member_id := Monitor.member_id m;
                     mi_role := Monitor.member_role m;
                     mi_status := Monitor.member_status m;
                     mi_view_id := Monitor.member_view_id m;
                     mi_version := Monitor.member_version m |} None) ;;;
        if String.eqb (Monitor.member_status m) "ONLINE" then
          call K (UpdateMemberReadinessGate (pod_name pod) "ready" true)
        else
          call K (UpdateMemberReadinessGate (pod_name pod) "ready" false)
      else update_pod_from_members pod rest
  end.

(** The [for pod in self.cluster.get_pods()] loop. *)
Fixpoint update_pods (pods : list MySQLPod) (members : list Monitor.Member) : M unit :=
  match pods with
  | [] => ret tt
  | pod :: rest =>
      update_pod_from_members pod members ;;;
      update_pods rest members
  end.

Definition on_group_view_change (members : list Monitor.Member)
    (view_id_changed : bool) : M unit :=
  pods <- call K GetPods ;;
  update_pods pods members.

End OnGroupViewChange.

End Views.

(** * Properties *)

(** ** Rules for [wp] and [steps] *)

Section Logic.

Context {S : Type}.

Lemma wp_bind {A B} (m : St S A) (k : A → St S B) Q w :
  wp m (λ r w1, match r with
                | Ok a => wp (k a) Q w1
                | Raise e => Q (Raise e) w1
                end) w →
  wp (bind m k) Q w.
Proof. unfold wp, bind. destruct (m w) as [[a|e] w1]; simpl; auto. Qed.

Lemma wp_try_except {A} (m : St S A) h Q w :
  wp m (λ r w1, match r with
                | Ok a => Q (Ok a) w1
                | Raise e => match h e with
                             | Some k => wp k Q w1
                             | None => Q (Raise e) w1
                             end
                end) w →
  wp (try_except m h) Q w.
Proof.
  unfold wp, try_except. destruct (m w) as [[a|e] w1]; simpl; auto.
  destruct (h e); auto.
Qed.

Lemma wp_finally {A B} (m : St S A) (f : St S B) Q w :
  wp m (λ r w1, wp f (λ r2 w2, match r2 with
                               | Ok _ => Q r w2
                               | Raise e => Q (Raise e) w2
                               end) w1) w →
  wp (finally m f) Q w.
Proof.
  unfold wp, finally. destruct (m w) as [r w1]; simpl.
  destruct (f w1) as [[b|e] w2]; simpl; auto.
Qed.

Lemma wp_steps {A} (R : S → S → Prop) (m : St S A) (Q : res A → S → Prop) w :
  steps R m → (∀ r w', R w w' → Q r w') → wp m Q w.
Proof. intros Hm HQ. apply HQ, Hm. Qed.

Lemma wp_mono {A} (m : St S A) (Q Q' : res A → S → Prop) w :
  wp m Q w → (∀ r w', Q r w' → Q' r w') → wp m Q' w.
Proof. unfold wp. auto. Qed.

Lemma steps_and {A} (R1 R2 : S → S → Prop) (m : St S A) :
  steps R1 m → steps R2 m → steps (λ w w', R1 w w' ∧ R2 w w') m.
Proof. intros H1 H2 w. split; [apply H1 | apply H2]. Qed.

Context (R : S → S → Prop) `{!PreOrder R}.

Lemma steps_ret {A} (a : A) : steps R (ret a).
Proof. intros w. reflexivity. Qed.

Lemma steps_raise {A} e : steps R (raise (A := A) e).
Proof. intros w. reflexivity. Qed.

Lemma steps_gets {A} (f : S → A) : steps R (gets f).
Proof. intros w. reflexivity. Qed.

Lemma steps_modify f : (∀ w, R w (f w)) → steps R (modify f).
Proof. intros H w. apply H. Qed.

Lemma steps_bind {A B} (m : St S A) (k : A → St S B) :
  steps R m → (∀ a, steps R (k a)) → steps R (bind m k).
Proof.
  intros Hm Hk w. unfold bind. specialize (Hm w).
  destruct (m w) as [[a|e] w1]; simpl in *; [|done].
  etrans; [exact Hm | apply Hk].
Qed.

Lemma steps_try_except {A} (m : St S A) h :
  steps R m → (∀ e k, h e = Some k → steps R k) → steps R (try_except m h).
Proof.
  intros Hm Hh w. unfold try_except. specialize (Hm w).
  destruct (m w) as [[a|e] w1]; simpl in *; [done|].
  destruct (h e) as [k|] eqn:He; [|done].
  etrans; [exact Hm | eapply Hh, He].
Qed.

Lemma steps_finally {A B} (m : St S A) (f : St S B) :
  steps R m → steps R f → steps R (finally m f).
Proof.
  intros Hm Hf w. unfold finally. specialize (Hm w).
  destruct (m w) as [r w1]; simpl in *. specialize (Hf w1).
  destruct (f w1) as [[b|e] w2]; simpl in *; etrans; eauto.
Qed.

End Logic.

(** One decomposition step of a [steps] goal along the program's shape. *)
Ltac steps_step :=
  lazymatch goal with
  | |- steps _ (bind _ _) => apply steps_bind; [.. | intros ?]
  | |- steps _ (ret _) => apply steps_ret
  | |- steps _ (raise _) => apply steps_raise
  | |- steps _ (gets _) => apply steps_gets
  | |- steps _ (try_except _ _) =>
      apply steps_try_except;
      [.. | let e := fresh "e" in let k := fresh "k" in let Hk := fresh "Hk" in
         intros e k Hk; try (destruct e; simpl in Hk);
         repeat case_match; simplify_eq ]
  | |- steps _ (finally _ _) => apply steps_finally
  | |- steps _ (match ?x with _ => _ end) => destruct x
  end.

(** ** The cluster controller *)

Module ControllerSpec.

Import Controller.

#[local] Instance keeps_finalizers_preorder : PreOrder keeps_finalizers.
Proof.
  split; [by intros w | intros w1 w2 w3 H1 H2].
  unfold keeps_finalizers in *. congruence.
Qed.

#[local] Instance emits_preorder P : PreOrder (emits P).
Proof.
  split.
  - intros w. by exists [].
  - intros w1 w2 w3 (n1 & H1 & F1) (n2 & H2 & F2).
    exists (n2 ++ n1)%list. split.
    + by rewrite H2, H1, app_assoc.
    + by apply Forall_app.
Qed.

Lemma steps_call (K : Collaborators) (R : World → World → Prop) (c : Call) :
  (∀ w o, R w (record_call c o w)) → steps R (call K c).
Proof. intros H w. apply H. Qed.

Lemma emits_record_call (P : Call * option exn → Prop) c o w :
  P (c, o) → emits P w (record_call c o w).
Proof. intros H. exists [(c, o)]. split; [done|]. by constructor. Qed.

Lemma emits_same_calls (P : Call * option exn → Prop) w w' :
  calls w' = calls w → emits P w w'.
Proof. intros H. exists []. by split. Qed.

(** The procedures a [steps] goal is opened up through. *)
Ltac steps_open :=
  progress unfold the_dba_cluster, the_dba, with_connect_dba, with_connect_to_pod,
    log_mysql_info, probe_member_status, post_create_actions, update_cluster_info,
    set_cluster_status, get_cluster_status, incremental_recovery_allowed,
    get_create_time, set_create_time, publish_status, probe_status,
    try_dba_create_cluster, add_member_finalizer, remove_member_finalizer.

(** Decompose a [steps] goal down to its calls and state updates, which
    [leaf] has to settle. *)
Ltac steps_auto leaf :=
  repeat first
    [ assumption
    | match goal with |- PreOrder _ => apply _ end
    | match goal with IH : ∀ _, _ |- steps _ _ => solve [apply IH] end
    | steps_step
    | apply steps_call; intros ? ?; solve [leaf]
    | apply steps_modify; intros ?; solve [leaf]
    | steps_open ].

Ltac keeps_leaf := reflexivity.

Ltac emits_leaf :=
  first [ apply emits_same_calls; reflexivity
        | apply emits_record_call; red; cbn [fst]; intros; simplify_eq; done ].

Section Frames.

Variable K : Collaborators.
Variable cluster : InnoDBCluster.




Lemma create_options_entries (b : bool) :
  create_options b !! "gtidSetIsComplete" = Some (VBool b) ∧
  create_options b !! "startOnBoot" = Some (VBool false) ∧
  create_options b !! "memberSslMode" = Some (VStr "REQUIRED") ∧
  create_options b !! "exitStateAction" = Some (VStr "ABORT_SERVER") ∧
  dom (create_options b)
  = {[ "gtidSetIsComplete"; "startOnBoot"; "memberSslMode"; "exitStateAction" ]}.
Proof. destruct b; repeat split; vm_compute; reflexivity. Qed.

Lemma create_cluster_emits (seed_pod : MySQLPod) (b : bool) (w : World) :
  b = (if cluster_initDB cluster is None then true else false) →
  emits (create_call_with (cluster_name cluster) (create_options b))
    w (create_cluster K cluster seed_pod w).2.
Proof.
  intros Hb.
  change (wp (create_cluster K cluster seed_pod)
            (λ _ w', emits (create_call_with (cluster_name cluster) (create_options b))
                       w w') w).
  unfold create_cluster.
  destruct (cluster_initDB cluster) as [initDB|]; subst b;
    [destruct (initDB_clone initDB) as [clone|]|].
  3: { apply wp_bind. apply wp_bind. unfold wp at 1 2.
       cbn [update_cluster_info modify ret fst snd].
       eapply (wp_steps (emits (create_call_with (cluster_name cluster)
                                  (create_options true))));
         [steps_auto emits_leaf|].
       intros r w' H. etrans; [|exact H]. by apply emits_same_calls. }
  2: { unfold wp, bind, raise. cbn. reflexivity. }
  apply wp_bind. apply wp_bind. unfold wp at 1 2.
  cbn [update_cluster_info modify ret fst snd].
  eapply (wp_steps (emits (create_call_with (cluster_name cluster)
                             (create_options false))));
    [steps_auto emits_leaf|].
  intros r w' H. etrans; [|exact H]. by apply emits_same_calls.
Qed.

End Frames.

Section CreateFailure.

Variable K : Collaborators.
Variable cluster : InnoDBCluster.
Variable seed_pod : MySQLPod.

Lemma handled_bind {A B} (m : M A) (k : A → M B) :
  steps (emits not_failed_create) m →
  (∀ a w1, wp (k a) (create_failure_handled seed_pod w1) w1) →
  ∀ w, wp (bind m k) (create_failure_handled seed_pod w) w.
Proof.
  intros Hm Hk w. apply wp_bind. eapply wp_steps; [exact Hm|].
  intros [a|e] w1 He.
  - eapply wp_mono; [apply Hk|].
    intros r w2 [H|H]; [left; by etrans | by right].
  - by left.
Qed.

Lemma handled_finally {A B} (m : M A) (f : M B) :
  (∀ w, wp m (create_failure_handled seed_pod w) w) →
  steps (emits not_failed_create) f → steps keeps_finalizers f →
  ∀ w, wp (finally m f) (create_failure_handled seed_pod w) w.
Proof.
  intros Hm Hf1 Hf2 w. apply wp_finally. eapply wp_mono; [apply Hm|].
  intros r w1 Hr. unfold wp. specialize (Hf1 w1). specialize (Hf2 w1).
  unfold keeps_finalizers in Hf2.
  destruct (f w1) as [[b|e] w2]; cbn in *;
    (destruct Hr as [H|[H1 H2]];
     [left; by etrans
     |right; split; [unfold has_member_finalizer in *; by rewrite Hf2 | done]]).
Qed.

Lemma contained_bind {A B} (m : M A) (k : A → M B) :
  steps (emits not_failed_create) m →
  (∀ a w1, wp (k a) (create_failure_contained seed_pod w1) w1) →
  ∀ w, wp (bind m k) (create_failure_contained seed_pod w) w.
Proof.
  intros Hm Hk w. apply wp_bind. eapply wp_steps; [exact Hm|].
  intros [a|e] w1 He.
  - eapply wp_mono; [apply Hk|].
    intros [b|e] w2 H; cbn in *; [by etrans|].
    destruct H as [H|H]; [left; by etrans | by right].
  - by left.
Qed.

Lemma handled_after_contained {A B} (m : M A) (k : A → M B) :
  (∀ w, wp m (create_failure_contained seed_pod w) w) →
  (∀ a, steps (emits not_failed_create) (k a)) →
  ∀ w, wp (bind m k) (create_failure_handled seed_pod w) w.
Proof.
  intros Hm Hk w. apply wp_bind. eapply wp_mono; [apply Hm|].
  intros [a|e] w1 H; cbn in H.
  - eapply wp_steps; [apply Hk|]. intros r w2 H2. left. by etrans.
  - destruct H as [H|H]; [by left | by right].
Qed.

(** The [try] block around the primitive: a failure with an admin error
    ends in a raise with the finalizer removed. *)
Lemma try_dba_create_cluster_contained (dba : Dba) (opts : options) (w : World) :
  wp (try_dba_create_cluster K cluster seed_pod dba opts)
    (create_failure_contained seed_pod w) w.
Proof.
  unfold try_dba_create_cluster. apply wp_try_except. apply wp_bind.
  unfold wp at 1, call. cbn [fst snd].
  destruct (K_env K w _) as [c|e] eqn:He; cbn [outcome].
  - unfold wp, modify. cbn.
    apply emits_record_call. intros d n o code msg. congruence.
  - destruct e as [| |code msg| | | |];
      try (left; apply emits_record_call; intros d n o c m; congruence).
    apply wp_bind. unfold wp at 1, remove_member_finalizer, modify. cbn [fst snd].
    apply wp_bind. eapply (wp_steps keeps_finalizers).
    { steps_auto keeps_leaf. }
    intros r w' Hk.
    assert (Hgone : has_member_finalizer seed_pod w' = false).
    { unfold has_member_finalizer. rewrite Hk. cbn.
      apply bool_decide_eq_false.
      intros [_ Hn]%elem_of_difference. apply Hn. by apply elem_of_singleton. }
    destruct r as [[]|e]; cbn; by right.
Qed.

Lemma create_cluster_handled (w : World) :
  wp (create_cluster K cluster seed_pod) (create_failure_handled seed_pod w) w.
Proof.
  unfold create_cluster. apply handled_bind.
  { steps_auto emits_leaf. }
  intros b w1. unfold with_connect_dba. apply handled_bind.
  { steps_auto emits_leaf. }
  intros dba w2. apply handled_finally.
  2, 3: steps_auto ltac:(first [emits_leaf | keeps_leaf]).
  intros w3. apply handled_bind; [steps_auto emits_leaf|].
  intros _ w4. apply handled_bind; [steps_auto emits_leaf|].
  intros _ w5. apply handled_bind; [steps_auto emits_leaf|].
  intros existing w6. apply handled_after_contained.
  - intros w7. destruct existing as [c|].
    + unfold wp, ret. cbn. reflexivity.
    + apply contained_bind; [steps_auto emits_leaf|].
      intros _ w8. apply try_dba_create_cluster_contained.
  - intros _. steps_auto emits_leaf.
Qed.

(** C10. If, during a run of [create_cluster], the admin client's
    [create_cluster] primitive raised an admin error, then the run ends by
    raising and the seed pod is left without a member finalizer. *)
Theorem create_cluster_failure_removes_finalizer (w : World) new d name opts code msg :
  calls (create_cluster K cluster seed_pod w).2 = (new ++ calls w)%list →
  (DbaCreateCluster d name opts, Some (MysqlshError code msg)) ∈ new →
  has_member_finalizer seed_pod (create_cluster K cluster seed_pod w).2 = false
  ∧ is_raise (create_cluster K cluster seed_pod w).1 = true.
Proof.
  intros Hcalls Hin.
  destruct (create_cluster_handled w) as [(new' & Hnew' & Hall)|H]; [|exact H].
  exfalso. rewrite Hcalls in Hnew'. apply app_inv_tail in Hnew'. subst new'.
  rewrite Forall_forall in Hall. by eapply (Hall _ Hin).
Qed.

End CreateFailure.

Lemma create_cluster_failure_removes_finalizer_witness :
  calls (create_cluster (K_fresh (Raise (MysqlshError 51315 "already in GR")))
           (sample_cluster false None) pod0 empty_world).2
  = (calls (create_cluster (K_fresh (Raise (MysqlshError 51315 "already in GR")))
              (sample_cluster false None) pod0 empty_world).2
     ++ calls empty_world)%list ∧
  (DbaCreateCluster {| dba_uri := "mycluster-0.mycluster-instances:3306" |} "mycluster"
     (create_options true), Some (MysqlshError 51315 "already in GR"))
  ∈ calls (create_cluster (K_fresh (Raise (MysqlshError 51315 "already in GR")))
             (sample_cluster false None) pod0 empty_world).2 ∧
  has_member_finalizer pod0
    (create_cluster (K_fresh (Raise (MysqlshError 51315 "already in GR")))
       (sample_cluster false None) pod0 empty_world).2 = false ∧
  is_raise (create_cluster (K_fresh (Raise (MysqlshError 51315 "already in GR")))
              (sample_cluster false None) pod0 empty_world).1 = true.
Proof.
  assert (H1 : calls (create_cluster (K_fresh (Raise (MysqlshError 51315 "already in GR")))
                        (sample_cluster false None) pod0 empty_world).2
    = (calls (create_cluster (K_fresh (Raise (MysqlshError 51315 "already in GR")))
                (sample_cluster false None) pod0 empty_world).2
       ++ calls empty_world)%list).
  { vm_compute. reflexivity. }
  assert (H2 : (DbaCreateCluster {| dba_uri := "mycluster-0.mycluster-instances:3306" |}
                  "mycluster" (create_options true),
                Some (MysqlshError 51315 "already in GR"))
    ∈ calls (create_cluster (K_fresh (Raise (MysqlshError 51315 "already in GR")))
               (sample_cluster false None) pod0 empty_world).2).
  { refine (bool_decide_unpack _ _). vm_compute. exact I. }
  split; [exact H1|]. split; [exact H2|].
  exact (create_cluster_failure_removes_finalizer
           (K_fresh (Raise (MysqlshError 51315 "already in GR")))
           (sample_cluster false None) pod0 empty_world _ _ _ _ _ _ H1 H2).
Defined.

(** A run of [create_cluster] on a fresh seed does reach the primitive, with
    the options of C5. *)
Example create_cluster_issues_create :
  (DbaCreateCluster {| dba_uri := "mycluster-0.mycluster-instances:3306" |} "mycluster"
     (create_options true), None)
  ∈ calls (create_cluster (K_fresh (Ok the_cluster_handle))
             (sample_cluster false None) pod0 empty_world).2
  ∧ (create_cluster (K_fresh (Ok the_cluster_handle))
       (sample_cluster false None) pod0 empty_world).1 = Ok tt.
Proof.
  split; [refine (bool_decide_unpack _ _); vm_compute; exact I | vm_compute; reflexivity].
Qed.

(** A forced remove that fails while the cluster is being deleted is
    swallowed: [remove_instance] returns and the finalizer is gone. *)
Example remove_instance_swallows_when_deleting :
  remove_instance
    (sample_K [pod0; pod1] (Ok (sample_diag DIAG_CLUSTER_ONLINE))
       (Ok the_cluster_handle) (Ok the_cluster_handle)
       (Raise (MysqlshError 51004 "instance unreachable")))
    (sample_cluster true None) pod1 (sample_body "mycluster-1") false
    (with_member_finalizers {[ "mycluster-1" ]} empty_world)
  = (Ok tt,
     {| calls := [(RemoveInstance the_cluster_handle "mycluster-1.mycluster-instances:3306"
                     (<["force" := VBool true]> ∅),
                   Some (MysqlshError 51004 "instance unreachable"));
                  (RemoveInstance the_cluster_handle "mycluster-1.mycluster-instances:3306" ∅,
                   Some (MysqlshError 51004 "instance unreachable"));
                  (ClusterStatus the_cluster_handle, None);
                  (DbaGetCluster {| dba_uri := "mycluster-0.mycluster-instances:3306" |}, None);
                  (CreateDba "mycluster-0.mycluster-instances:3306", None);
                  (GetPods, None); (GetPods, None)];
        member_finalizers := ∅; cluster_status := None; cluster_info := None;
        create_time := None; mutex_slots := ∅;
        self_dba := Some {| dba_uri := "mycluster-0.mycluster-instances:3306" |};
        self_dba_cluster := Some the_cluster_handle |}).
Proof. vm_compute. reflexivity. Qed.


(** The log line after the removal: with a body that has no [metadata]
    entry, a removal that went through still ends in [KeyError], and the
    finalizer is gone. *)
Example remove_instance_without_metadata :
  (remove_instance (K_healthy [pod0; pod1]) (sample_cluster false None) pod1 ∅ false
     (with_member_finalizers {[ "mycluster-1" ]} empty_world)).1
  = Raise (KeyError "metadata") ∧
  has_member_finalizer pod1
    (remove_instance (K_healthy [pod0; pod1]) (sample_cluster false None) pod1 ∅ false
       (with_member_finalizers {[ "mycluster-1" ]} empty_world)).2 = false.
Proof. split; vm_compute; reflexivity. Qed.

Section Repair.

Variable K : Collaborators.

(** C1 (as amended). For a diagnostic tagged UNCERTAIN, [repair_cluster]
    touches nothing; for ONLINE_UNCERTAIN it returns, for OFFLINE_UNCERTAIN
    and NO_QUORUM_UNCERTAIN it raises the retry-later sentinel, and for
    SPLIT_BRAIN_UNCERTAIN it raises the permanent-failure sentinel. So
    outside SPLIT_BRAIN_UNCERTAIN an UNCERTAIN diagnosis never ends in a
    permanent failure. *)
Theorem repair_cluster_uncertain (pod : MySQLPod) (diag : ClusterDiagnostic) (w : World) :
  is_uncertain (diag_status diag) = true →
  (repair_cluster K pod diag w).2 = w ∧
  (diag_status diag ≠ DIAG_CLUSTER_SPLIT_BRAIN_UNCERTAIN →
     is_raise (repair_cluster K pod diag w).1 = false
     ∨ ∃ msg delay, (repair_cluster K pod diag w).1 = Raise (TemporaryError msg delay)) ∧
  (diag_status diag = DIAG_CLUSTER_SPLIT_BRAIN_UNCERTAIN →
     ∃ msg, (repair_cluster K pod diag w).1 = Raise (PermanentError msg)).
Proof.
  intros Hu. unfold repair_cluster.
  destruct (diag_status diag) eqn:Hs; try discriminate Hu; cbn.
  - split; [done|]. split; [by left | done].
  - split; [done|]. split; [right; eauto | done].
  - split; [done|]. split; [right; eauto | done].
  - split; [done|]. split; [done | eauto].
Qed.

(** [repair_cluster] hands back [None] whenever it returns. *)
Lemma repair_cluster_ok (pod : MySQLPod) (diag : ClusterDiagnostic) (w w' : World) v :
  repair_cluster K pod diag w = (Ok v, w') → v = VNone.
Proof.
  unfold repair_cluster.
  destruct (diag_status diag); unfold bind, raise, ret; try congruence.
  - destruct (pod_index pod =? 0).
    + destruct (K_RetryLoop_call K unit (reboot_cluster K) w) as [[[]|e] w1];
        congruence.
    + congruence.
  - destruct (diag_quorum_candidates diag) as [|c cs]; [congruence|].
    destruct (K_RetryLoop_call K unit (force_quorum K c) w) as [[[]|e] w1];
      congruence.
Qed.

End Repair.

Lemma repair_cluster_uncertain_witness :
  is_uncertain (diag_status (sample_diag DIAG_CLUSTER_OFFLINE_UNCERTAIN)) = true ∧
  diag_status (sample_diag DIAG_CLUSTER_OFFLINE_UNCERTAIN)
    ≠ DIAG_CLUSTER_SPLIT_BRAIN_UNCERTAIN ∧
  (is_raise (repair_cluster (K_reporting DIAG_CLUSTER_OFFLINE_UNCERTAIN) pod1
               (sample_diag DIAG_CLUSTER_OFFLINE_UNCERTAIN) empty_world).1 = false
   ∨ ∃ msg delay,
       (repair_cluster (K_reporting DIAG_CLUSTER_OFFLINE_UNCERTAIN) pod1
          (sample_diag DIAG_CLUSTER_OFFLINE_UNCERTAIN) empty_world).1
       = Raise (TemporaryError msg delay)).
Proof.
  split; [reflexivity|]. split; [discriminate|].
  apply (repair_cluster_uncertain (K_reporting DIAG_CLUSTER_OFFLINE_UNCERTAIN) pod1
           (sample_diag DIAG_CLUSTER_OFFLINE_UNCERTAIN) empty_world eq_refl).
  discriminate.
Defined.

(** C1, as stated, fails: SPLIT_BRAIN_UNCERTAIN is tagged UNCERTAIN and
    [repair_cluster] answers it with the permanent-failure sentinel. *)
Lemma repair_cluster_split_brain_uncertain_permanent :
  is_uncertain DIAG_CLUSTER_SPLIT_BRAIN_UNCERTAIN = true ∧
  (repair_cluster (K_reporting DIAG_CLUSTER_SPLIT_BRAIN_UNCERTAIN) pod0
     (sample_diag DIAG_CLUSTER_SPLIT_BRAIN_UNCERTAIN) empty_world).1
  = Raise (PermanentError
      "Unable to recover from current cluster state. User action required. state=SPLIT_BRAIN_UNCERTAIN").
Proof. split; reflexivity. Qed.

Section Sinks.

Variable K : Collaborators.
Variable cluster : InnoDBCluster.

(** C7. Whenever [repair_cluster] returns, the value is [None], which is
    falsy; so [on_pod_deleted] never takes the branch guarded by that value:
    it runs exactly as the variant without the branch. *)
Theorem repair_cluster_falsy (pod : MySQLPod) (pod_body : Body)
    (diag : ClusterDiagnostic) (w : World) :
  (∀ v w', repair_cluster K pod diag w = (Ok v, w') → v = VNone ∧ truthy v = false) ∧
  on_pod_deleted K cluster pod pod_body w
  = on_pod_deleted_repair_falsy K cluster pod pod_body w.
Proof.
  split.
  - intros v w' H. apply repair_cluster_ok in H. by subst v.
  - unfold on_pod_deleted, on_pod_deleted_repair_falsy, bind.
    destruct (probe_status K w) as [[d|e] w1]; [|done].
    destruct (cluster_deleting cluster && (pod_index pod =? 0)); [done|].
    destruct (removable pod d); [done|].
    destruct (repair_cluster K pod d w1) as [[v|e] w2] eqn:Hr; [|done].
    apply repair_cluster_ok in Hr. by subst v.
Qed.

(** What a successful probe leaves behind: the two calls of the probe, the
    published status, and nothing else. *)
Lemma probe_status_ok (w w1 : World) (diag : ClusterDiagnostic) :
  probe_status K w = (Ok diag, w1) →
  ∃ now,
    w1 = with_cluster_status
           (Some {| cs_status := diag_status diag;
                    cs_onlineInstances := length (diag_online_members diag);
                    cs_lastProbeTime := now |})
           (record_call IsoTime None (record_call DiagnoseCluster None w)).
Proof.
  unfold probe_status, publish_status, set_cluster_status, bind, call, modify, ret.
  destruct (K_env K w DiagnoseCluster) as [d|e] eqn:Hd; cbn; [|congruence].
  destruct (K_env K _ IsoTime) as [now|e] eqn:Hn; cbn; [|congruence].
  intros H. simplify_eq. by exists now.
Qed.

(** What [on_pod_created] does once the probe has answered INITIALIZING. *)
Lemma on_pod_created_initializing_step (pod : MySQLPod) (w w1 : World)
    (diag : ClusterDiagnostic) :
  probe_status K w = (Ok diag, w1) →
  diag_status diag = DIAG_CLUSTER_INITIALIZING →
  on_pod_created K cluster pod w
  = (if pod_index pod =? 0 then
       t <- get_create_time ;;
       (if bool_decide (is_Some t) then
          raise (PermanentError
            "Internal inconsistency: cluster marked as initialized, but create requested again")
        else ret tt) ;;;
       K_RetryLoop_call K unit (create_cluster K cluster pod) ;;;
       now <- call K DatetimeNow ;;
       set_create_time now
     else raise (TemporaryError "Cluster is not yet ready" (Some 15))) w1.
Proof. intros Hp Hs. unfold on_pod_created, bind at 1. by rewrite Hp, Hs. Qed.

(** C3. The diagnostic engine answers INITIALIZING only while the cluster has
    no create time recorded (section 4.2 of the specification; the engine is
    not among the embedded sources). When [on_pod_created] probes
    INITIALIZING in such a state: for pod 0 it runs [create_cluster] on that
    pod under the retry loop and, when that returns, reads the clock and sets
    the create time, so that a normal return leaves a create time; for any
    other pod it raises the retry-later sentinel with delay 15 right after
    the probe, whose two calls are then the only calls made. *)
Theorem on_pod_created_initializing (pod : MySQLPod) (w w1 : World)
    (diag : ClusterDiagnostic) :
  probe_status K w = (Ok diag, w1) →
  diag_status diag = DIAG_CLUSTER_INITIALIZING →
  create_time w = None →
  (pod_index pod = 0 →
     on_pod_created K cluster pod w
     = (K_RetryLoop_call K unit (create_cluster K cluster pod) ;;;
        now <- call K DatetimeNow ;;
        set_create_time now) w1
     ∧ ∀ w', on_pod_created K cluster pod w = (Ok tt, w') → is_Some (create_time w')) ∧
  (pod_index pod ≠ 0 →
     on_pod_created K cluster pod w
     = (Raise (TemporaryError "Cluster is not yet ready" (Some 15)), w1)) ∧
  calls w1 = (IsoTime, None) :: (DiagnoseCluster, None) :: calls w.
Proof.
  intros Hp Hs Hnone.
  destruct (probe_status_ok _ _ _ Hp) as [now Hw1].
  assert (Hct : create_time w1 = create_time w) by (by subst w1).
  rewrite (on_pod_created_initializing_step pod w w1 diag Hp Hs).
  split; [|split].
  - intros Hi. rewrite Hi. cbn [Z.eqb].
    match goal with
    | |- ?l = ?r ∧ _ => assert (Heq : l = r)
    end.
    { unfold get_create_time, gets, bind at 1. rewrite Hct, Hnone. reflexivity. }
    rewrite Heq. split; [reflexivity|]. intros w'. unfold bind at 1.
    destruct (K_RetryLoop_call K unit (create_cluster K cluster pod) w1)
      as [[[]|e] w2]; cbn beta iota; [|congruence].
    unfold bind, call, set_create_time, modify.
    destruct (K_env K w2 DatetimeNow) as [t|e]; cbn; [|congruence].
    intros H. simplify_eq. cbn. eauto.
  - intros Hne. apply Z.eqb_neq in Hne. by rewrite Hne.
  - by subst w1.
Qed.

(** The guard of the pod-0 branch: should INITIALIZING ever be probed for a
    cluster that carries a create time, [on_pod_created] raises the
    permanent-failure sentinel right after the probe instead of creating
    again. *)
Lemma on_pod_created_guard (pod : MySQLPod) (w w1 : World) (diag : ClusterDiagnostic) :
  probe_status K w = (Ok diag, w1) →
  diag_status diag = DIAG_CLUSTER_INITIALIZING →
  pod_index pod = 0 →
  is_Some (create_time w) →
  on_pod_created K cluster pod w
  = (Raise (PermanentError
       "Internal inconsistency: cluster marked as initialized, but create requested again"),
     w1).
Proof.
  intros Hp Hs Hi [t Ht].
  destruct (probe_status_ok _ _ _ Hp) as [now Hw1].
  assert (Hct : create_time w1 = create_time w) by (by subst w1).
  rewrite (on_pod_created_initializing_step pod w w1 diag Hp Hs), Hi. cbn [Z.eqb].
  unfold get_create_time, gets, bind at 1. rewrite Hct, Ht. reflexivity.
Qed.

(** C6 (as amended). [probe_status_if_needed] runs the probe, starting with
    the diagnosis, exactly when the recorded probe time is older than the
    changed pod's last transition time (both being recorded), or the
    recorded status is UNKNOWN or one of the UNCERTAIN family; otherwise it
    returns the recorded status and leaves everything as it was. *)
Theorem probe_status_if_needed_spec (changed_pod : MySQLPod) (w : World) :
  let probe_time := cs_lastProbeTime <$> cluster_status w in
  let transition_time := get_membership_info changed_pod "lastTransitionTime" in
  let last_status := cs_status <$> cluster_status w in
  let older := ∃ p t, probe_time = Some p ∧ transition_time = Some t
                      ∧ p ≠ "" ∧ t ≠ "" ∧ String.ltb p t = true in
  let stale := ∃ s, last_status = Some s
                    ∧ (s = DIAG_CLUSTER_UNKNOWN ∨ is_uncertain s = true) in
  (older ∨ stale →
     probe_status_if_needed K changed_pod w
     = (diag <- probe_status K ;; ret (Some (diag_status diag))) w
     ∧ ∃ new o, calls (probe_status_if_needed K changed_pod w).2
                = (new ++ (DiagnoseCluster, o) :: calls w)%list) ∧
  (¬ (older ∨ stale) →
     probe_status_if_needed K changed_pod w = (Ok last_status, w)).
Proof.
  intros probe_time transition_time last_status older stale.
  assert (Hwhen : older ∨ stale ↔
    (truthy_str probe_time && truthy_str transition_time
     && str_lt probe_time transition_time)
    || status_in last_status unreachable_states = true).
  { rewrite orb_true_iff, !andb_true_iff. subst older stale. split.
    - intros [(p & t & -> & -> & Hp & Ht & Hlt)|(s & -> & Hs)].
      + left. cbn. rewrite !negb_true_iff.
        repeat split; [by apply String.eqb_neq..|done].
      + right. cbn. destruct Hs as [->|Hs]; [reflexivity|].
        destruct s; try discriminate Hs; reflexivity.
    - intros [[[Hp Ht] Hlt]|Hs].
      + left. destruct probe_time as [p|], transition_time as [t|]; try discriminate.
        cbn in *. rewrite negb_true_iff in Hp, Ht.
        exists p, t. repeat split; [by apply String.eqb_neq..|done].
      + right. destruct last_status as [s|]; [|discriminate].
        exists s. split; [done|]. cbn in Hs.
        destruct s; vm_compute in Hs; try discriminate Hs; auto. }
  assert (Hstep : probe_status_if_needed K changed_pod w
    = (if (truthy_str probe_time && truthy_str transition_time
           && str_lt probe_time transition_time)
          || status_in last_status unreachable_states
       then diag <- probe_status K ;; ret (Some (diag_status diag))
       else ret last_status) w) by reflexivity.
  rewrite Hstep. clear Hstep. split.
  - intros H. apply Hwhen in H. rewrite H. split; [reflexivity|].
    unfold probe_status, publish_status, set_cluster_status, bind, call, modify, ret.
    destruct (K_env K w DiagnoseCluster) as [d|e]; cbn.
    + destruct (K_env K _ IsoTime) as [now|e]; cbn.
      * by exists [(IsoTime, None)], None.
      * by exists [(IsoTime, Some e)], None.
    + by exists [], (Some e).
  - intros H. destruct (_ || _) eqn:Hc; [|reflexivity].
    exfalso. apply H, Hwhen. done.
Qed.

End Sinks.

Lemma probe_status_if_needed_spec_witness :
  (∃ s, cs_status <$> cluster_status (world_probed DIAG_CLUSTER_OFFLINE_UNCERTAIN
                                         "2020-06-02T10:00:00Z") = Some s
        ∧ (s = DIAG_CLUSTER_UNKNOWN ∨ is_uncertain s = true)) ∧
  probe_status_if_needed (K_reporting DIAG_CLUSTER_ONLINE)
    (pod_changed_at "2020-06-01T10:00:00Z")
    (world_probed DIAG_CLUSTER_OFFLINE_UNCERTAIN "2020-06-02T10:00:00Z")
  = (diag <- probe_status (K_reporting DIAG_CLUSTER_ONLINE) ;;
     ret (Some (diag_status diag)))
      (world_probed DIAG_CLUSTER_OFFLINE_UNCERTAIN "2020-06-02T10:00:00Z").
Proof.
  assert (H : ∃ s, cs_status <$> cluster_status
                (world_probed DIAG_CLUSTER_OFFLINE_UNCERTAIN "2020-06-02T10:00:00Z")
              = Some s ∧ (s = DIAG_CLUSTER_UNKNOWN ∨ is_uncertain s = true)).
  { exists DIAG_CLUSTER_OFFLINE_UNCERTAIN. split; [reflexivity | right; reflexivity]. }
  split; [exact H|].
  apply (probe_status_if_needed_spec (K_reporting DIAG_CLUSTER_ONLINE)
           (pod_changed_at "2020-06-01T10:00:00Z")
           (world_probed DIAG_CLUSTER_OFFLINE_UNCERTAIN "2020-06-02T10:00:00Z")).
  right. exact H.
Defined.

(** C6, as stated, fails when the recorded status is UNKNOWN: the probe time
    is not older than the pod's transition time and UNKNOWN is not tagged
    UNCERTAIN, yet the probe runs and its new status, not the recorded one,
    is returned. *)
Lemma probe_status_if_needed_unknown_probes :
  String.ltb "2020-06-02T10:00:00Z" "2020-06-01T10:00:00Z" = false ∧
  is_uncertain DIAG_CLUSTER_UNKNOWN = false ∧
  cs_status <$> cluster_status (world_probed DIAG_CLUSTER_UNKNOWN "2020-06-02T10:00:00Z")
  = Some DIAG_CLUSTER_UNKNOWN ∧
  (probe_status_if_needed (K_reporting DIAG_CLUSTER_ONLINE)
     (pod_changed_at "2020-06-01T10:00:00Z")
     (world_probed DIAG_CLUSTER_UNKNOWN "2020-06-02T10:00:00Z")).1
  = Ok (Some DIAG_CLUSTER_ONLINE) ∧
  calls (probe_status_if_needed (K_reporting DIAG_CLUSTER_ONLINE)
     (pod_changed_at "2020-06-01T10:00:00Z")
     (world_probed DIAG_CLUSTER_UNKNOWN "2020-06-02T10:00:00Z")).2
  = [(IsoTime, None); (DiagnoseCluster, None)].
Proof. repeat split; reflexivity. Qed.

Section Mutex.

(** C2. Entering the mutex of a cluster whose slot is held raises the
    retry-later sentinel with delay 10 and a message naming the holder,
    without running the body and with the state, hence the slot, as it was.
    When the slot is free, entering stores the caller's token, the body runs,
    and however the body ends the slot is empty afterwards. *)
Theorem cluster_mutex {A : Type} (cluster : InnoDBCluster) (pod : option MySQLPod)
    (body : M A) (w : World) :
  (∀ owner, mutex_slots w !! mutex_key cluster = Some owner → owner ≠ "" →
     with_ClusterMutex cluster pod body w
     = (Raise (TemporaryError (cluster_name cluster ++ " busy.  lock_owner=" ++ owner)
                 (Some 10)), w)) ∧
  (mutex_slots w !! mutex_key cluster = None →
     ∃ w1, ClusterMutex_enter cluster pod w = (Ok tt, w1)
       ∧ mutex_slots w1 !! mutex_key cluster
         = Some (match pod with Some p => pod_name p | None => cluster_name cluster end)
       ∧ with_ClusterMutex cluster pod body w
         = finally body (ClusterMutex_exit cluster pod) w1
       ∧ mutex_slots (with_ClusterMutex cluster pod body w).2 !! mutex_key cluster = None).
Proof.
  split.
  - intros owner Hheld Hne.
    unfold with_ClusterMutex, ClusterMutex_enter, testset, bind. rewrite Hheld. cbn.
    apply String.eqb_neq in Hne. by rewrite Hne.
  - intros Hfree.
    assert (Henter : ClusterMutex_enter cluster pod w
      = (Ok tt, with_mutex_slots
                  (<[mutex_key cluster :=
                       match pod with Some p => pod_name p | None => cluster_name cluster end]>
                     (mutex_slots w)) w)).
    { unfold ClusterMutex_enter, testset, bind. by rewrite Hfree. }
    eexists. split; [exact Henter|]. split; [apply lookup_insert_eq|].
    assert (Hwith : with_ClusterMutex cluster pod body w
      = finally body (ClusterMutex_exit cluster pod)
          (with_mutex_slots
             (<[mutex_key cluster :=
                  match pod with Some p => pod_name p | None => cluster_name cluster end]>
                (mutex_slots w)) w)).
    { unfold with_ClusterMutex, bind. by rewrite Henter. }
    split; [exact Hwith|]. rewrite Hwith.
    unfold finally, ClusterMutex_exit, set_none, modify.
    destruct (body _) as [r w2]. cbn. apply lookup_delete_eq.
Qed.

End Mutex.

Lemma cluster_mutex_witness :
  mutex_slots (world_locked "mycluster-0") !! mutex_key (sample_cluster false None)
  = Some "mycluster-0" ∧
  "mycluster-0" ≠ "" ∧
  with_ClusterMutex (sample_cluster false None) (Some pod1)
    (add_member_finalizer pod1) (world_locked "mycluster-0")
  = (Raise (TemporaryError "mycluster busy.  lock_owner=mycluster-0" (Some 10)),
     world_locked "mycluster-0").
Proof.
  split; [reflexivity|]. split; [discriminate|].
  apply (cluster_mutex (sample_cluster false None) (Some pod1)
           (add_member_finalizer pod1) (world_locked "mycluster-0")).
  - reflexivity.
  - discriminate.
Defined.

Lemma on_pod_created_initializing_witness :
  (probe_status (K_fresh (Ok the_cluster_handle)) empty_world).1
  = Ok (sample_diag DIAG_CLUSTER_INITIALIZING) ∧
  create_time empty_world = None ∧
  pod_index pod0 = 0 ∧
  (on_pod_created (K_fresh (Ok the_cluster_handle)) (sample_cluster false None)
     pod0 empty_world).1 = Ok tt ∧
  is_Some (create_time
             (on_pod_created (K_fresh (Ok the_cluster_handle)) (sample_cluster false None)
                pod0 empty_world).2) ∧
  pod_index pod1 ≠ 0 ∧
  (on_pod_created (K_fresh (Ok the_cluster_handle)) (sample_cluster false None)
     pod1 empty_world).1
  = Raise (TemporaryError "Cluster is not yet ready" (Some 15)).
Proof.
  split; [reflexivity|]. split; [reflexivity|]. split; [reflexivity|].
  assert (Hrun : on_pod_created (K_fresh (Ok the_cluster_handle))
                   (sample_cluster false None) pod0 empty_world
                 = (Ok tt, (on_pod_created (K_fresh (Ok the_cluster_handle))
                              (sample_cluster false None) pod0 empty_world).2)).
  { vm_compute. reflexivity. }
  split; [by rewrite Hrun|].
  destruct (on_pod_created_initializing (K_fresh (Ok the_cluster_handle))
              (sample_cluster false None) pod0 empty_world _
              (sample_diag DIAG_CLUSTER_INITIALIZING) eq_refl eq_refl eq_refl)
    as (H0 & _ & _).
  split; [exact (proj2 (H0 eq_refl) _ Hrun)|].
  split; [discriminate|].
  destruct (on_pod_created_initializing (K_fresh (Ok the_cluster_handle))
              (sample_cluster false None) pod1 empty_world _
              (sample_diag DIAG_CLUSTER_INITIALIZING) eq_refl eq_refl eq_refl)
    as (_ & H1 & _).
  rewrite H1; [reflexivity | discriminate].
Defined.

(** ** Further properties of the controller *)

#[local] Instance keeps_cluster_info_preorder : PreOrder keeps_cluster_info.
Proof.
  split; [by intros w | intros w1 w2 w3 H1 H2].
  unfold keeps_cluster_info in *. congruence.
Qed.

#[local] Instance keeps_orchestrator_preorder : PreOrder keeps_orchestrator.
Proof.
  split; [by intros w | intros w1 w2 w3 H1 H2].
  destruct H1 as (?&?&?&?&?), H2 as (?&?&?&?&?).
  repeat split; congruence.
Qed.

#[local] Instance finalizers_grow_preorder : PreOrder finalizers_grow.
Proof.
  split.
  - intros w. unfold finalizers_grow. reflexivity.
  - intros w1 w2 w3 H1 H2. unfold finalizers_grow in *. etrans; eassumption.
Qed.

Lemma wp_ret {S A} (a : A) (Q : res A → S → Prop) w : Q (Ok a) w → wp (ret a) Q w.
Proof. done. Qed.

Lemma wp_raise {S A} e (Q : res A → S → Prop) w :
  Q (Raise e) w → wp (raise e) Q w.
Proof. done. Qed.

Lemma wp_gets {S A} (f : S → A) (Q : res A → S → Prop) w :
  Q (Ok (f w)) w → wp (gets f) Q w.
Proof. done. Qed.

Lemma wp_modify {S} (f : S → S) (Q : res unit → S → Prop) w :
  Q (Ok tt) (f w) → wp (modify f) Q w.
Proof. done. Qed.

Lemma wp_call (K : Collaborators) (c : Call) (Q : res (Ret c) → World → Prop) w :
  Q (K_env K w c) (record_call c (outcome (K_env K w c)) w) → wp (call K c) Q w.
Proof. done. Qed.

(** Case analysis on the innermost scrutinee of nested matches. *)
Ltac destruct_scrutinee x :=
  lazymatch x with
  | match ?y with _ => _ end => destruct_scrutinee y
  | _ => destruct x eqn:?
  end.

(** One step of running a program symbolically under [wp]: calls split on
    the collaborators' answer. *)
Ltac wp_step :=
  lazymatch goal with
  | |- wp (bind _ _) _ _ => apply wp_bind
  | |- wp (try_except _ _) _ _ => apply wp_try_except
  | |- wp (finally _ _) _ _ => apply wp_finally
  | |- wp (call ?K ?c) ?Q ?w =>
      apply (wp_call K c Q w);
      let r := fresh "r" in
      let E := fresh "E" in
      destruct (K_env K w c) as [r|r] eqn:E; cbn [outcome]; cbn beta iota
  | |- wp (ret ?a) ?Q ?w => apply (wp_ret a Q w); cbn beta iota
  | |- wp (raise ?e) ?Q ?w => apply (wp_raise e Q w); cbn beta iota
  | |- wp (gets ?f) ?Q ?w => apply (wp_gets f Q w); cbn beta iota
  | |- wp (modify ?f) ?Q ?w => apply (wp_modify f Q w); cbn beta iota
  | |- wp (match ?x with _ => _ end) _ _ => destruct_scrutinee x; cbn beta iota
  | |- match ?x with _ => _ end => destruct_scrutinee x; cbn beta iota
  end.

Section Connecting.

Variable K : Collaborators.

(** The loop of [try_connect] never raises, and a pod it returns is one of
    the pods it was given, is not being deleted, and has left both handles
    set. *)
Lemma try_connect_loop_returns pods last_exc offline_pods w :
  wp (try_connect_loop K pods last_exc offline_pods)
    (λ r w', match r with
             | Ok (inl pod) =>
                 pod ∈ pods ∧ pod_deleting pod = false
                 ∧ is_Some (self_dba_cluster w') ∧ is_Some (self_dba w')
             | Ok (inr _) => True
             | Raise _ => False
             end) w.
Proof.
  revert last_exc offline_pods w.
  induction pods as [|pod rest IH]; intros last_exc offline_pods w;
    cbn [try_connect_loop].
  - by wp_step.
  - assert (Hrest : ∀ l o w0,
      wp (try_connect_loop K rest l o)
        (λ r w', match r with
                 | Ok (inl pod') =>
                     pod' ∈ pod :: rest ∧ pod_deleting pod' = false
                     ∧ is_Some (self_dba_cluster w') ∧ is_Some (self_dba w')
                 | Ok (inr _) => True
                 | Raise _ => False
                 end) w0).
    { intros l o w0. eapply wp_mono; [apply IH|].
      intros [[pod'|?]|?] w' H; [|done..].
      destruct H as (Hin & H). split; [|done]. apply elem_of_cons. by right. }
    destruct (bool_decide (pod_name pod ∈ offline_pods) || pod_deleting pod) eqn:Hskip.
    + apply Hrest.
    + apply orb_false_iff in Hskip as [_ Hdel].
      all: repeat first [apply Hrest | wp_step].
      all: cbn; eauto 10 using list_elem_of_here.
Qed.

(** X1. When [connect_to_cluster] returns a pod, the pod is one of the pods
    the cluster listed, it is not being deleted, and both [self.dba] and
    [self.dba_cluster] are set. *)
Theorem connect_to_cluster_returns (w w' : World) (pod : MySQLPod) :
  connect_to_cluster K w = (Ok pod, w') →
  (∃ pods, K_env K w GetPods = Ok pods ∧ pod ∈ pods)
  ∧ pod_deleting pod = false
  ∧ is_Some (self_dba_cluster w') ∧ is_Some (self_dba w').
Proof.
  unfold connect_to_cluster, bind at 1, call.
  destruct (K_env K w GetPods) as [pods|e]; cbn [outcome]; [|discriminate].
  unfold bind at 1.
  pose proof (try_connect_loop_returns pods None [] (record_call GetPods None w)) as H.
  unfold wp in H.
  destruct (try_connect_loop K pods None [] _) as [[[p|[last off]]|e] w1];
    cbn in H; [|by repeat case_match|done].
  unfold ret. intros [= -> ->]. destruct H as (Hin & H). split; [by exists pods | done].
Qed.

Lemma try_connect_loop_all_deleting pods last_exc offline_pods w :
  Forall (λ p, pod_deleting p = true) pods →
  try_connect_loop K pods last_exc offline_pods w = (Ok (inr (last_exc, offline_pods)), w).
Proof.
  induction 1 as [|pod rest Hdel _ IH]; cbn [try_connect_loop]; [done|].
  by rewrite Hdel, orb_true_r.
Qed.

(** X2. When the cluster lists no pod, or only pods that are being deleted,
    [connect_to_cluster] tries none of them and raises the retry-later
    sentinel with delay 15. *)
Theorem connect_to_cluster_all_deleting (w : World) (pods : list MySQLPod) :
  K_env K w GetPods = Ok pods →
  Forall (λ p, pod_deleting p = true) pods →
  connect_to_cluster K w
  = (Raise (TemporaryError "Could not connect to any cluster member" (Some 15)),
     record_call GetPods None w).
Proof.
  intros Hpods Hdel. unfold connect_to_cluster, bind at 1, call. rewrite Hpods.
  cbn [outcome]. unfold bind.
  rewrite (try_connect_loop_all_deleting _ _ _ _ Hdel).
  by destruct (length [] =? length pods)%nat.
Qed.

Lemma try_connect_loop_keeps_last_exc pods last_exc offline_pods w :
  (∀ w0 endpoint, is_raise (K_env K w0 (CreateDba endpoint)) = false) →
  wp (try_connect_loop K pods last_exc offline_pods)
    (λ r w', match r with
             | Ok (inl _) => True
             | Ok (inr (last_exc', _)) => last_exc' = last_exc
             | Raise _ => False
             end) w.
Proof.
  intros Hc. revert last_exc offline_pods w.
  induction pods as [|pod rest IH]; intros last_exc offline_pods w;
    cbn [try_connect_loop].
  - by wp_step.
  - repeat first [apply IH | wp_step]; try done.
    all: match goal with
         | E : K_env K ?w0 (CreateDba ?ep) = Raise _ |- _ =>
             specialize (Hc w0 ep); by rewrite E in Hc
         end.
Qed.

(** X3. Errors of [get_cluster] and [status] never leave
    [connect_to_cluster]: when the pods can be listed and no [create_dba]
    fails, it either returns a pod or raises the retry-later sentinel with
    delay 15. *)
Theorem connect_to_cluster_swallows (w : World) :
  is_raise (K_env K w GetPods) = false →
  (∀ w0 endpoint, is_raise (K_env K w0 (CreateDba endpoint)) = false) →
  is_raise (connect_to_cluster K w).1 = false
  ∨ (connect_to_cluster K w).1
    = Raise (TemporaryError "Could not connect to any cluster member" (Some 15)).
Proof.
  intros Hp Hc.
  change (wp (connect_to_cluster K)
            (λ r _, is_raise r = false
                    ∨ r = Raise (TemporaryError "Could not connect to any cluster member"
                                   (Some 15))) w).
  unfold connect_to_cluster. wp_step. wp_step; [|discriminate Hp].
  wp_step. eapply wp_mono; [by apply try_connect_loop_keeps_last_exc|].
  intros [[p|[last off]]|e] w1 H; cbn beta iota; [|subst last|done].
  - wp_step. by left.
  - repeat wp_step; by right.
Qed.

End Connecting.

(** Reduce the projections of a state that is written out. *)
Ltac world_simpl :=
  cbn [member_finalizers cluster_status cluster_info create_time mutex_slots calls
       self_dba self_dba_cluster record_call with_member_finalizers
       with_cluster_status with_cluster_info with_create_time with_mutex_slots
       with_self_dba with_self_dba_cluster].

(** Settle an [emits] goal whose final state is written out. *)
Ltac emits_explicit :=
  lazymatch goal with
  | |- emits _ ?w ?w => reflexivity
  | |- emits _ ?w (record_call ?c ?o ?w1) =>
      transitivity w1;
      [emits_explicit
      | apply emits_record_call;
        first [reflexivity | done | red; cbn [fst]; intros; simplify_eq; done]]
  | |- emits _ ?w (with_member_finalizers _ ?w1) =>
      transitivity w1; [emits_explicit | apply emits_same_calls; reflexivity]
  | |- emits _ ?w (with_cluster_status _ ?w1) =>
      transitivity w1; [emits_explicit | apply emits_same_calls; reflexivity]
  | |- emits _ ?w (with_cluster_info _ ?w1) =>
      transitivity w1; [emits_explicit | apply emits_same_calls; reflexivity]
  | |- emits _ ?w (with_create_time _ ?w1) =>
      transitivity w1; [emits_explicit | apply emits_same_calls; reflexivity]
  | |- emits _ ?w (with_mutex_slots _ ?w1) =>
      transitivity w1; [emits_explicit | apply emits_same_calls; reflexivity]
  | |- emits _ ?w (with_self_dba _ ?w1) =>
      transitivity w1; [emits_explicit | apply emits_same_calls; reflexivity]
  | |- emits _ ?w (with_self_dba_cluster _ ?w1) =>
      transitivity w1; [emits_explicit | apply emits_same_calls; reflexivity]
  | |- emits _ _ _ => assumption
  end.

Lemma issues_record_here (P : Call * option exn → Prop) c o w w1 :
  emits (λ _, True) w w1 → P (c, o) → issues P w (record_call c o w1).
Proof.
  intros (new & Hnew & _) HP. exists ((c, o) :: new). split.
  - cbn. by rewrite Hnew.
  - by apply Exists_cons_hd.
Qed.

Lemma issues_record_later (P : Call * option exn → Prop) c o w w1 :
  issues P w w1 → issues P w (record_call c o w1).
Proof.
  intros (new & Hnew & HP). exists ((c, o) :: new). split.
  - cbn. by rewrite Hnew.
  - by apply Exists_cons_tl.
Qed.

Lemma issues_same_calls (P : Call * option exn → Prop) w w1 w2 :
  issues P w w1 → calls w2 = calls w1 → issues P w w2.
Proof. intros (new & Hnew & HP) Heq. exists new. by rewrite Heq. Qed.

(** From [issues] back to the list of new calls of a run. *)
Lemma issues_new (P : Call * option exn → Prop) w w' new :
  issues P w w' → calls w' = (new ++ calls w)%list → ∃ ev, ev ∈ new ∧ P ev.
Proof.
  intros (new' & Hnew' & HP) Hnew. rewrite Hnew' in Hnew.
  apply app_inv_tail in Hnew as ->. by apply Exists_exists in HP.
Qed.

(** Find the call in a final state that is written out. *)
Ltac issues_explicit :=
  lazymatch goal with
  | |- issues _ ?w (record_call ?c ?o ?w1) =>
      first [ apply issues_record_here;
              [emits_explicit | solve [reflexivity | red; eauto]]
            | apply issues_record_later; issues_explicit ]
  | |- issues _ ?w (with_member_finalizers _ ?w1) =>
      apply (issues_same_calls _ w w1); [issues_explicit | reflexivity]
  | |- issues _ ?w (with_cluster_status _ ?w1) =>
      apply (issues_same_calls _ w w1); [issues_explicit | reflexivity]
  | |- issues _ ?w (with_cluster_info _ ?w1) =>
      apply (issues_same_calls _ w w1); [issues_explicit | reflexivity]
  | |- issues _ ?w (with_create_time _ ?w1) =>
      apply (issues_same_calls _ w w1); [issues_explicit | reflexivity]
  | |- issues _ ?w (with_self_dba _ ?w1) =>
      apply (issues_same_calls _ w w1); [issues_explicit | reflexivity]
  | |- issues _ ?w (with_self_dba_cluster _ ?w1) =>
      apply (issues_same_calls _ w w1); [issues_explicit | reflexivity]
  end.

Section Destroying.

Variable K : Collaborators.
Variable cluster : InnoDBCluster.

(** X4. [destroy_cluster] never raises: whatever the connection to the last
    pod and the STOP statement do, it returns, the pod's member finalizer is
    removed (and no other), and no call that changes group membership is
    made. *)
Theorem destroy_cluster_total (last_pod : MySQLPod) (w : World) :
  (destroy_cluster K last_pod w).1 = Ok tt
  ∧ member_finalizers (destroy_cluster K last_pod w).2
    = member_finalizers w ∖ {[pod_name last_pod]}
  ∧ emits no_membership_call w (destroy_cluster K last_pod w).2.
Proof.
  change (wp (destroy_cluster K last_pod)
            (λ r w', r = Ok tt
                     ∧ member_finalizers w' = member_finalizers w ∖ {[pod_name last_pod]}
                     ∧ emits no_membership_call w w') w).
  unfold destroy_cluster, with_connect_to_pod, remove_member_finalizer.
  repeat wp_step.
  all: split; [done|]; split; [done|]; emits_explicit.
Qed.

(** X5. For pod 0 of a cluster that is being deleted, [on_pod_deleted]
    returns normally once the probe has succeeded: the pod's member
    finalizer is gone and no call that changes group membership was made. *)
Theorem on_pod_deleted_last_pod (pod : MySQLPod) (pod_body : Body) (w w1 : World)
    (diag : ClusterDiagnostic) :
  cluster_deleting cluster = true →
  pod_index pod = 0 →
  probe_status K w = (Ok diag, w1) →
  (on_pod_deleted K cluster pod pod_body w).1 = Ok tt
  ∧ has_member_finalizer pod (on_pod_deleted K cluster pod pod_body w).2 = false
  ∧ emits no_membership_call w (on_pod_deleted K cluster pod pod_body w).2.
Proof.
  intros Hdel Hidx Hprobe.
  change (wp (on_pod_deleted K cluster pod pod_body)
            (λ r w', r = Ok tt ∧ has_member_finalizer pod w' = false
                     ∧ emits no_membership_call w w') w).
  unfold on_pod_deleted. apply wp_bind. unfold wp at 1.
  rewrite Hprobe, Hdel, Hidx. cbn [fst snd andb Z.eqb].
  destruct (probe_status_ok K w w1 diag Hprobe) as [now ->].
  unfold destroy_cluster, with_connect_to_pod, remove_member_finalizer.
  repeat wp_step.
  all: split; [done|]; split; [|emits_explicit].
  all: unfold has_member_finalizer; apply bool_decide_eq_false; world_simpl.
  all: intros [_ Hn]%elem_of_difference; apply Hn; by apply elem_of_singleton.
Qed.

End Destroying.

Lemma on_pod_deleted_last_pod_witness :
  cluster_deleting (sample_cluster true None) = true ∧
  pod_index pod0 = 0 ∧
  (on_pod_deleted (K_reporting DIAG_CLUSTER_FINALIZING) (sample_cluster true None) pod0
     (sample_body "mycluster-0")
     (with_member_finalizers {[ "mycluster-0" ]} empty_world)).1 = Ok tt ∧
  has_member_finalizer pod0
    (on_pod_deleted (K_reporting DIAG_CLUSTER_FINALIZING) (sample_cluster true None) pod0
       (sample_body "mycluster-0")
       (with_member_finalizers {[ "mycluster-0" ]} empty_world)).2 = false.
Proof.
  split; [reflexivity|]. split; [reflexivity|].
  destruct (on_pod_deleted_last_pod (K_reporting DIAG_CLUSTER_FINALIZING)
              (sample_cluster true None) pod0 (sample_body "mycluster-0")
              (with_member_finalizers {[ "mycluster-0" ]} empty_world) _ _
              eq_refl eq_refl eq_refl) as (H1 & H2 & _).
  by split.
Defined.

Lemma connect_to_cluster_returns_witness :
  connect_to_cluster (K_healthy [pod0; pod1]) empty_world
  = (Ok pod0, (connect_to_cluster (K_healthy [pod0; pod1]) empty_world).2) ∧
  pod_deleting pod0 = false ∧
  is_Some (self_dba_cluster (connect_to_cluster (K_healthy [pod0; pod1]) empty_world).2).
Proof.
  assert (H : connect_to_cluster (K_healthy [pod0; pod1]) empty_world
              = (Ok pod0, (connect_to_cluster (K_healthy [pod0; pod1]) empty_world).2)).
  { vm_compute. reflexivity. }
  split; [exact H|].
  destruct (connect_to_cluster_returns (K_healthy [pod0; pod1]) _ _ _ H)
    as (_ & H1 & H2 & _).
  by split.
Defined.

Lemma connect_to_cluster_all_deleting_witness :
  K_env (K_healthy []) empty_world GetPods = Ok [] ∧
  Forall (λ p, pod_deleting p = true) [] ∧
  connect_to_cluster (K_healthy []) empty_world
  = (Raise (TemporaryError "Could not connect to any cluster member" (Some 15)),
     record_call GetPods None empty_world).
Proof.
  split; [reflexivity|]. split; [constructor|].
  apply (connect_to_cluster_all_deleting (K_healthy []) empty_world []);
    [reflexivity | constructor].
Defined.

Lemma connect_to_cluster_swallows_witness :
  is_raise (K_env (sample_K [pod0] (Ok (sample_diag DIAG_CLUSTER_OFFLINE))
                     (Raise (MysqlshError 51314 "not online")) (Ok the_cluster_handle)
                     (Ok tt)) empty_world GetPods) = false ∧
  (is_raise (connect_to_cluster
               (sample_K [pod0] (Ok (sample_diag DIAG_CLUSTER_OFFLINE))
                  (Raise (MysqlshError 51314 "not online")) (Ok the_cluster_handle)
                  (Ok tt)) empty_world).1 = false
   ∨ (connect_to_cluster
        (sample_K [pod0] (Ok (sample_diag DIAG_CLUSTER_OFFLINE))
           (Raise (MysqlshError 51314 "not online")) (Ok the_cluster_handle)
           (Ok tt)) empty_world).1
     = Raise (TemporaryError "Could not connect to any cluster member" (Some 15))).
Proof.
  split; [reflexivity|].
  apply connect_to_cluster_swallows; [reflexivity|]. intros w0 endpoint. reflexivity.
Defined.

Lemma emits_mono (P Q : Call * option exn → Prop) w w' :
  (∀ ev, P ev → Q ev) → emits P w w' → emits Q w w'.
Proof.
  intros HPQ (new & Hnew & Hall). exists new. split; [done|].
  eapply Forall_impl; eauto.
Qed.

#[local] Instance quiet_preorder : PreOrder quiet.
Proof.
  split.
  - intros w. split; reflexivity.
  - intros w1 w2 w3 [E1 O1] [E2 O2]. split; etrans; eassumption.
Qed.

Ltac quiet_leaf :=
  split;
  [ first [ apply emits_same_calls; reflexivity
          | apply emits_record_call; reflexivity ]
  | repeat split; reflexivity ].

Section Joining.

Variable K : Collaborators.
Variable cluster : InnoDBCluster.

Lemma try_connect_loop_quiet pods last_exc offline_pods :
  steps quiet (try_connect_loop K pods last_exc offline_pods).
Proof.
  revert last_exc offline_pods.
  induction pods as [|pod rest IH]; intros last_exc offline_pods; cbn [try_connect_loop].
  - steps_auto quiet_leaf.
  - steps_auto quiet_leaf.
Qed.

Lemma connect_to_cluster_quiet : steps quiet (connect_to_cluster K).
Proof.
  unfold connect_to_cluster.
  pose proof try_connect_loop_quiet.
  steps_auto quiet_leaf.
Qed.


Lemma log_mysql_info_quiet pod session : steps quiet (log_mysql_info K pod session).
Proof. steps_auto quiet_leaf. Qed.

Lemma probe_member_status_quiet pod session joined :
  steps quiet (probe_member_status K pod session joined).
Proof. steps_auto quiet_leaf. Qed.

(** X6. Every [add_instance] call that [join_instance] makes is for the
    pod's endpoint, with exitStateAction = ABORT_SERVER and the recovery
    method the cluster info allowed on entry (incremental when allowed,
    clone otherwise). No member finalizer is removed, and a run that reached
    a membership-changing call ends with the pod's finalizer in place,
    whether or not the call succeeded. *)
Theorem join_instance_adds (pod : MySQLPod) (pod_dba_session : Dba) (w : World) :
  emits (add_call_with (pod_endpoint pod) (add_options (recovery_allowed w)))
    w (join_instance K pod pod_dba_session w).2
  ∧ finalizers_grow w (join_instance K pod pod_dba_session w).2
  ∧ (emits no_membership_call w (join_instance K pod pod_dba_session w).2
     ∨ has_member_finalizer pod (join_instance K pod pod_dba_session w).2 = true).
Proof.
  change (wp (join_instance K pod pod_dba_session)
            (λ _ w',
               emits (add_call_with (pod_endpoint pod) (add_options (recovery_allowed w)))
                 w w'
               ∧ finalizers_grow w w'
               ∧ (emits no_membership_call w w' ∨ has_member_finalizer pod w' = true)) w).
  assert (Hmono : ∀ opts ev, no_membership_call ev →
    add_call_with (pod_endpoint pod) opts ev).
  { intros opts [c o] Hc c' e' o' Heq. cbn in *. subst c. discriminate Hc. }
  assert (Hquiet : ∀ w', quiet w w' →
    emits (add_call_with (pod_endpoint pod) (add_options (recovery_allowed w))) w w'
    ∧ finalizers_grow w w'
    ∧ (emits no_membership_call w w' ∨ has_member_finalizer pod w' = true)).
  { intros w' [He (Hf & _)]. split; [|split; [|by left]].
    - eapply emits_mono; [apply Hmono | exact He].
    - unfold finalizers_grow. by rewrite Hf. }
  unfold join_instance.
  apply wp_bind. apply (wp_steps quiet); [apply connect_to_cluster_quiet|].
  intros [peer|e] w1 H1; [|by apply Hquiet].
  apply wp_bind. apply (wp_steps quiet); [apply log_mysql_info_quiet|].
  intros [[]|e] w2 H2; [|apply Hquiet; by etrans].
  assert (H12 : quiet w w2) by (by etrans).
  destruct (Hquiet _ H12) as (Ha & Hg & _).
  destruct H12 as [_ (Hf & _ & Hi & _)].
  replace (recovery_allowed w) with (recovery_allowed w2) in *
    by (unfold recovery_allowed; by rewrite Hi).
  clear Hquiet H1 H2 Hi.
  unfold incremental_recovery_allowed, add_member_finalizer, the_dba_cluster.
  repeat wp_step.
  all: try (apply (wp_steps quiet); [apply probe_member_status_quiet|];
            intros ? ? [He' (Hf' & _)]).
  all: split; [|split; [|right]].
  all: try (unfold has_member_finalizer; apply bool_decide_eq_true;
            rewrite ?Hf'; cbn; apply elem_of_union_l; by apply elem_of_singleton).
  all: try (unfold finalizers_grow; rewrite ?Hf'; cbn; rewrite <- Hf;
            apply union_subseteq_r).
  all: etrans; [exact Ha|].
  all: first [ emits_explicit
             | etrans; [|eapply emits_mono; [apply Hmono | exact He']];
               emits_explicit ].
Qed.

End Joining.

Lemma steps_weaken {S A} (R R' : S → S → Prop) (m : St S A) :
  steps R m → (∀ w w', R w w' → R' w w') → steps R' m.
Proof. intros Hm HR w. apply HR, Hm. Qed.

#[local] Instance and_preorder {S} (R1 R2 : S → S → Prop)
  `{!PreOrder R1, !PreOrder R2} : PreOrder (λ w w', R1 w w' ∧ R2 w w').
Proof.
  split.
  - intros w. split; reflexivity.
  - intros w1 w2 w3 [A1 B1] [A2 B2]. split; etrans; eassumption.
Qed.

(** A call or update that records at most one call satisfying the class at
    hand and leaves the orchestrator state alone. *)
Ltac frame_leaf :=
  split;
  [ first [ apply emits_same_calls; reflexivity
          | apply emits_record_call; first [reflexivity | done] ]
  | repeat split; reflexivity ].

Section Rejoining.

Variable K : Collaborators.
Variable cluster : InnoDBCluster.

Lemma connect_to_cluster_emits (P : Call * option exn → Prop) :
  (∀ ev, no_membership_call ev → P ev) →
  steps (λ w w', emits P w w' ∧ keeps_orchestrator w w') (connect_to_cluster K).
Proof.
  intros HP. eapply steps_weaken; [apply connect_to_cluster_quiet|].
  intros w w' [He Ho]. split; [|done]. by eapply emits_mono.
Qed.

(** X7. [rejoin_instance] leaves the orchestrator state (member finalizers,
    cluster status and info, create time, mutex) as it was, and of the calls
    that change group membership it makes only [rejoin_instance] for the
    pod's endpoint, without options. *)
Theorem rejoin_instance_frame (pod : MySQLPod) (pod_dba_session : Dba) (w : World) :
  emits (rejoin_call_for (pod_endpoint pod)) w (rejoin_instance K pod pod_dba_session w).2
  ∧ keeps_orchestrator w (rejoin_instance K pod pod_dba_session w).2.
Proof.
  revert w.
  change (steps (λ w w', emits (rejoin_call_for (pod_endpoint pod)) w w'
                         ∧ keeps_orchestrator w w')
            (rejoin_instance K pod pod_dba_session)).
  unfold rejoin_instance.
  assert (steps (λ w w', emits (rejoin_call_for (pod_endpoint pod)) w w'
                         ∧ keeps_orchestrator w w') (connect_to_cluster K)).
  { apply connect_to_cluster_emits. intros [c o] Hc. red. cbn in *.
    by destruct c. }
  steps_auto frame_leaf.
Qed.


(** X9. [force_quorum] connects to the seed pod only, makes no call that
    changes group membership other than [force_quorum_using_partition_of]
    with the seed's endpoint, and leaves the orchestrator state as it was.
    When the seed can be reached and hands out its cluster, that call is
    made. *)
Theorem force_quorum_frame (seed_pod : MySQLPod) (w : World) :
  emits (quorum_call_for (pod_endpoint seed_pod)) w (force_quorum K seed_pod w).2
  ∧ keeps_orchestrator w (force_quorum K seed_pod w).2
  ∧ ((∀ w0, is_raise (K_env K w0 (ConnectDba (pod_endpoint seed_pod))) = false) →
     (∀ w0 d, is_raise (K_env K w0 (DbaGetCluster d)) = false) →
     issues (quorum_forced (pod_endpoint seed_pod)) w (force_quorum K seed_pod w).2).
Proof.
  assert (Hframe :
    steps (λ w w', emits (quorum_call_for (pod_endpoint seed_pod)) w w'
                   ∧ keeps_orchestrator w w') (force_quorum K seed_pod)).
  { unfold force_quorum, connect_to_primary. steps_auto frame_leaf. }
  destruct (Hframe w) as [He Ho]. split; [exact He|]. split; [exact Ho|].
  intros Hc Hg.
  change (wp (force_quorum K seed_pod)
            (λ _ w', issues (quorum_forced (pod_endpoint seed_pod)) w w') w).
  unfold force_quorum, connect_to_primary, the_dba_cluster.
  repeat first
    [ match goal with
      | E : K_env K ?w0 (ConnectDba _) = Raise _ |- _ =>
          specialize (Hc w0); by rewrite E in Hc
      | E : K_env K ?w0 (DbaGetCluster ?d) = Raise _ |- _ =>
          specialize (Hg w0 d); by rewrite E in Hg
      end
    | progress world_simpl
    | wp_step ].
  all: issues_explicit.
Qed.

End Rejoining.

Lemma force_quorum_frame_witness :
  issues (quorum_forced (pod_endpoint pod1)) empty_world
    (force_quorum (K_healthy [pod0; pod1]) pod1 empty_world).2
  ∧ (ForceQuorumUsingPartitionOf the_cluster_handle (pod_endpoint pod1), None)
    ∈ calls (force_quorum (K_healthy [pod0; pod1]) pod1 empty_world).2.
Proof.
  split.
  - apply (force_quorum_frame (K_healthy [pod0; pod1]) pod1 empty_world).
    + intros w0. reflexivity.
    + intros w0 d. reflexivity.
  - refine (bool_decide_unpack _ _). vm_compute. exact I.
Defined.


Section Rebooting.

Variable K : Collaborators.
Variable cluster : InnoDBCluster.

(** X10. [reboot_cluster] takes the first pod listed as the seed: it
    connects to that pod only, makes no membership-changing call other than
    the reboot, removes no member finalizer, and a run that reached the
    reboot ends with the seed's finalizer in place. With no pod listed it
    raises IndexError right after listing them. *)
Theorem reboot_cluster_seed (w : World) :
  match K_env K w GetPods with
  | Ok (seed_pod :: _) =>
      emits (reboot_call_for (pod_endpoint seed_pod)) w (reboot_cluster K w).2
      ∧ finalizers_grow w (reboot_cluster K w).2
      ∧ (emits no_membership_call w (reboot_cluster K w).2
         ∨ has_member_finalizer seed_pod (reboot_cluster K w).2 = true)
  | Ok [] =>
      reboot_cluster K w
      = (Raise (IndexError "list index out of range"), record_call GetPods None w)
  | Raise e => reboot_cluster K w = (Raise e, record_call GetPods (Some e) w)
  end.
Proof.
  destruct (K_env K w GetPods) as [[|seed_pod rest]|e] eqn:Hpods.
  - unfold reboot_cluster, bind, call. by rewrite Hpods.
  - change (wp (reboot_cluster K)
              (λ _ w', emits (reboot_call_for (pod_endpoint seed_pod)) w w'
                       ∧ finalizers_grow w w'
                       ∧ (emits no_membership_call w w'
                          ∨ has_member_finalizer seed_pod w' = true)) w).
    unfold reboot_cluster. wp_step. apply wp_call. rewrite Hpods. cbn [outcome].
    unfold with_connect_dba, log_mysql_info, add_member_finalizer.
    repeat wp_step.
    all: split; [emits_explicit|].
    all: split;
      [unfold finalizers_grow; world_simpl; first [reflexivity | apply union_subseteq_r]|].
    all: first [ left; emits_explicit
               | right; unfold has_member_finalizer; apply bool_decide_eq_true;
                 world_simpl; apply elem_of_union_l; by apply elem_of_singleton ].
  - unfold reboot_cluster, bind, call. by rewrite Hpods.
Qed.

(** X11. However [create_cluster] ends once it has started, the cluster info
    records where the data came from: a blank source with incremental
    recovery allowed when the spec has no initDB, the clone donor with
    incremental recovery not allowed when it has a clone source. With an
    initDB that is not a clone it raises AssertionError and touches
    nothing. *)
Theorem create_cluster_data_source (seed_pod : MySQLPod) (w : World) :
  match cluster_initDB cluster with
  | None =>
      cluster_info (create_cluster K cluster seed_pod w).2
      = Some {| ci_initialDataSource := "blank"; ci_incrementalRecoveryAllowed := true |}
  | Some initDB =>
      match initDB_clone initDB with
      | Some clone =>
          cluster_info (create_cluster K cluster seed_pod w).2
          = Some {| ci_initialDataSource := "clone=" ++ clone_uri clone;
                    ci_incrementalRecoveryAllowed := false |}
      | None =>
          create_cluster K cluster seed_pod w
          = (Raise (AssertionError "internal error"), w)
      end
  end.
Proof.
  destruct (cluster_initDB cluster) as [initDB|] eqn:Hi;
    [destruct (initDB_clone initDB) as [clone|] eqn:Hc|].
  - change (wp (create_cluster K cluster seed_pod)
              (λ _ w', cluster_info w'
                       = Some {| ci_initialDataSource := "clone=" ++ clone_uri clone;
                                 ci_incrementalRecoveryAllowed := false |}) w).
    unfold create_cluster, update_cluster_info. rewrite Hi, Hc.
    do 4 wp_step.
    apply (wp_steps keeps_cluster_info); [steps_auto keeps_leaf|].
    intros r w' H. by rewrite H.
  - unfold create_cluster. by rewrite Hi, Hc.
  - change (wp (create_cluster K cluster seed_pod)
              (λ _ w', cluster_info w'
                       = Some {| ci_initialDataSource := "blank";
                                 ci_incrementalRecoveryAllowed := true |}) w).
    unfold create_cluster, update_cluster_info. rewrite Hi.
    do 4 wp_step.
    apply (wp_steps keeps_cluster_info); [steps_auto keeps_leaf|].
    intros r w' H. by rewrite H.
Qed.

(** X12. Outside NO_QUORUM, and OFFLINE seen from pod 0, [repair_cluster]
    makes no call and changes nothing, and its answer is fixed by the state:
    it returns [None] for the ONLINE family, OFFLINE and FINALIZING, raises the
    retry-later sentinel without delay for OFFLINE_UNCERTAIN,
    NO_QUORUM_UNCERTAIN and UNKNOWN, and raises the permanent-failure sentinel
    for SPLIT_BRAIN, SPLIT_BRAIN_UNCERTAIN, INVALID and INITIALIZING. *)
Theorem repair_cluster_idle (pod : MySQLPod) (diag : ClusterDiagnostic) (w : World) :
  diag_status diag ≠ DIAG_CLUSTER_NO_QUORUM →
  (diag_status diag = DIAG_CLUSTER_OFFLINE → pod_index pod ≠ 0) →
  (repair_cluster K pod diag w).2 = w
  ∧ match (repair_cluster K pod diag w).1 with
    | Ok v => v = VNone ∧ diag_status diag ∈ settled_states
    | Raise (TemporaryError _ delay) =>
        delay = None ∧ diag_status diag ∈ waiting_states
    | Raise (PermanentError _) => diag_status diag ∈ hopeless_states
    | Raise _ => False
    end.
Proof.
  intros Hq Ho. unfold repair_cluster.
  destruct (diag_status diag) eqn:Hs; try done.
  all: try (cbn; split; [done|]; try (split; [done|]);
            unfold settled_states, waiting_states, hopeless_states;
            rewrite !elem_of_cons; by auto 10).
  specialize (Ho eq_refl). apply Z.eqb_neq in Ho. rewrite Ho. cbn.
  split; [done|]. split; [done|].
  unfold settled_states. rewrite !elem_of_cons. by auto 10.
Qed.

(** X13. For every state other than INITIALIZING and the ONLINE family,
    [on_pod_created] never returns normally: it hands the probed diagnostic
    to [repair_cluster] and, when that returns, raises the retry-later
    sentinel with delay 3 naming the state. *)
Theorem on_pod_created_repair (pod : MySQLPod) (w w1 : World) (diag : ClusterDiagnostic) :
  probe_status K w = (Ok diag, w1) →
  status_in (Some (diag_status diag)) created_states = false →
  is_raise (on_pod_created K cluster pod w).1 = true
  ∧ ∀ v w2, repair_cluster K pod diag w1 = (Ok v, w2) →
      on_pod_created K cluster pod w
      = (Raise (TemporaryError
                  ("Cluster repair from state " ++ status_str (diag_status diag)
                   ++ " attempted") (Some 3)), w2).
Proof.
  intros Hp Hs.
  assert (Hstep : on_pod_created K cluster pod w
    = (repair_cluster K pod diag ;;;
       raise (TemporaryError
                ("Cluster repair from state " ++ status_str (diag_status diag)
                 ++ " attempted") (Some 3))) w1).
  { unfold on_pod_created, bind at 1. rewrite Hp.
    destruct (diag_status diag); try reflexivity; discriminate Hs. }
  rewrite Hstep. unfold bind.
  destruct (repair_cluster K pod diag w1) as [[v|e] w2]; split; try done.
  by intros v' w2' [= <- <-].
Qed.

(** X14. When the probe reports a state that [repair_cluster] only answers
    with an exception, [on_pod_restarted] stops there: it raises and the
    probe's calls are the only ones made, so the pod is not reconciled. *)
Theorem on_pod_restarted_stops (pod : MySQLPod) (w w1 : World) (diag : ClusterDiagnostic) :
  probe_status K w = (Ok diag, w1) →
  status_in (Some (diag_status diag)) (waiting_states ++ hopeless_states) = true →
  is_raise (on_pod_restarted K cluster pod w).1 = true
  ∧ (on_pod_restarted K cluster pod w).2 = w1.
Proof.
  intros Hp Hs.
  change (wp (on_pod_restarted K cluster pod) (λ r w', is_raise r = true ∧ w' = w1) w).
  unfold on_pod_restarted. apply wp_bind. unfold wp at 1. rewrite Hp. cbn [fst snd].
  apply wp_bind.
  destruct (diag_status diag) eqn:Hd; try discriminate Hs;
    unfold repair_cluster; rewrite Hd; by repeat wp_step.
Qed.

End Rebooting.

Lemma repair_cluster_idle_witness :
  diag_status (sample_diag DIAG_CLUSTER_OFFLINE) ≠ DIAG_CLUSTER_NO_QUORUM ∧
  (repair_cluster (K_reporting DIAG_CLUSTER_OFFLINE) pod1
     (sample_diag DIAG_CLUSTER_OFFLINE) empty_world).2 = empty_world.
Proof.
  split; [discriminate|].
  apply (repair_cluster_idle (K_reporting DIAG_CLUSTER_OFFLINE) pod1
           (sample_diag DIAG_CLUSTER_OFFLINE) empty_world); [discriminate|].
  intros _. discriminate.
Defined.

Lemma on_pod_created_repair_witness :
  status_in (Some (diag_status (sample_diag DIAG_CLUSTER_FINALIZING))) created_states
  = false ∧
  is_raise (on_pod_created (K_reporting DIAG_CLUSTER_FINALIZING)
              (sample_cluster false None) pod1 empty_world).1 = true.
Proof.
  split; [reflexivity|].
  eapply (on_pod_created_repair (K_reporting DIAG_CLUSTER_FINALIZING)
            (sample_cluster false None) pod1 empty_world); reflexivity.
Defined.

Lemma on_pod_restarted_stops_witness :
  status_in (Some (diag_status (sample_diag DIAG_CLUSTER_SPLIT_BRAIN)))
    (waiting_states ++ hopeless_states) = true ∧
  is_raise (on_pod_restarted (K_reporting DIAG_CLUSTER_SPLIT_BRAIN)
              (sample_cluster false None) pod1 empty_world).1 = true.
Proof.
  split; [reflexivity|].
  eapply (on_pod_restarted_stops (K_reporting DIAG_CLUSTER_SPLIT_BRAIN)
            (sample_cluster false None) pod1 empty_world); reflexivity.
Defined.

Section Probing.

Variable K : Collaborators.
Variable cluster : InnoDBCluster.

(** X15. A probe is not repeated needlessly: right after a successful
    [probe_status] whose status is neither UNKNOWN nor UNCERTAIN,
    [probe_status_if_needed] for a pod whose last transition is not later
    than the probe answers the status just published, makes no call and
    changes nothing. *)
Theorem probe_status_then_if_needed (changed_pod : MySQLPod) (w w1 : World)
    (diag : ClusterDiagnostic) :
  probe_status K w = (Ok diag, w1) →
  status_in (Some (diag_status diag)) unreachable_states = false →
  str_lt (cs_lastProbeTime <$> cluster_status w1)
    (get_membership_info changed_pod "lastTransitionTime") = false →
  probe_status_if_needed K changed_pod w1 = (Ok (Some (diag_status diag)), w1).
Proof.
  intros Hp Hs Hlt. destruct (probe_status_ok K w w1 diag Hp) as [now ->].
  unfold probe_status_if_needed, get_cluster_status, bind, gets.
  world_simpl. cbn [fmap option_fmap option_map cs_status cs_lastProbeTime].
  cbn [fmap option_fmap option_map cs_lastProbeTime cluster_status with_cluster_status]
    in Hlt.
  by rewrite Hs, Hlt, andb_false_r.
Qed.

(** X16. The cluster mutex is not re-entrant: a handler that holds the
    mutex of a cluster and enters it again for the same cluster gets the
    retry-later sentinel naming itself as the holder, the inner body is not
    run, and on the way out the slot is released, so that the state is as
    before the outer entry. *)
Theorem cluster_mutex_not_reentrant {A : Type} (cluster' : InnoDBCluster)
    (pod pod' : option MySQLPod) (body : M A) (w : World) :
  let token := match pod with Some p => pod_name p | None => cluster_name cluster' end in
  mutex_slots w !! mutex_key cluster' = None →
  token ≠ "" →
  with_ClusterMutex cluster' pod (with_ClusterMutex cluster' pod' body) w
  = (Raise (TemporaryError (cluster_name cluster' ++ " busy.  lock_owner=" ++ token)
              (Some 10)), w).
Proof.
  intros token Hfree Hne.
  unfold with_ClusterMutex, ClusterMutex_enter, ClusterMutex_exit, set_none, testset,
    bind, finally, modify.
  rewrite Hfree. cbn [truthy_str ret]. world_simpl. rewrite lookup_insert_eq.
  apply String.eqb_neq in Hne. cbn [truthy_str default]. fold token. rewrite Hne.
  cbn [negb raise]. world_simpl.
  rewrite delete_insert_id by done. by destruct w.
Qed.

(** X17. Of the calls that change group membership, [remove_instance]
    makes only [remove_instance] calls for the pod's endpoint: without
    options or with force = true, and only with force = true when the
    caller asked for a forced removal. *)
Theorem remove_instance_calls (pod : MySQLPod) (pod_body : Body) (force : bool)
    (w : World) :
  emits (remove_call_for (pod_endpoint pod) force) w
    (remove_instance K cluster pod pod_body force w).2.
Proof.
  revert w.
  change (steps (emits (remove_call_for (pod_endpoint pod) force))
            (remove_instance K cluster pod pod_body force)).
  assert (steps (emits (remove_call_for (pod_endpoint pod) force)) (connect_to_cluster K)).
  { eapply steps_weaken; [apply connect_to_cluster_quiet|].
    intros w w' [He _]. eapply emits_mono; [|exact He].
    intros [c o] Hc. red. cbn in *. by destruct c. }
  unfold remove_instance.
  destruct force; cbn [negb];
    steps_auto ltac:(first [ apply emits_same_calls; reflexivity
                          | apply emits_record_call;
                            first [ reflexivity | done
                                  | split; [reflexivity|]; by auto ] ]).
Qed.

Lemma post_create_actions_frame (dba : Dba) (dba_cluster : option DbaCluster)
    (seed_pod : MySQLPod) (w : World) :
  emits (post_create_call cluster dba_cluster) w
    (post_create_actions K cluster dba dba_cluster seed_pod w).2
  ∧ keeps_orchestrator w (post_create_actions K cluster dba dba_cluster seed_pod w).2.
Proof.
  change (wp (post_create_actions K cluster dba dba_cluster seed_pod)
            (λ _ w', emits (post_create_call cluster dba_cluster) w w'
                     ∧ keeps_orchestrator w w') w).
  unfold post_create_actions.
  repeat wp_step.
  all: split; [|by repeat split].
  all: try match goal with
           | H : negb (_ =? 0) = true |- _ => apply negb_true_iff, Z.eqb_neq in H
           end.
  all: emits_explicit.
Qed.

(** X18. [post_create_actions] makes no call that changes group membership
    and leaves the orchestrator state as it was; a [setup_router_account]
    call is on the handle it was given, with exactly a password and an
    update flag, and an [update_size] call is for the non-zero router count
    of the cluster spec. With the router account's name and password at
    hand, what [show grants] answers decides the router account: when it
    answers, the account is set up with update = true; when it fails with
    ER_NONEXISTING_GRANT, with update = false; any other failure is raised
    at once, with nothing set up. When every call answers, the run returns,
    the backup account is set up, and [update_size] is called with the
    spec's router count if that is not zero. *)
Theorem post_create_actions_calls (dba : Dba) (dba_cluster : option DbaCluster)
    (seed_pod : MySQLPod) (w : World) :
  let run := post_create_actions K cluster dba dba_cluster seed_pod w in
  emits (post_create_call cluster dba_cluster) w run.2
  ∧ keeps_orchestrator w run.2
  ∧ (∀ c user password,
       dba_cluster = Some c →
       K_env K w GetRouterAccount = Ok (user, password) →
       let w1 := record_call GetRouterAccount None w in
       let grants := RunSql (dba_session dba) "show grants for ?@'%'" [user] in
       match K_env K w1 grants with
       | Ok _ =>
           issues (is_call (SetupRouterAccount c user (router_options password true)))
             w run.2
       | Raise e =>
           match e with
           | MysqlshError code _ =>
               if code =? K_ER_NONEXISTING_GRANT K then
                 issues (is_call (SetupRouterAccount c user
                                    (router_options password false))) w run.2
               else run.1 = Raise e ∧ run.2 = record_call grants (Some e) w1
           | _ => run.1 = Raise e ∧ run.2 = record_call grants (Some e) w1
           end
       end)
  ∧ ((∀ w0 c', is_raise (K_env K w0 c') = false) →
     is_Some dba_cluster →
     run.1 = Ok tt
     ∧ issues (backup_account_call (dba_session dba)) w run.2
     ∧ ∀ n, cluster_routers cluster = Some n → n ≠ 0 →
         issues (is_call (RouterUpdateSize n)) w run.2).
Proof.
  intros run. subst run.
  destruct (post_create_actions_frame dba dba_cluster seed_pod w) as [He Ho].
  split; [exact He|]. split; [exact Ho|]. split.
  - intros c user password -> Hacc w1 grants. subst w1 grants.
    destruct (K_env K (record_call GetRouterAccount None w)
                (RunSql (dba_session dba) "show grants for ?@'%'" [user]))
      as [r|e] eqn:Hg.
    + change (wp (post_create_actions K cluster dba (Some c) seed_pod)
                (λ _ w', issues (is_call (SetupRouterAccount c user
                                            (router_options password true))) w w') w).
      unfold post_create_actions. wp_step. apply wp_call. rewrite Hacc.
      cbn [outcome]. cbn beta iota. do 3 wp_step. apply wp_call. rewrite Hg.
      cbn [outcome]. cbn beta iota.
      repeat wp_step. all: issues_explicit.
    + assert (Hraise :
        (∀ code msg, e = MysqlshError code msg → (code =? K_ER_NONEXISTING_GRANT K) = false) →
        (post_create_actions K cluster dba (Some c) seed_pod w).1 = Raise e
        ∧ (post_create_actions K cluster dba (Some c) seed_pod w).2
          = record_call (RunSql (dba_session dba) "show grants for ?@'%'" [user])
              (Some e) (record_call GetRouterAccount None w)).
      { intros Hcode.
        change (wp (post_create_actions K cluster dba (Some c) seed_pod)
                  (λ r w', r = Raise e
                           ∧ w' = record_call
                                    (RunSql (dba_session dba) "show grants for ?@'%'" [user])
                                    (Some e) (record_call GetRouterAccount None w)) w).
        unfold post_create_actions. wp_step. apply wp_call. rewrite Hacc.
        cbn [outcome]. cbn beta iota. do 3 wp_step. apply wp_call. rewrite Hg.
        cbn [outcome]. cbn beta iota.
        destruct e as [| |code msg| | | |]; try done.
        by rewrite (Hcode code msg eq_refl). }
      destruct e as [| |code msg| | | |]; try (apply Hraise; intros ? ? [=]).
      destruct (code =? K_ER_NONEXISTING_GRANT K) eqn:Hcode.
      * change (wp (post_create_actions K cluster dba (Some c) seed_pod)
                  (λ _ w', issues (is_call (SetupRouterAccount c user
                                              (router_options password false))) w w') w).
        unfold post_create_actions. wp_step. apply wp_call. rewrite Hacc.
        cbn [outcome]. cbn beta iota. do 3 wp_step. apply wp_call. rewrite Hg.
        cbn [outcome]. cbn beta iota. rewrite Hcode.
        repeat wp_step. all: issues_explicit.
      * apply Hraise. intros ? ? [= <- <-]. exact Hcode.
  - intros Hall [c ->].
    change (wp (post_create_actions K cluster dba (Some c) seed_pod)
              (λ r w', r = Ok tt
                       ∧ issues (backup_account_call (dba_session dba)) w w'
                       ∧ ∀ n, cluster_routers cluster = Some n → n ≠ 0 →
                           issues (is_call (RouterUpdateSize n)) w w') w).
    unfold post_create_actions.
    repeat first
      [ match goal with
        | E : K_env K ?w0 ?c0 = Raise _ |- _ =>
            specialize (Hall w0 c0); by rewrite E in Hall
        end
      | wp_step ].
    all: split; [try match goal with |- Ok ?x = Ok tt => destruct x end; done|].
    all: split; [issues_explicit|].
    all: intros n Hn Hne; simplify_eq.
    all: try issues_explicit.
    all: match goal with
         | H : negb (_ =? 0) = false |- _ =>
             apply negb_false_iff, Z.eqb_eq in H; done
         end.
Qed.

End Probing.

Lemma probe_status_then_if_needed_witness :
  status_in (Some (diag_status (sample_diag DIAG_CLUSTER_ONLINE))) unreachable_states
  = false ∧
  probe_status_if_needed (K_reporting DIAG_CLUSTER_ONLINE) pod1
    (probe_status (K_reporting DIAG_CLUSTER_ONLINE) empty_world).2
  = (Ok (Some DIAG_CLUSTER_ONLINE),
     (probe_status (K_reporting DIAG_CLUSTER_ONLINE) empty_world).2).
Proof.
  split; [reflexivity|].
  apply (probe_status_then_if_needed (K_reporting DIAG_CLUSTER_ONLINE) pod1 empty_world
           _ (sample_diag DIAG_CLUSTER_ONLINE)); reflexivity.
Defined.

Lemma cluster_mutex_not_reentrant_witness :
  mutex_slots empty_world !! mutex_key (sample_cluster false None) = None ∧
  pod_name pod1 ≠ "" ∧
  with_ClusterMutex (sample_cluster false None) (Some pod1)
    (with_ClusterMutex (sample_cluster false None) (Some pod1)
       (add_member_finalizer pod1)) empty_world
  = (Raise (TemporaryError "mycluster busy.  lock_owner=mycluster-1" (Some 10)),
     empty_world).
Proof.
  split; [reflexivity|]. split; [discriminate|].
  apply (cluster_mutex_not_reentrant (sample_cluster false None) (Some pod1) (Some pod1)
           (add_member_finalizer pod1) empty_world); [reflexivity | discriminate].
Defined.

Import Views.

Section ViewChange.

Variable K : Collaborators.

(** X19. [on_group_view_change] is for monitoring only: it lists the pods
    and updates the membership status and readiness gate of pods, makes no
    other call, and leaves the orchestrator state (finalizers, cluster
    status and info, create time, mutex) as it was. *)
Theorem on_group_view_change_informational (members : list Monitor.Member)
    (view_id_changed : bool) (w : World) :
  emits informational w (on_group_view_change K members view_id_changed w).2
  ∧ keeps_orchestrator w (on_group_view_change K members view_id_changed w).2.
Proof.
  revert w.
  change (steps (λ w w', emits informational w w' ∧ keeps_orchestrator w w')
            (on_group_view_change K members view_id_changed)).
  assert (Hpod : ∀ pod ms,
    steps (λ w w', emits informational w w' ∧ keeps_orchestrator w w')
      (update_pod_from_members K pod ms)).
  { intros pod ms. induction ms as [|m rest IH]; cbn [update_pod_from_members];
      steps_auto frame_leaf. }
  assert (Hpods : ∀ pods,
    steps (λ w w', emits informational w w' ∧ keeps_orchestrator w w')
      (update_pods K pods members)).
  { intros pods. induction pods as [|pod rest IH]; cbn [update_pods];
      steps_auto frame_leaf. }
  unfold on_group_view_change. steps_auto frame_leaf.
Qed.

(** X20. For one pod, the loop over the members stops at the first member
    that is the pod's (by member id when the pod has one recorded, or else
    by endpoint): that member's data is written to the pod and the readiness
    gate is set to whether the member is ONLINE. A pod that no member
    matches is not touched. *)
Theorem update_pod_first_match (pod : MySQLPod) (members : list Monitor.Member)
    (w : World) :
  update_pod_from_members K pod members w
  = match List.find (member_matches pod) members with
    | Some m =>
        (call K (UpdateMembershipStatus (pod_name pod)
                   {| mi_member_id := Monitor.member_id m;
                      mi_role := Monitor.member_role m;
                      mi_status := Monitor.member_status m;
                      mi_view_id := Monitor.member_view_id m;
                      mi_version := Monitor.member_version m |} None) ;;;
         call K (UpdateMemberReadinessGate (pod_name pod) "ready"
                   (String.eqb (Monitor.member_status m) "ONLINE"))) w
    | None => (Ok tt, w)
    end.
Proof.
  induction members as [|m rest IH]; cbn [update_pod_from_members List.find]; [done|].
  destruct (member_matches pod m); [|exact IH].
  by destruct (String.eqb (Monitor.member_status m) "ONLINE").
Qed.

End ViewChange.

Section Creating.

Variable K : Collaborators.
Variable cluster : InnoDBCluster.


(** On a seed that can be reached, belongs to no cluster yet and answers
    the first log statement, [create_cluster] does call the primitive. *)
Lemma create_cluster_issues (seed_pod : MySQLPod) (w : World) :
  (∀ w0, is_raise (K_env K w0 (ConnectDba (pod_endpoint seed_pod))) = false) →
  (∀ w0 d, is_raise (K_env K w0 (DbaGetCluster d)) = true) →
  (∀ w0 s, is_raise (K_env K w0
             (RunSql s "select @@server_id, @@server_uuid, @@report_host" [])) = false) →
  (∀ initDB, cluster_initDB cluster = Some initDB → is_Some (initDB_clone initDB)) →
  issues (create_call (cluster_name cluster)) w (create_cluster K cluster seed_pod w).2.
Proof.
  intros Hc Hg Hs Hi.
  change (wp (create_cluster K cluster seed_pod)
            (λ _ w', issues (create_call (cluster_name cluster)) w w') w).
  unfold create_cluster, with_connect_dba, update_cluster_info, add_member_finalizer,
    log_mysql_info, try_dba_create_cluster, remove_member_finalizer,
    probe_member_status, the_dba_cluster, post_create_actions.
  repeat first
    [ match goal with
      | E : K_env K ?w0 (ConnectDba _) = Raise _ |- _ =>
          specialize (Hc w0); by rewrite E in Hc
      | E : K_env K ?w0 (DbaGetCluster ?d) = Ok _ |- _ =>
          specialize (Hg w0 d); by rewrite E in Hg
      | E : K_env K ?w0 (RunSql ?s "select @@server_id, @@server_uuid, @@report_host" [])
            = Raise _ |- _ =>
          specialize (Hs w0 s); by rewrite E in Hs
      | E : initDB_clone ?i = None |- _ =>
          destruct (Hi i eq_refl) as [? ?]; congruence
      end
    | progress world_simpl
    | wp_step ].
  all: issues_explicit.
Qed.

(** C5. [create_cluster] passes to the admin client's [create_cluster]
    primitive the cluster's name and exactly the options gtidSetIsComplete
    (true when the spec has no initDB source, false when it has one, which on
    this path is a clone donor), startOnBoot = false, memberSslMode =
    REQUIRED and exitStateAction = ABORT_SERVER: every call of the primitive
    that a run makes carries them, and a run on a seed that can be reached,
    belongs to no cluster yet and answers the first log statement does make
    the call. *)
Theorem create_cluster_options (seed_pod : MySQLPod) (w : World) :
  ∃ new,
    calls (create_cluster K cluster seed_pod w).2 = (new ++ calls w)%list ∧
    (∀ d name opts o, (DbaCreateCluster d name opts, o) ∈ new →
      name = cluster_name cluster ∧
      (cluster_initDB cluster = None →
         opts !! "gtidSetIsComplete" = Some (VBool true)) ∧
      (∀ initDB, cluster_initDB cluster = Some initDB →
         opts !! "gtidSetIsComplete" = Some (VBool false)
         ∧ is_Some (initDB_clone initDB)) ∧
      opts !! "startOnBoot" = Some (VBool false) ∧
      opts !! "memberSslMode" = Some (VStr "REQUIRED") ∧
      opts !! "exitStateAction" = Some (VStr "ABORT_SERVER") ∧
      dom opts
      = {[ "gtidSetIsComplete"; "startOnBoot"; "memberSslMode"; "exitStateAction" ]}) ∧
    ((∀ w0, is_raise (K_env K w0 (ConnectDba (pod_endpoint seed_pod))) = false) →
     (∀ w0 d, is_raise (K_env K w0 (DbaGetCluster d)) = true) →
     (∀ w0 s, is_raise (K_env K w0
                (RunSql s "select @@server_id, @@server_uuid, @@report_host" []))
              = false) →
     (∀ initDB, cluster_initDB cluster = Some initDB → is_Some (initDB_clone initDB)) →
     ∃ d opts o, (DbaCreateCluster d (cluster_name cluster) opts, o) ∈ new).
Proof.
  destruct (create_cluster_emits K cluster seed_pod _ w eq_refl) as (new & Hnew & Hall).
  assert (Hreach :
    (∀ w0, is_raise (K_env K w0 (ConnectDba (pod_endpoint seed_pod))) = false) →
    (∀ w0 d, is_raise (K_env K w0 (DbaGetCluster d)) = true) →
    (∀ w0 s, is_raise (K_env K w0
               (RunSql s "select @@server_id, @@server_uuid, @@report_host" []))
             = false) →
    (∀ initDB, cluster_initDB cluster = Some initDB → is_Some (initDB_clone initDB)) →
    ∃ d opts o, (DbaCreateCluster d (cluster_name cluster) opts, o) ∈ new).
  { intros Hc Hg Hs Hi.
    destruct (issues_new _ _ _ _ (create_cluster_issues seed_pod w Hc Hg Hs Hi) Hnew)
      as ([c o] & Hin & d & opts & Hev).
    cbn in Hev. subst c. by exists d, opts, o. }
  destruct (cluster_initDB cluster) as [initDB|] eqn:Hi.
  - destruct (initDB_clone initDB) as [clone|] eqn:Hc.
    + exists new. split; [exact Hnew|]. split; [|exact Hreach].
      intros d name opts o Hin.
      rewrite Forall_forall in Hall.
      destruct (Hall _ Hin d name opts eq_refl) as [-> ->].
      destruct (create_options_entries false) as (Hg & Hb & Hm & He & Hd).
      split; [done|]. split; [done|]. split; [|done].
      intros i [= <-]. rewrite Hc. by split.
    + exists []. split; [|split].
      * unfold create_cluster. rewrite Hi, Hc. reflexivity.
      * intros d name opts o Hin. by apply elem_of_nil in Hin.
      * intros _ _ _ Hclone. destruct (Hclone initDB eq_refl) as [? Hsome].
        congruence.
  - exists new. split; [exact Hnew|]. split; [|exact Hreach].
    intros d name opts o Hin.
    rewrite Forall_forall in Hall.
    destruct (Hall _ Hin d name opts eq_refl) as [-> ->].
    destruct (create_options_entries true) as (Hg & Hb & Hm & He & Hd).
    split; [done|]. split; [done|]. split; [|done].
    intros i [=].
Qed.

End Creating.


Lemma create_cluster_options_witness :
  ∃ new d opts o,
    calls (create_cluster (K_fresh (Ok the_cluster_handle)) (sample_cluster false None)
             pod0 empty_world).2 = (new ++ calls empty_world)%list
    ∧ (DbaCreateCluster d "mycluster" opts, o) ∈ new
    ∧ opts !! "gtidSetIsComplete" = Some (VBool true)
    ∧ opts !! "startOnBoot" = Some (VBool false)
    ∧ opts !! "memberSslMode" = Some (VStr "REQUIRED")
    ∧ opts !! "exitStateAction" = Some (VStr "ABORT_SERVER").
Proof.
  destruct (create_cluster_options (K_fresh (Ok the_cluster_handle))
              (sample_cluster false None) pod0 empty_world)
    as (new & Hnew & Hall & Hreach).
  destruct Hreach as (d & opts & o & Hin).
  - intros w0. reflexivity.
  - intros w0 d. reflexivity.
  - intros w0 s. reflexivity.
  - intros initDB H. discriminate H.
  - exists new, d, opts, o. split; [exact Hnew|]. split; [exact Hin|].
    destruct (Hall d _ opts o Hin) as (_ & Hg & _ & Hb & Hm & He & _).
    split; [exact (Hg eq_refl)|]. by repeat split.
Defined.

Lemma post_create_actions_calls_witness :
  issues (is_call (SetupRouterAccount the_cluster_handle "mysqlrouter"
                     (router_options "secret" true))) empty_world
    (post_create_actions (K_healthy [pod0]) (sample_cluster_routers 2)
       {| dba_uri := "mycluster-0.mycluster-instances:3306" |}
       (Some the_cluster_handle) pod0 empty_world).2
  ∧ issues (is_call (RouterUpdateSize 2)) empty_world
      (post_create_actions (K_healthy [pod0]) (sample_cluster_routers 2)
         {| dba_uri := "mycluster-0.mycluster-instances:3306" |}
         (Some the_cluster_handle) pod0 empty_world).2
  ∧ issues (is_call (SetupRouterAccount the_cluster_handle "mysqlrouter"
                       (router_options "secret" false))) empty_world
      (post_create_actions K_no_router_account (sample_cluster_routers 2)
         {| dba_uri := "mycluster-0.mycluster-instances:3306" |}
         (Some the_cluster_handle) pod0 empty_world).2.
Proof.
  destruct (post_create_actions_calls (K_healthy [pod0]) (sample_cluster_routers 2)
              {| dba_uri := "mycluster-0.mycluster-instances:3306" |}
              (Some the_cluster_handle) pod0 empty_world)
    as (_ & _ & Hrouter & Hall).
  destruct (post_create_actions_calls K_no_router_account (sample_cluster_routers 2)
              {| dba_uri := "mycluster-0.mycluster-instances:3306" |}
              (Some the_cluster_handle) pod0 empty_world)
    as (_ & _ & Hcreate & _).
  split; [exact (Hrouter the_cluster_handle "mysqlrouter" "secret" eq_refl eq_refl)|].
  split; [|exact (Hcreate the_cluster_handle "mysqlrouter" "secret" eq_refl eq_refl)].
  destruct Hall as (_ & _ & Hsize).
  - intros w0 c'. by destruct c'.
  - by eexists.
  - apply (Hsize 2); [reflexivity | discriminate].
Defined.

End ControllerSpec.

(** ** The group monitor *)

Module MonitorSpec.

Import Controller Monitor.

#[local] Instance keeps_last_connect_attempt_preorder :
  PreOrder keeps_last_connect_attempt.
Proof.
  split; [by intros st | intros s1 s2 s3 H1 H2].
  unfold keeps_last_connect_attempt in *. congruence.
Qed.

Lemma monitor_steps_call (K : Collaborators) (R : MState → MState → Prop) (c : Call) :
  (∀ st o, R st (record_call c o st)) → steps R (call K c).
Proof. intros H st. apply H. Qed.

Ltac monitor_steps_auto :=
  repeat first
    [ assumption
    | match goal with |- PreOrder _ => apply _ end
    | match goal with IH : ∀ _, _ |- steps _ _ => solve [apply IH] end
    | steps_step
    | apply monitor_steps_call; intros ? ?; reflexivity
    | apply steps_modify; intros ?; reflexivity
    | progress unfold try_connect, find_primary, on_view_change ].

Section Throttle.

Variable K : Collaborators.

Lemma find_primary_loop_keeps_last only_primary account pods not_primary :
  steps keeps_last_connect_attempt
    (find_primary_loop K only_primary account pods not_primary).
Proof.
  revert not_primary.
  induction pods as [|pod rest IH]; intros not_primary; cbn [find_primary_loop];
    monitor_steps_auto.
Qed.

Lemma connect_to_primary_keeps_last fuel :
  steps keeps_last_connect_attempt (connect_to_primary K fuel).
Proof.
  pose proof find_primary_loop_keeps_last as Hloop.
  induction fuel as [|fuel IH]; cbn [connect_to_primary]; monitor_steps_auto.
Qed.

Lemma on_view_change_keeps_last view_id :
  steps keeps_last_connect_attempt (on_view_change K view_id).
Proof. monitor_steps_auto. Qed.

(** [ensure_connected], case by case. *)
Lemma ensure_connected_cases (fuel : nat) (st : MState) :
  ensure_connected K fuel st
  = match mc_session (self st) with
    | Some s => (Ok (Some (Some s)), st)
    | None =>
        if bool_decide (mc_last_connect_attempt (self st) = 0%Qc) then
          connect_attempt K fuel st
        else
          match K_env K st TimeTime with
          | Ok now =>
              if bool_decide (k_connect_retry_interval
                              < now - mc_last_connect_attempt (self st))%Qc
              then connect_attempt K fuel (record_call TimeTime None st)
              else (Ok (Some None), record_call TimeTime None st)
          | Raise e => (Raise e, record_call TimeTime (Some e) st)
          end
    end.
Proof.
  unfold ensure_connected, bind, gets, ret, call.
  destruct (mc_session (self st)) as [s|] eqn:Hs; cbn.
  - by rewrite Hs.
  - destruct (bool_decide (mc_last_connect_attempt (self st) = 0%Qc)); [done|].
    destruct (K_env K st TimeTime) as [now|e]; cbn; [|done].
    destruct (bool_decide _); [done|]. cbn. by rewrite Hs.
Qed.

(** An attempt leaves its clock reading in [last_connect_attempt], however
    it ends (connected, failed, raised, or still retrying when the fuel is
    used up). *)
Lemma connect_attempt_records (fuel : nat) (st : MState) (t : Qc) :
  K_env K st TimeTime = Ok t →
  mc_last_connect_attempt (self (connect_attempt K fuel st).2) = t.
Proof.
  intros Ht. unfold connect_attempt.
  unfold bind at 1, call. rewrite Ht. cbn [outcome].
  unfold bind at 1, modify at 1. cbn beta iota.
  match goal with
  | |- context [(?m ?s).2] => assert (Hk : steps keeps_last_connect_attempt m)
  end.
  { pose proof connect_to_primary_keeps_last. pose proof on_view_change_keeps_last.
    monitor_steps_auto. }
  rewrite (Hk _). reflexivity.
Qed.

(** The same for [ensure_connected] when an attempt is due. [st] itself is
    the state in which the reading is taken when no attempt was recorded
    before, [st] after the clock read of the test otherwise. *)
Lemma ensure_connected_records (fuel : nat) (st : MState) (t : Qc) :
  mc_session (self st) = None →
  (mc_last_connect_attempt (self st) = 0%Qc
   ∨ ∃ now, K_env K st TimeTime = Ok now
            ∧ (k_connect_retry_interval < now - mc_last_connect_attempt (self st))%Qc) →
  K_env K (if bool_decide (mc_last_connect_attempt (self st) = 0%Qc) then st
           else record_call TimeTime None st) TimeTime = Ok t →
  mc_last_connect_attempt (self (ensure_connected K fuel st).2) = t.
Proof.
  intros Hs Hdue Ht. rewrite ensure_connected_cases, Hs.
  destruct (bool_decide (mc_last_connect_attempt (self st) = 0%Qc)) eqn:Hz.
  - by apply connect_attempt_records.
  - destruct Hdue as [H0|(now & Hnow & Hlt)].
    + by rewrite bool_decide_eq_true_2 in Hz.
    + rewrite Hnow, bool_decide_eq_true_2 by done. by apply connect_attempt_records.
Qed.

(** C8. [ensure_connected] starts a connection attempt (its first call asks
    for the admin account) only when there is no live session and either no
    attempt was recorded or the clock shows more than 10 seconds since the
    recorded one. Without a live session, a call that finds a recorded
    attempt not more than 10 seconds old only reads the clock and returns,
    leaving the object as it was. And since an attempt leaves its clock
    reading as the recorded time however it ends, after a failed attempt no
    further attempt is made until more than 10 seconds have passed. *)
Theorem ensure_connected_throttled (fuel : nat) (st : MState) :
  (∀ new o,
     mcalls (ensure_connected K fuel st).2 = (new ++ mcalls st)%list →
     (GetAdminAccount, o) ∈ new →
     mc_session (self st) = None
     ∧ (mc_last_connect_attempt (self st) = 0%Qc
        ∨ ∃ now, K_env K st TimeTime = Ok now
                 ∧ (k_connect_retry_interval
                    < now - mc_last_connect_attempt (self st))%Qc)) ∧
  (∀ now,
     mc_session (self st) = None →
     mc_last_connect_attempt (self st) ≠ 0%Qc →
     K_env K st TimeTime = Ok now →
     (now - mc_last_connect_attempt (self st) ≤ k_connect_retry_interval)%Qc →
     ensure_connected K fuel st = (Ok (Some None), record_call TimeTime None st)) ∧
  (∀ fuel0 st0 t now,
     mc_session (self st0) = None →
     (mc_last_connect_attempt (self st0) = 0%Qc
      ∨ ∃ now0, K_env K st0 TimeTime = Ok now0
                ∧ (k_connect_retry_interval
                   < now0 - mc_last_connect_attempt (self st0))%Qc) →
     K_env K (if bool_decide (mc_last_connect_attempt (self st0) = 0%Qc) then st0
              else record_call TimeTime None st0) TimeTime = Ok t →
     t ≠ 0%Qc →
     self st = self (ensure_connected K fuel0 st0).2 →
     mc_session (self st) = None →
     K_env K st TimeTime = Ok now →
     (now - t ≤ k_connect_retry_interval)%Qc →
     ensure_connected K fuel st = (Ok (Some None), record_call TimeTime None st)).
Proof.
  assert (Hthrottle : ∀ now,
     mc_session (self st) = None →
     mc_last_connect_attempt (self st) ≠ 0%Qc →
     K_env K st TimeTime = Ok now →
     (now - mc_last_connect_attempt (self st) ≤ k_connect_retry_interval)%Qc →
     ensure_connected K fuel st = (Ok (Some None), record_call TimeTime None st)).
  { intros now Hs Hlast Hnow Hle.
    rewrite ensure_connected_cases, Hs, Hnow.
    rewrite bool_decide_eq_false_2 by done.
    by rewrite bool_decide_eq_false_2 by (by apply Qcle_not_lt). }
  split; [|split; [exact Hthrottle|]].
  - intros new o. rewrite ensure_connected_cases.
    assert (Hone : ∀ ev, (ev :: mcalls st = new ++ mcalls st)%list →
                         (GetAdminAccount, o) ∈ new → ev.1 = GetAdminAccount).
    { intros ev Hev Hin. apply (app_inv_tail _ [ev] new) in Hev. subst new.
      apply list_elem_of_singleton in Hin. by subst ev. }
    destruct (mc_session (self st)) as [s|] eqn:Hs.
    + cbn. intros Hnew Hin. apply (app_inv_tail _ [] new) in Hnew. subst new.
      by apply elem_of_nil in Hin.
    + destruct (bool_decide (mc_last_connect_attempt (self st) = 0%Qc)) eqn:Hz.
      { intros _ _. split; [done|]. left. by apply bool_decide_eq_true in Hz. }
      destruct (K_env K st TimeTime) as [now|e] eqn:Hnow.
      * destruct (bool_decide (k_connect_retry_interval
                               < now - mc_last_connect_attempt (self st))%Qc) eqn:Hlt.
        { intros _ _. split; [done|]. right. exists now.
          split; [done|]. by apply bool_decide_eq_true in Hlt. }
        cbn. intros Hnew Hin. by specialize (Hone _ Hnew Hin).
      * cbn. intros Hnew Hin. by specialize (Hone _ Hnew Hin).
  - intros fuel0 st0 t now Hs0 Hdue Ht Ht0 Hself Hs Hnow Hle.
    pose proof (ensure_connected_records fuel0 st0 t Hs0 Hdue Ht) as Hrec.
    rewrite <- Hself in Hrec.
    apply (Hthrottle now); [done| |done|]; by rewrite Hrec.
Qed.

End Throttle.

Lemma ensure_connected_throttled_witness :
  mc_session (self (sample_state (Qc_of_Z 1000))) = None ∧
  mc_last_connect_attempt (self (sample_state (Qc_of_Z 1000))) ≠ 0%Qc ∧
  K_env (K_unreachable (Qc_of_Z 1007) [pod0]) (sample_state (Qc_of_Z 1000)) TimeTime
  = Ok (Qc_of_Z 1007) ∧
  (Qc_of_Z 1007 - mc_last_connect_attempt (self (sample_state (Qc_of_Z 1000)))
   ≤ k_connect_retry_interval)%Qc ∧
  ensure_connected (K_unreachable (Qc_of_Z 1007) [pod0]) 3 (sample_state (Qc_of_Z 1000))
  = (Ok (Some None), record_call TimeTime None (sample_state (Qc_of_Z 1000))).
Proof.
  assert (H2 : mc_last_connect_attempt (self (sample_state (Qc_of_Z 1000))) ≠ 0%Qc).
  { intros H. apply (f_equal (λ q, Qnum (this q))) in H. vm_compute in H. discriminate H. }
  assert (H4 : (Qc_of_Z 1007 - mc_last_connect_attempt (self (sample_state (Qc_of_Z 1000)))
                ≤ k_connect_retry_interval)%Qc).
  { vm_compute. discriminate. }
  split; [reflexivity|]. split; [exact H2|]. split; [reflexivity|]. split; [exact H4|].
  exact (proj1 (proj2 (ensure_connected_throttled (K_unreachable (Qc_of_Z 1007) [pod0]) 3
                         (sample_state (Qc_of_Z 1000))))
           (Qc_of_Z 1007) eq_refl H2 eq_refl H4).
Defined.

(** When the recorded attempt is more than 10 seconds old the attempt is
    made: the clock is read twice, the pods are tried, and the new reading
    is recorded. *)
Example ensure_connected_attempts_when_due :
  ensure_connected (K_unreachable (Qc_of_Z 1011) [pod0]) 3 (sample_state (Qc_of_Z 1000))
  = (Ok (Some None),
     {| self := sample_monitored (Qc_of_Z 1011);
        mcalls := [(GetSession "mycluster-0.mycluster-instances:33060",
                    Some (MysqlshError 2003 "Can't connect to MySQL server"));
                   (GetPods, None); (GetAdminAccount, None);
                   (TimeTime, None); (TimeTime, None)] |}).
Proof. vm_compute. reflexivity. Qed.

Lemma registered_iff (cluster : InnoDBCluster) (cs : list MonitoredCluster) :
  registered cluster cs = true ↔
  ∃ c, c ∈ cs ∧ mc_name c = cluster_name cluster
       ∧ mc_namespace c = cluster_namespace cluster.
Proof.
  induction cs as [|c cs IH]; cbn [registered].
  - split; [discriminate|]. intros (c & Hin & _). by apply elem_of_nil in Hin.
  - unfold same_identity at 1.
    destruct (String.eqb_spec (mc_name c) (cluster_name cluster)) as [Hn|Hn];
      [destruct (String.eqb_spec (mc_namespace c) (cluster_namespace cluster))
         as [Hs|Hs]|]; cbn.
    + split; [|done]. intros _. exists c. split; [apply elem_of_cons; by left | done].
    + rewrite IH. split.
      * intros (c' & Hin & H). exists c'. split; [apply elem_of_cons; by right | done].
      * intros (c' & [->|Hin]%elem_of_cons & H1 & H2); [done|]. by exists c'.
    + rewrite IH. split.
      * intros (c' & Hin & H). exists c'. split; [apply elem_of_cons; by right | done].
      * intros (c' & [->|Hin]%elem_of_cons & H1 & H2); [done|]. by exists c'.
Qed.

(** C9. [monitor_cluster] leaves the monitor as it is when a record with the
    cluster's name and namespace is registered, appends exactly one fresh
    record when none is, and so calling it twice is the same as calling it
    once. *)
Theorem monitor_cluster_idempotent (cluster : InnoDBCluster) (handler : Handler)
    (gm : GroupMonitor) :
  ((∃ c, c ∈ clusters gm ∧ mc_name c = cluster_name cluster
         ∧ mc_namespace c = cluster_namespace cluster) →
     monitor_cluster cluster handler gm = gm) ∧
  ((∀ c, c ∈ clusters gm →
         ¬ (mc_name c = cluster_name cluster
            ∧ mc_namespace c = cluster_namespace cluster)) →
     clusters (monitor_cluster cluster handler gm)
     = (clusters gm ++ [MonitoredCluster_init cluster handler])%list
     ∧ stopped (monitor_cluster cluster handler gm) = stopped gm) ∧
  (∀ handler', monitor_cluster cluster handler' (monitor_cluster cluster handler gm)
               = monitor_cluster cluster handler gm).
Proof.
  split; [|split].
  - intros H. apply registered_iff in H. unfold monitor_cluster. by rewrite H.
  - intros H. unfold monitor_cluster.
    destruct (registered cluster (clusters gm)) eqn:Hr; [|done].
    apply registered_iff in Hr as (c & Hin & Hc). by destruct (H c Hin).
  - intros handler'.
    assert (Hr : registered cluster (clusters (monitor_cluster cluster handler gm)) = true).
    { unfold monitor_cluster.
      destruct (registered cluster (clusters gm)) eqn:Hr; [done|].
      apply registered_iff. exists (MonitoredCluster_init cluster handler).
      split; [|done]. cbn. apply elem_of_app. right. by apply list_elem_of_singleton. }
    unfold monitor_cluster at 1. by rewrite Hr.
Qed.

Lemma monitor_cluster_idempotent_witness :
  (∃ c, c ∈ clusters {| clusters := [sample_monitored 0%Qc]; stopped := false |}
        ∧ mc_name c = cluster_name (sample_cluster false None)
        ∧ mc_namespace c = cluster_namespace (sample_cluster false None)) ∧
  monitor_cluster (sample_cluster false None) {| handler_name := "other" |}
    {| clusters := [sample_monitored 0%Qc]; stopped := false |}
  = {| clusters := [sample_monitored 0%Qc]; stopped := false |}.
Proof.
  assert (H : ∃ c, c ∈ clusters {| clusters := [sample_monitored 0%Qc]; stopped := false |}
                   ∧ mc_name c = cluster_name (sample_cluster false None)
                   ∧ mc_namespace c = cluster_namespace (sample_cluster false None)).
  { exists (sample_monitored 0%Qc). split; [by apply list_elem_of_singleton|]. by split. }
  split; [exact H|].
  exact (proj1 (monitor_cluster_idempotent (sample_cluster false None)
                  {| handler_name := "other" |}
                  {| clusters := [sample_monitored 0%Qc]; stopped := false |}) H).
Defined.

(** ** Further properties of the monitor *)

Lemma wp_mcall (K : Collaborators) (c : Call) (Q : res (Ret c) → MState → Prop) st :
  Q (K_env K st c) (record_call c (outcome (K_env K st c)) st) → wp (call K c) Q st.
Proof. done. Qed.

(** One step of running a method of the monitor symbolically. *)
Ltac mwp_step :=
  lazymatch goal with
  | |- wp (bind _ _) _ _ => apply wp_bind
  | |- wp (try_except _ _) _ _ => apply wp_try_except
  | |- wp (finally _ _) _ _ => apply wp_finally
  | |- wp (call ?K ?c) ?Q ?w =>
      apply (wp_mcall K c Q w);
      let r := fresh "r" in
      let E := fresh "E" in
      destruct (K_env K w c) as [r|r] eqn:E; cbn [outcome]; cbn beta iota
  | |- wp (ret ?a) ?Q ?w => apply (ControllerSpec.wp_ret a Q w); cbn beta iota
  | |- wp (raise ?e) ?Q ?w => apply (ControllerSpec.wp_raise e Q w); cbn beta iota
  | |- wp (gets ?f) ?Q ?w => apply (ControllerSpec.wp_gets f Q w); cbn beta iota
  | |- wp (modify ?f) ?Q ?w => apply (ControllerSpec.wp_modify f Q w); cbn beta iota
  | |- wp (match ?x with _ => _ end) _ _ =>
      ControllerSpec.destruct_scrutinee x; cbn beta iota
  | |- match ?x with _ => _ end => ControllerSpec.destruct_scrutinee x; cbn beta iota
  end.

Section Connecting.

Variable K : Collaborators.

Lemma find_primary_loop_unreachable only_primary account pods not_primary st :
  (∀ st0 ep, ∃ code msg, K_env K st0 (GetSession ep) = Raise (MysqlshError code msg)) →
  wp (find_primary_loop K only_primary account pods not_primary)
    (λ r st', r = Ok (inr not_primary) ∧ self st' = self st) st.
Proof.
  intros Hun. revert not_primary st.
  induction pods as [|pod rest IH]; intros not_primary st; cbn [find_primary_loop].
  - by mwp_step.
  - destruct (negb only_primary || bool_decide _); [|apply IH].
    unfold try_connect. do 3 mwp_step.
    apply wp_mcall. destruct (Hun st (pod_xendpoint pod)) as (code & msg & ->).
    cbn [outcome]. cbn beta iota. mwp_step.
    eapply wp_mono; [apply IH|]. intros r st' [-> Hs]. split; [done|]. by rewrite Hs.
Qed.

(** X22. When no pod accepts a connection, [connect_to_primary] gives up in its
    first round without raising: it returns with no session recorded. *)
Theorem connect_to_primary_unreachable (fuel : nat) (st : MState) :
  (∀ st0 ep, ∃ code msg, K_env K st0 (GetSession ep) = Raise (MysqlshError code msg)) →
  (∀ st0, is_raise (K_env K st0 GetAdminAccount) = false) →
  (∀ st0, is_raise (K_env K st0 GetPods) = false) →
  (connect_to_primary K (S fuel) st).1 = Ok (Some tt)
  ∧ mc_session (self (connect_to_primary K (S fuel) st).2) = None.
Proof.
  intros Hun Hacc Hpods.
  change (wp (connect_to_primary K (S fuel))
            (λ r st', r = Ok (Some tt) ∧ mc_session (self st') = None) st).
  cbn [connect_to_primary]. unfold find_primary.
  do 3 mwp_step; [|specialize (Hacc st); by rewrite E in Hacc].
  do 2 mwp_step;
    [|match goal with
      | E : K_env K ?s GetPods = Raise _ |- _ => specialize (Hpods s); by rewrite E in Hpods
      end].
  mwp_step. eapply wp_mono; [by apply find_primary_loop_unreachable|].
  intros ? st1 [-> _]. cbn beta iota.
  mwp_step. eapply wp_mono; [by apply find_primary_loop_unreachable|].
  intros ? st2 [-> _]. cbn beta iota.
  by repeat mwp_step.
Qed.

(** X23. A session that [connect_to_primary] leaves recorded comes with its
    target and with whether the target is the primary. *)
Theorem connect_to_primary_target (fuel : nat) (st : MState) :
  (connect_to_primary K fuel st).1 = Ok (Some tt) →
  connected_has_target (self (connect_to_primary K fuel st).2).
Proof.
  revert st. induction fuel as [|fuel IH]; intros st; [discriminate|].
  change (wp (connect_to_primary K (S fuel))
            (λ r st', r = Ok (Some tt) → connected_has_target (self st')) st).
  cbn [connect_to_primary]. mwp_step. unfold wp at 1.
  destruct (find_primary K st) as [[[[session|] is_primary]|e] st1]; cbn [fst snd].
  - repeat first [exact (IH _) | mwp_step]; try discriminate.
    intros _ _. cbn. eauto.
  - repeat mwp_step. intros _ [s Hs]. discriminate Hs.
  - discriminate.
Qed.

(** X24. After [on_view_change] has returned, the view id it was given is
    recorded, and the session is either the one it found or dropped, never
    another; it is dropped when the target was known not to be the primary,
    and when the scan of the members forces a reconnection. The primary
    recorded is the one the scan found. *)
Theorem on_view_change_session (view_id : option string) (st : MState) :
  (on_view_change K view_id st).1 = Ok tt →
  mc_last_view_id (self (on_view_change K view_id st).2) = view_id
  ∧ (mc_session (self (on_view_change K view_id st).2) = None
     ∨ mc_session (self (on_view_change K view_id st).2) = mc_session (self st))
  ∧ (mc_target_not_primary (self st) = Some true →
     mc_session (self (on_view_change K view_id st).2) = None)
  ∧ ∀ members, K_env K st (QueryMembers (mc_session (self st))) = Ok members →
      mc_last_primary_id (self (on_view_change K view_id st).2)
      = (scan_members (mc_last_primary_id (self st)) members None).1
      ∧ ((scan_members (mc_last_primary_id (self st)) members None).2 = true →
         mc_session (self (on_view_change K view_id st).2) = None).
Proof.
  change (wp (on_view_change K view_id)
            (λ r st',
               r = Ok tt →
               mc_last_view_id (self st') = view_id
               ∧ (mc_session (self st') = None
                  ∨ mc_session (self st') = mc_session (self st))
               ∧ (mc_target_not_primary (self st) = Some true →
                  mc_session (self st') = None)
               ∧ ∀ members,
                   K_env K st (QueryMembers (mc_session (self st))) = Ok members →
                   mc_last_primary_id (self st')
                   = (scan_members (mc_last_primary_id (self st)) members None).1
                   ∧ ((scan_members (mc_last_primary_id (self st)) members None).2
                      = true → mc_session (self st') = None)) st).
  unfold on_view_change.
  repeat mwp_step; try discriminate.
  all: intros _; cbn in *.
  all: (split; [done|]); (split; [by auto|]); split.
  all: try (intros Ht; rewrite Ht in *; cbn in *; done).
  all: intros ms [= <-].
  all: match goal with
       | H : scan_members _ _ _ = _ |- _ => rewrite H; cbn [fst snd]
       end.
  all: split; [done|]; intros ->; try done.
  all: rewrite orb_true_r in *; discriminate.
Qed.

End Connecting.

Lemma connect_to_primary_unreachable_witness :
  (connect_to_primary (K_unreachable 0 [pod0; pod1]) 1 (sample_state 0)).1 = Ok (Some tt)
  ∧ mc_session (self (connect_to_primary (K_unreachable 0 [pod0; pod1]) 1
                        (sample_state 0)).2) = None.
Proof.
  apply (connect_to_primary_unreachable (K_unreachable 0 [pod0; pod1]) 0 (sample_state 0)).
  - intros st0 ep. eexists _, _. reflexivity.
  - intros st0. reflexivity.
  - intros st0. reflexivity.
Defined.

Lemma connect_to_primary_target_witness :
  (connect_to_primary (K_reachable [pod0]) 1 (sample_state 0)).1 = Ok (Some tt)
  ∧ connected_has_target
      (self (connect_to_primary (K_reachable [pod0]) 1 (sample_state 0)).2).
Proof.
  split; [reflexivity|].
  apply (connect_to_primary_target (K_reachable [pod0]) 1 (sample_state 0)).
  reflexivity.
Defined.

Lemma on_view_change_session_witness :
  let K := K_members [sample_member "uuid-0" "SECONDARY"; sample_member "uuid-1" "PRIMARY"] in
  let st := sample_connected "uuid-0" in
  mc_session (self st) = Some sample_session
  ∧ (on_view_change K (Some "view-2") st).1 = Ok tt
  ∧ mc_last_view_id (self (on_view_change K (Some "view-2") st).2) = Some "view-2"
  ∧ (scan_members (Some "uuid-0")
       [sample_member "uuid-0" "SECONDARY"; sample_member "uuid-1" "PRIMARY"] None).2
    = true
  ∧ mc_session (self (on_view_change K (Some "view-2") st).2) = None
  ∧ mc_last_primary_id (self (on_view_change K (Some "view-2") st).2) = None.
Proof.
  intros K st.
  split; [reflexivity|]. split; [reflexivity|].
  destruct (on_view_change_session K (Some "view-2") st eq_refl)
    as (Hview & _ & _ & Hscan).
  split; [exact Hview|]. split; [reflexivity|].
  destruct (Hscan [sample_member "uuid-0" "SECONDARY"; sample_member "uuid-1" "PRIMARY"]
              eq_refl) as [Hprimary Hdrop].
  split; [exact (Hdrop eq_refl) | exact Hprimary].
Defined.

Section Finding.

Variable K : Collaborators.

Lemma find_primary_loop_self only_primary account pods not_primary st :
  wp (find_primary_loop K only_primary account pods not_primary)
    (λ _ st', self st' = self st) st.
Proof.
  revert not_primary st.
  induction pods as [|pod rest IH]; intros not_primary st; cbn [find_primary_loop].
  - by mwp_step.
  - unfold try_connect. repeat first [exact (IH _ _) | mwp_step]; done.
Qed.

(** X25. [find_primary] only looks: it changes nothing of the monitored cluster
    object, and it never reports a primary without handing back the session
    to it. *)
Theorem find_primary_result (st : MState) :
  self (find_primary K st).2 = self st
  ∧ ∀ session, (find_primary K st).1 = Ok (session, true) → is_Some session.
Proof.
  change (wp (find_primary K)
            (λ r st', self st' = self st
                      ∧ ∀ session, r = Ok (session, true) → is_Some session) st).
  unfold find_primary.
  repeat first
    [ mwp_step
    | eapply wp_mono; [apply find_primary_loop_self|]; intros ? ? ?; cbn beta iota ].
  all: split; [cbn in *; congruence|].
  all: intros session' Hr; simplify_eq; eauto.
Qed.

End Finding.

Section Notices.

Variable K : Collaborators.
Variable fetch_notice : MState → XSession → res (option (option string)).

Lemma wp_call_fetch_notice (s : XSession) (Q : res (option (option string)) → MState → Prop)
    st :
  Q (fetch_notice st s) st → wp (call_fetch_notice fetch_notice s) Q st.
Proof. done. Qed.

Lemma on_view_change_keeps_session (view_id : option string) (st : MState) :
  wp (on_view_change K view_id)
    (λ _ st', mc_session (self st') = None
              ∨ mc_session (self st') = mc_session (self st)) st.
Proof. unfold on_view_change. repeat mwp_step; cbn; auto. Qed.

Lemma handle_notice_round_session (st : MState) :
  wp (handle_notice_round K fetch_notice)
    (λ _ st', mc_session (self st') = None
              ∨ mc_session (self st') = mc_session (self st)) st.
Proof.
  unfold handle_notice_round, the_session.
  repeat first
    [ match goal with
      | |- wp (on_view_change _ _) _ _ =>
          eapply wp_mono; [apply on_view_change_keeps_session|];
          let H := fresh "Hs" in intros ? ? H; cbn beta iota
      | |- wp (call_fetch_notice _ ?s) ?Q ?st0 =>
          apply (wp_call_fetch_notice s Q st0);
          destruct (fetch_notice st0 s) eqn:?; cbn beta iota
      end
    | mwp_step ].
  all: cbn in *; auto.
  all: try (destruct Hs as [Hs|Hs]; cbn in *; [left | right]; congruence).
Qed.

(** X30. [handle_notice] never replaces the session: however it ends,
    the monitored cluster is left with the session it had or with none.
    Called without a session it raises at once (an attribute access on
    [None]) and changes nothing. *)
Theorem handle_notice_session (fuel : nat) (st : MState) :
  (mc_session (self (handle_notice K fetch_notice fuel st).2) = None
   ∨ mc_session (self (handle_notice K fetch_notice fuel st).2) = mc_session (self st))
  ∧ (mc_session (self st) = None →
     handle_notice K fetch_notice (S fuel) st
     = (Raise (OtherException "'NoneType' object has no attribute"), st)).
Proof.
  split.
  - revert st. induction fuel as [|fuel IH]; intros st; [by right|].
    change (wp (handle_notice K fetch_notice (S fuel))
              (λ _ st', mc_session (self st') = None
                        ∨ mc_session (self st') = mc_session (self st)) st).
    cbn [handle_notice]. mwp_step.
    eapply wp_mono; [apply handle_notice_round_session|].
    intros [[]|e] st1 H1; cbn beta iota; [|by mwp_step|done].
    unfold wp. destruct (IH st1) as [H2|H2]; [by left|].
    rewrite H2. exact H1.
  - intros Hs.
    assert (H : wp (handle_notice K fetch_notice (S fuel))
                  (λ r st', r = Raise (OtherException "'NoneType' object has no attribute")
                            ∧ st' = st) st).
    { cbn [handle_notice]. unfold handle_notice_round, the_session.
      do 5 mwp_step. rewrite Hs. by repeat mwp_step. }
    unfold wp in H. destruct (handle_notice K fetch_notice (S fuel) st) as [r st'].
    cbn [fst snd] in H. destruct H as [-> ->]. reflexivity.
Qed.

End Notices.

Section Registry.

(** X26. The scan of the members in [on_view_change] forces a reconnection
    exactly when the member last seen as primary is listed with another
    role. *)
Theorem scan_members_force (last_primary_id : option string) (members : list Member)
    (primary : option string) :
  (scan_members last_primary_id members primary).2 = true
  ↔ ∃ m, m ∈ members ∧ last_primary_id = Some (member_id m)
         ∧ member_role m ≠ "PRIMARY".
Proof.
  revert primary. induction members as [|m rest IH]; intros primary; cbn [scan_members].
  - split; [discriminate|]. intros (m & Hin & _). by apply elem_of_nil in Hin.
  - assert (Hrest : ¬ (last_primary_id = Some (member_id m) ∧ member_role m ≠ "PRIMARY") →
      ((∃ m', m' ∈ rest ∧ last_primary_id = Some (member_id m')
              ∧ member_role m' ≠ "PRIMARY")
       ↔ ∃ m', m' ∈ m :: rest ∧ last_primary_id = Some (member_id m')
               ∧ member_role m' ≠ "PRIMARY")).
    { intros Hm. split; intros (m' & Hin & H).
      - exists m'. split; [apply elem_of_cons; by right | done].
      - apply elem_of_cons in Hin as [->|Hin]; [done|]. by exists m'. }
    destruct (bool_decide_reflect (last_primary_id = Some (member_id m))) as [Hid|Hid];
      destruct (String.eqb_spec (member_role m) "PRIMARY") as [Hr|Hr];
      cbn [andb negb].
    + rewrite <- Hrest by (intros [_ H]; done).
      destruct (truthy_str primary); cbn [negb]; apply IH.
    + split; [|done]. intros _. exists m. split; [apply elem_of_cons; by left | done].
    + rewrite <- Hrest by (intros [H _]; done).
      destruct (truthy_str primary); cbn [negb]; apply IH.
    + rewrite <- Hrest by (intros [H _]; done). apply IH.
Qed.

Lemma same_identity_spec (cluster : InnoDBCluster) (c : MonitoredCluster) :
  same_identity cluster c = true
  ↔ identity c = (cluster_name cluster, cluster_namespace cluster).
Proof.
  unfold same_identity, identity. rewrite andb_true_iff, !String.eqb_eq.
  split; [by intros [-> ->] | by intros [= -> ->]].
Qed.

Lemma registered_identity (cluster : InnoDBCluster) (cs : list MonitoredCluster) :
  registered cluster cs = true
  ↔ (cluster_name cluster, cluster_namespace cluster) ∈ identity <$> cs.
Proof.
  rewrite registered_iff, list_elem_of_fmap. unfold identity. split.
  - intros (c & Hin & <- & <-). by exists c.
  - intros (c & [= -> ->] & Hin). by exists c.
Qed.

Lemma remove_first_identities (cluster : InnoDBCluster) (cs : list MonitoredCluster) x :
  x ∈ identity <$> remove_first cluster cs → x ∈ identity <$> cs.
Proof.
  induction cs as [|c rest IH]; cbn [remove_first]; [done|].
  rewrite fmap_cons. destruct (same_identity cluster c).
  - intros H. apply elem_of_cons. by right.
  - rewrite fmap_cons, !elem_of_cons. intros [->|H]; [by left | right; by apply IH].
Qed.

Lemma remove_first_distinct (cluster : InnoDBCluster) (cs : list MonitoredCluster) :
  NoDup (identity <$> cs) → NoDup (identity <$> remove_first cluster cs).
Proof.
  induction cs as [|c rest IH]; cbn [remove_first]; [done|].
  rewrite fmap_cons. intros [Hc Hrest]%NoDup_cons.
  destruct (same_identity cluster c); [done|].
  rewrite fmap_cons. apply NoDup_cons. split; [|by apply IH].
  intros H. by apply Hc, (remove_first_identities cluster).
Qed.

Lemma remove_first_unregisters (cluster : InnoDBCluster) (cs : list MonitoredCluster) :
  NoDup (identity <$> cs) → registered cluster (remove_first cluster cs) = false.
Proof.
  induction cs as [|c rest IH]; cbn [remove_first]; [done|].
  rewrite fmap_cons. intros [Hc Hrest]%NoDup_cons.
  destruct (same_identity cluster c) eqn:Hsame.
  - apply same_identity_spec in Hsame. apply not_true_is_false.
    intros H%registered_identity. apply Hc. by rewrite Hsame.
  - cbn [registered]. rewrite Hsame. by apply IH.
Qed.

Lemma apply_op_distinct (gm : GroupMonitor) (op : MonitorOp) :
  distinct_identities gm → distinct_identities (apply_op gm op).
Proof.
  unfold distinct_identities. intros Hgm. destruct op as [cluster handler|cluster|].
  - cbn [apply_op]. unfold monitor_cluster.
    destruct (registered cluster (clusters gm)) eqn:Hreg; [done|].
    cbn [clusters]. rewrite fmap_app. apply NoDup_app. split; [done|]. split.
    + intros x Hx [->|[]%elem_of_nil]%elem_of_cons.
      apply (registered_identity cluster) in Hx. congruence.
    + apply NoDup_singleton.
  - by apply remove_first_distinct.
  - done.
Qed.

Lemma run_ops_distinct_from (ops : list MonitorOp) (gm : GroupMonitor) :
  distinct_identities gm → distinct_identities (run_ops ops gm).
Proof.
  revert gm. induction ops as [|op ops IH]; intros gm Hgm; [done|].
  cbn [run_ops fold_left]. apply IH. by apply apply_op_distinct.
Qed.

(** X27. However [monitor_cluster], [remove_cluster] and [stop] are called on a
    fresh monitor, no two of its records share name and namespace. *)
Theorem run_ops_distinct (ops : list MonitorOp) :
  distinct_identities (run_ops ops GroupMonitor_init).
Proof.
  apply run_ops_distinct_from.
  unfold distinct_identities, GroupMonitor_init. cbn [clusters fmap list_fmap].
  apply NoDup_nil_2.
Qed.

(** X28. [remove_cluster] is enough to stop monitoring a cluster: in every
    state the monitor can reach, no record with the cluster's name and
    namespace is left after it. *)
Theorem remove_cluster_unregisters (ops : list MonitorOp) (cluster : InnoDBCluster) :
  registered cluster
    (clusters (remove_cluster cluster (run_ops ops GroupMonitor_init))) = false.
Proof.
  cbn [remove_cluster clusters]. apply remove_first_unregisters.
  apply (run_ops_distinct_from ops GroupMonitor_init).
  unfold distinct_identities. cbn. apply NoDup_nil_2.
Qed.

(** X29. [remove_cluster] undoes [monitor_cluster]: registering a cluster that
    was not monitored and removing it again gives back the monitor as it
    was. *)
Theorem remove_cluster_undoes_monitor (cluster : InnoDBCluster) (handler : Handler)
    (gm : GroupMonitor) :
  registered cluster (clusters gm) = false →
  remove_cluster cluster (monitor_cluster cluster handler gm) = gm.
Proof.
  intros Hreg. unfold remove_cluster, monitor_cluster. rewrite Hreg. cbn [clusters stopped].
  assert (Hrm : ∀ cs, registered cluster cs = false →
    remove_first cluster (cs ++ [MonitoredCluster_init cluster handler]) = cs).
  { induction cs as [|c rest IH]; cbn [registered remove_first app].
    - intros _. unfold same_identity, mc_name, mc_namespace. cbn.
      by rewrite !String.eqb_refl.
    - destruct (same_identity cluster c); [discriminate|].
      intros H. by rewrite IH. }
  rewrite Hrm by done. by destruct gm.
Qed.

End Registry.

Lemma remove_cluster_undoes_monitor_witness :
  registered (sample_cluster false None) (clusters GroupMonitor_init) = false ∧
  remove_cluster (sample_cluster false None)
    (monitor_cluster (sample_cluster false None)
       {| handler_name := "on_group_view_change" |} GroupMonitor_init)
  = GroupMonitor_init.
Proof.
  split; [reflexivity|].
  apply (remove_cluster_undoes_monitor (sample_cluster false None)
           {| handler_name := "on_group_view_change" |} GroupMonitor_init).
  reflexivity.
Defined.

End MonitorSpec.
